(** * AthletiTrack: the statistics entry workflow and the roster bulk delete

    A shallow embedding of [athletes/views.py] ([manage_athlete_stats],
    [athlete_list]) and of [events/forms.py] ([GameReportForm]), with the
    properties of the specification stated over it.

    Tables are lists of rows in insertion order.  The ORM calls of the views
    ([filter], [get_or_create], [update_or_create], [delete]) are functions
    on these lists; a view is a function from the request and the database
    to the database it leaves behind, the messages it queued and its
    response.  Every ORM call commits on its own (no [transaction.atomic]
    surrounds the calls of [manage_athlete_stats]), so an exception raised
    halfway returns the database as it is at that point.

    Python, Django and the database are not among the sources.  What
    [athlete_list] takes from the three is a parameter of the view: the
    conversion of a submitted text to a number, the numbers that the
    database driver accepts in a query, and the order in which the database
    sorts names.  In [manage_athlete_stats] the year of a record is an
    integer of any size: the error of a database driver on a year that its
    column cannot hold is not part of [update_or_create]. *)

From Stdlib Require Import ZArith Lia Ascii.
From stdpp Require Import base decidable option list strings gmap pretty sorting.

Local Open Scope string_scope.
Local Open Scope list_scope.
Local Open Scope Z_scope.

(** ** Models

    [athletes/models.py] and [core/models.py] are not among the sources:
    each record has the columns that the views read or write. *)

Module Team.
(** A team belongs to exactly one sport: [sport] is never null. *)
Record t : Type := mk { pk : Z; sport : Z; campus : Z }.
End Team.

Module CustomUser.
(** [CustomUser.Role]; [OtherRole] stands for any further member. *)
Inductive Role : Type :=
| ADMINISTRATOR
| COACH
| ATHLETE
| OtherRole (label : string).

Record t : Type :=
  mk { pk : Z; role : Role; gender : string; first_name : string }.

#[global] Instance Role_eq_dec : EqDecision Role.
Proof. solve_decision. Defined.
End CustomUser.

Module Coach.
Record t : Type := mk { pk : Z; user_id : Z; team : option Team.t }.
End Coach.

Module Athlete.
Record t : Type :=
  mk { pk : Z; user_id : Z; team : option Team.t; coach_id : option Z }.
End Athlete.

Module Statistic.
(** [sport = None] is a universal statistic. *)
Record t : Type :=
  mk { pk : Z; name : string; short_name : string; sport : option Z }.
End Statistic.

Module PerformanceStat.
Record t : Type :=
  mk { pk : Z; athlete : Z; statistic : Z; year : Z; value : string }.

Definition with_value (v : string) (r : t) : t :=
  mk (pk r) (athlete r) (statistic r) (year r) v.
End PerformanceStat.

Record DB : Type := mkDB {
  users : list CustomUser.t;
  coaches : list Coach.t;
  athletes : list Athlete.t;
  statistics : list Statistic.t;
  performance_stats : list PerformanceStat.t
}.

Definition set_users (us : list CustomUser.t) (db : DB) : DB :=
  mkDB us (coaches db) (athletes db) (statistics db) (performance_stats db).

Definition set_statistics (ss : list Statistic.t) (db : DB) : DB :=
  mkDB (users db) (coaches db) (athletes db) ss (performance_stats db).

Definition set_performance_stats (rs : list PerformanceStat.t) (db : DB) : DB :=
  mkDB (users db) (coaches db) (athletes db) (statistics db) rs.

(** The key the database gives to a new row: larger than every key of the
    table. *)
Definition fresh_pk (pks : list Z) : Z := 1 + foldr Z.max 0 pks.

(** ** Exceptions and the store monad *)

Inductive Exception : Type :=
| MultipleObjectsReturned
| DoesNotExist
| ValueError
| OverflowError.

(** A computation on the database: it returns the database it leaves and
    either a value or the exception it raised. *)
Definition M (A : Type) : Type := DB → DB * (Exception + A).

Definition ret {A} (a : A) : M A := λ db, (db, inr a).
Definition raise {A} (e : Exception) : M A := λ db, (db, inl e).
Definition bind {A B} (m : M A) (k : A → M B) : M B :=
  λ db, match m db with
        | (db', inr a) => k a db'
        | (db', inl e) => (db', inl e)
        end.

Notation "x ←← m ;; k" := (bind m (λ x, k))
  (at level 100, m at next level, right associativity).
Notation "m ;;; k" := (bind m (λ _, k))
  (at level 100, right associativity).

(** [for x in l: body(x)] *)
Fixpoint for_each {A} (body : A → M unit) (l : list A) : M unit :=
  match l with
  | [] => ret tt
  | x :: l' => body x ;;; for_each body l'
  end.

(** ** ORM calls of [manage_athlete_stats] *)

Definition is_universal (label : string) (s : Statistic.t) : Prop :=
  Statistic.name s = label ∧ Statistic.sport s = None.

#[global] Instance is_universal_dec label s : Decision (is_universal label s).
Proof. unfold is_universal. apply _. Defined.

(** [Statistic.objects.get_or_create(name=label, sport=None,
    defaults={'short_name': key})]: the lookup is by [name] and [sport]
    only; [key] is used when the row is created. *)
Definition get_or_create (label key : string) : M Statistic.t :=
  λ db,
    match filter (is_universal label) (statistics db) with
    | [] =>
        let s := Statistic.mk (fresh_pk (Statistic.pk <$> statistics db))
                   label key None in
        (set_statistics (statistics db ++ [s]) db, inr s)
    | [s] => (db, inr s)
    | _ :: _ :: _ => (db, inl MultipleObjectsReturned)
    end.

Definition is_record (a s y : Z) (r : PerformanceStat.t) : Prop :=
  PerformanceStat.athlete r = a ∧ PerformanceStat.statistic r = s
  ∧ PerformanceStat.year r = y.

#[global] Instance is_record_dec a s y r : Decision (is_record a s y r).
Proof. unfold is_record. apply _. Defined.

(** The row matched by the lookup gets the new value, in place. *)
Definition save_value (a s y : Z) (v : string) (r : PerformanceStat.t)
  : PerformanceStat.t :=
  if decide (is_record a s y r) then PerformanceStat.with_value v r else r.

(** [PerformanceStat.objects.update_or_create(athlete=a, statistic=s,
    year=y, defaults={'value': v})] *)
Definition update_or_create (a s y : Z) (v : string) : M unit :=
  λ db,
    let rows := performance_stats db in
    match filter (is_record a s y) rows with
    | [] =>
        let r := PerformanceStat.mk (fresh_pk (PerformanceStat.pk <$> rows))
                   a s y v in
        (set_performance_stats (rows ++ [r]) db, inr tt)
    | [_] => (set_performance_stats (save_value a s y v <$> rows) db, inr tt)
    | _ :: _ :: _ => (db, inl MultipleObjectsReturned)
    end.

(** [Statistic.objects.filter(sport=athlete_sport)] *)
Definition of_sport (sp : Z) (s : Statistic.t) : Prop :=
  Statistic.sport s = Some sp.

#[global] Instance of_sport_dec sp s : Decision (of_sport sp s).
Proof. unfold of_sport. apply _. Defined.

Definition sport_specific_stats (sp : Z) (db : DB) : list Statistic.t :=
  filter (of_sport sp) (statistics db).

(** ** Forms *)

Inductive FieldType : Type := CharField | IntegerField.

Record Field : Type :=
  mkField { label : string; required : bool; field_type : FieldType }.

(** A Python value held by [initial] or [cleaned_data]. *)
Inductive Value : Type :=
| Str (s : string)
| Int (z : Z).

(** [request.POST]: every key has the list of the values submitted for it. *)
Definition getlist (key : string) (q : gmap string (list string)) : list string :=
  default [] (q !! key).

Definition get (key : string) (q : gmap string (list string)) : option string :=
  last (getlist key q).

Record Form : Type := mkForm {
  fields : gmap string Field;
  initial : gmap string Value;
  data : option (gmap string (list string))
}.

(** [forms.CharField(label=stat.name, required=False, widget=TextInput)] *)
Definition stat_field (stat : Statistic.t) : Field :=
  mkField (Statistic.name stat) false CharField.

(** [for stat in stats: self.fields[stat.short_name] = CharField(...)] *)
Definition add_stat_fields (stats : list Statistic.t) (fs : gmap string Field)
  : gmap string Field :=
  foldl (λ fs stat, <[Statistic.short_name stat := stat_field stat]> fs) fs stats.

(** [GameReportForm.__init__]: the fields built for the [sport] keyword. *)
Definition GameReportForm (sport : option Z) (db : DB) : gmap string Field :=
  match sport with
  | Some sp => add_stat_fields (sport_specific_stats sp db) ∅
  | None => ∅
  end.

(** The white space that [int] drops around a numeral: the characters 9
    to 13 and 28 to 32. *)
Definition is_space (c : Ascii.ascii) : bool :=
  let n := Ascii.nat_of_ascii c in
  ((9 <=? n) && (n <=? 13) || (28 <=? n) && (n <=? 32))%nat.

Fixpoint lstrip (s : string) : string :=
  match s with
  | String c s' => if is_space c then lstrip s' else s
  | EmptyString => EmptyString
  end.

Fixpoint rstrip (s : string) : string :=
  match s with
  | String c s' =>
      match rstrip s' with
      | EmptyString => if is_space c then EmptyString else String c EmptyString
      | t => String c t
      end
  | EmptyString => EmptyString
  end.

Definition digit (c : Ascii.ascii) : option Z :=
  let n := Ascii.nat_of_ascii c in
  if ((48 <=? n) && (n <=? 57))%nat then Some (Z.of_nat n - 48) else None.

(** What the scan of a numeral has just read. *)
Inductive Scanned : Type := Nothing | ADigit | AnUnderscore.

(** The digits of a numeral; an underscore stands between two digits. *)
Fixpoint scan_digits (seen : Scanned) (acc : Z) (s : string) : option Z :=
  match s with
  | String c s' =>
      match digit c with
      | Some d => scan_digits ADigit (10 * acc + d) s'
      | None =>
          match seen with
          | ADigit =>
              if Ascii.eqb c "_"%char then scan_digits AnUnderscore acc s' else None
          | _ => None
          end
      end
  | EmptyString =>
      match seen with
      | ADigit => Some acc
      | _ => None
      end
  end.

(** Python's [int(s)] on an ASCII text: the white space around the numeral
    is dropped, one sign may precede the digits, and single underscores may
    separate them.  [None] is [ValueError]. *)
Definition int_of_string (s : string) : option Z :=
  match rstrip (lstrip s) with
  | String "+"%char t => scan_digits Nothing 0 t
  | String "-"%char t => Z.opp <$> scan_digits Nothing 0 t
  | t => scan_digits Nothing 0 t
  end.

(** [if value:] *)
Definition truthy (v : Value) : bool :=
  match v with
  | Str s => bool_decide (s ≠ "")
  | Int z => bool_decide (z ≠ 0)
  end.

(** The text stored in the [value] column. *)
Definition to_text (v : Value) : string :=
  match v with
  | Str s => s
  | Int z => pretty z
  end.

(** ** Requests and responses *)

Inductive Method : Type := GET | POST | OtherMethod.

Record Request : Type := mkRequest {
  user : option CustomUser.t;   (* [None]: nobody is logged in *)
  method : Method;
  GET_data : gmap string (list string);
  POST_data : gmap string (list string)
}.

Inductive Message : Type :=
| error (text : string)
| success (text : string).

Inductive Response : Type :=
| redirect (to : string) (pk : option Z)
| redirect_to_login
| render_form (template : string) (form : Form) (athlete : Athlete.t)
| render_list (template : string) (athletes : list Athlete.t)
| Http404
| ServerError (e : Exception).

Record Outcome : Type := mkOutcome {
  db_after : DB;
  messages : list Message;
  response : Response
}.

(** [get_object_or_404(Athlete, pk=pk)] *)
Definition get_athlete (pk : Z) (db : DB) : option Athlete.t :=
  head (filter (λ a, Athlete.pk a = pk) (athletes db)).

(** [request.user.coach], when [hasattr(request.user, 'coach')] *)
Definition user_coach (u : CustomUser.t) (db : DB) : option Coach.t :=
  head (filter (λ c, Coach.user_id c = CustomUser.pk u) (coaches db)).

(** [request.user.athlete], when [hasattr(request.user, 'athlete')] *)
Definition user_athlete (u : CustomUser.t) (db : DB) : option Athlete.t :=
  head (filter (λ a, Athlete.user_id a = CustomUser.pk u) (athletes db)).

(** [stat_record.statistic] *)
Definition get_statistic (pk : Z) (db : DB) : option Statistic.t :=
  head (filter (λ s, Statistic.pk s = pk) (statistics db)).

(** ** The roster view *)

(** [Athlete.objects.filter(team=t)] *)
Definition on_team (t : Team.t) (a : Athlete.t) : Prop :=
  Team.pk <$> Athlete.team a = Some (Team.pk t).

#[global] Instance on_team_dec t a : Decision (on_team t a).
Proof. unfold on_team. apply _. Defined.

(** The querysets that Step 1 of [athlete_list] builds. *)
Inductive QuerySet : Type :=
| objects_none                          (* [Athlete.objects.none()] *)
| objects_all                           (* [Athlete.objects.all()] *)
| objects_filter_team (t : Team.t).     (* [Athlete.objects.filter(team=t)] *)

(** The rows of a queryset. *)
Definition rows (q : QuerySet) (db : DB) : list Athlete.t :=
  match q with
  | objects_none => []
  | objects_all => athletes db
  | objects_filter_team t => filter (on_team t) (athletes db)
  end.

(** Step 1 of [athlete_list]: the queryset the requester may see. *)
Definition base_query (u : CustomUser.t) (db : DB) : QuerySet :=
  match CustomUser.role u with
  | CustomUser.ADMINISTRATOR => objects_all
  | CustomUser.COACH =>
      match user_coach u db with
      | Some c =>
          match Coach.team c with
          | Some t => objects_filter_team t
          | None => objects_none
          end
      | None => objects_none
      end
  | CustomUser.ATHLETE =>
      match user_athlete u db with
      | Some a =>
          match Athlete.team a with
          | Some t => objects_filter_team t
          | None => objects_none
          end
      | None => objects_none
      end
  | CustomUser.OtherRole _ => objects_none
  end.

Definition base_queryset (u : CustomUser.t) (db : DB) : list Athlete.t :=
  rows (base_query u db) db.

(** Django sends no query for [none()] and for what is built on it. *)
Definition is_none (q : QuerySet) : bool :=
  match q with
  | objects_none => true
  | _ => false
  end.

(** Modelled from the spec: [CustomUser.objects.filter(pk__in=pks).delete()].
    The rows of [CustomUser] with these keys are removed; the cascade
    declared in the models (not among the sources) removes the athlete
    profiles of these users and the performance records owned by those
    athletes.  The result is the database and the number of rows removed. *)
Definition delete_users (pks : list Z) (db : DB) : DB * nat :=
  let gone_user (u : CustomUser.t) := CustomUser.pk u ∈ pks in
  let gone_athlete (a : Athlete.t) := Athlete.user_id a ∈ pks in
  let gone_pks := Athlete.pk <$> filter gone_athlete (athletes db) in
  let gone_record (r : PerformanceStat.t) := PerformanceStat.athlete r ∈ gone_pks in
  (mkDB (filter (λ u, ¬ gone_user u) (users db))
        (coaches db)
        (filter (λ a, ¬ gone_athlete a) (athletes db))
        (statistics db)
        (filter (λ r, ¬ gone_record r) (performance_stats db)),
   (length (filter gone_user (users db))
    + length (filter gone_athlete (athletes db))
    + length (filter gone_record (performance_stats db)))%nat).

Definition in_sport (z : Z) (a : Athlete.t) : Prop :=
  Team.sport <$> Athlete.team a = Some z.
Definition in_campus (z : Z) (a : Athlete.t) : Prop :=
  Team.campus <$> Athlete.team a = Some z.
Definition has_coach (z : Z) (a : Athlete.t) : Prop :=
  Athlete.coach_id a = Some z.

#[global] Instance in_sport_dec z a : Decision (in_sport z a).
Proof. unfold in_sport. apply _. Defined.
#[global] Instance in_campus_dec z a : Decision (in_campus z a).
Proof. unfold in_campus. apply _. Defined.
#[global] Instance has_coach_dec z a : Decision (has_coach z a).
Proof. unfold has_coach. apply _. Defined.

Definition has_gender (db : DB) (g : string) (a : Athlete.t) : Prop :=
  ∃ u, u ∈ users db ∧ CustomUser.pk u = Athlete.user_id a
       ∧ CustomUser.gender u = g.

#[global] Instance has_gender_dec db g a : Decision (has_gender db g a).
Proof.
  refine (cast_if (decide (Exists (λ u, CustomUser.pk u = Athlete.user_id a
                                       ∧ CustomUser.gender u = g) (users db))));
    unfold has_gender; rewrite Exists_exists in *; naive_solver.
Defined.

(** [athlete.user] *)
Definition athlete_user_row (db : DB) (a : Athlete.t) : option CustomUser.t :=
  head (filter (λ u, CustomUser.pk u = Athlete.user_id a) (users db)).

(** [select_related('user', 'team__sport', 'team__campus', 'coach__user')]:
    the join with the user, which every athlete has, keeps the athletes
    whose user is in the table; the team and the coach may be null, and
    their joins keep every athlete. *)
Definition select_related (db : DB) (l : list Athlete.t) : list Athlete.t :=
  filter (λ a, is_Some (athlete_user_row db a)) l.

(** [user__first_name] *)
Definition user__first_name (db : DB) (a : Athlete.t) : string :=
  default "" (CustomUser.first_name <$> athlete_user_row db a).

Section roster.

(** Python's [int] on a text, [None] where it raises [ValueError].  Django
    applies it to the value of a lookup on an integer column when the
    lookup is built. *)
Variable int : string → option Z.

(** The integers that the database driver accepts as a parameter of a
    query; on another one it raises [OverflowError] when the query is
    sent. *)
Variable in_range : Z → bool.

(** The order in which the database sorts names. *)
Variable name_le : string → string → bool.

(** The keys of an [__in] lookup on an integer column: every submitted
    text is converted with [int], which raises on a text that is no
    number. *)
Definition int_keys (l : list string) : Exception + list Z :=
  match mapM int l with
  | Some zs => inr zs
  | None => inl ValueError
  end.

(** One [if f: athlete_list = athlete_list.filter(...)] of Step 3, for a
    lookup on an integer column. *)
Definition filter_int (param : option string) (P : Z → Athlete.t → Prop)
    `{∀ z a, Decision (P z a)} (l : list Athlete.t)
  : Exception + list Athlete.t :=
  match param with
  | Some s =>
      if decide (s = "") then inr l
      else match int s with
           | Some z => inr (filter (P z) l)
           | None => inl ValueError
           end
  | None => inr l
  end.

(** The number that a GET parameter puts into the query of the list. *)
Definition given (param : option string) : option Z :=
  match param with
  | Some s => if decide (s = "") then None else int s
  | None => None
  end.

(** [order_by('user__first_name')]; athletes with the same name come in
    the order the sort leaves them in, which the database does not fix. *)
Definition by_first_name (db : DB) (a b : Athlete.t) : Prop :=
  name_le (user__first_name db a) (user__first_name db b) = true.

#[global] Instance by_first_name_dec db a b : Decision (by_first_name db a b).
Proof. unfold by_first_name. apply _. Defined.

Definition order_by_first_name (db : DB) (l : list Athlete.t) : list Athlete.t :=
  merge_sort (by_first_name db) l.

(** [athlete_list(request)].  The context of the page is its list of
    athletes, which the page shows: the query of the list is sent when the
    page is rendered. *)
Definition athlete_list (request : Request) (db : DB) : Outcome :=
  match user request with
  | None => mkOutcome db [] redirect_to_login
  | Some u =>
  let base := base_query u db in
  match method request with
  | POST =>
      let user_ids_to_delete := getlist "athlete_ids" (POST_data request) in
      match int_keys user_ids_to_delete with
      | inl e => mkOutcome db [] (ServerError e)
      | inr ids =>
          (* [if deletable_users:] sends the query, unless it is known to
             be empty *)
          if negb (is_none base) && negb (bool_decide (ids = []))
             && negb (forallb in_range ids)
          then mkOutcome db [] (ServerError OverflowError)
          else
          let deletable_users :=
            Athlete.user_id
              <$> filter (λ a, Athlete.user_id a ∈ ids) (rows base db) in
          match deletable_users with
          | [] => mkOutcome db [] (redirect "athlete-list" None)
          | _ :: _ =>
              let '(db', deleted_count) := delete_users deletable_users db in
              mkOutcome db'
                [success ("Successfully deleted "
                          +:+ pretty (Z.of_nat deleted_count)
                          +:+ " athlete(s).")]
                (redirect "athlete-list" None)
          end
      end
  | _ =>
      let q := GET_data request in
      let step l (f : list Athlete.t → Exception + list Athlete.t) :=
        match l with inr l => f l | inl e => inl e end in
      let l0 := select_related db (rows base db) in
      let l1 := filter_int (get "sport" q) in_sport l0 in
      let l2 := step l1 (filter_int (get "campus" q) in_campus) in
      let l3 := step l2 (filter_int (get "coach" q) has_coach) in
      let l4 := step l3 (λ l,
                  match get "gender" q with
                  | Some g => if decide (g = "") then inr l
                              else inr (filter (has_gender db g) l)
                  | None => inr l
                  end) in
      match l4 with
      | inr l =>
          if negb (is_none base)
             && negb (forallb in_range
                        (omap given [get "sport" q; get "campus" q;
                                     get "coach" q]))
          then mkOutcome db [] (ServerError OverflowError)
          else mkOutcome db []
                 (render_list "athletes/athlete_list.html"
                    (order_by_first_name db l))
      | inl e => mkOutcome db [] (ServerError e)
      end
  end
  end.

(** What a GET parameter of [athlete_list] asks of a listed athlete: nothing
    when it is absent or empty, and [P z] when [int] makes it the number
    [z]. *)
Definition accepts (param : option string) (P : Z → Athlete.t → Prop)
    (a : Athlete.t) : Prop :=
  match param with
  | Some s => s = "" ∨ ∃ z, int s = Some z ∧ P z a
  | None => True
  end.

(** The parameter is absent, empty, or a number that the driver accepts. *)
Definition numeric_or_blank (param : option string) : Prop :=
  match param with
  | Some s => s = "" ∨ ∃ z, int s = Some z ∧ in_range z = true
  | None => True
  end.

End roster.

Definition accepts_gender (db : DB) (param : option string) (a : Athlete.t)
  : Prop :=
  match param with
  | Some g => g = "" ∨ has_gender db g a
  | None => True
  end.

(** ** Bulk enrolment: the validation pass and the user names

    [bulk_add_by_team_view] reads the emails and the user names of
    [CustomUser]; the two columns are not in the record above, so the
    query on the emails is a parameter and the user names are a list.
    [lower] is Python's [str.lower]. *)

Module Entry.
(** One form of the formset: [has_changed()] and the cleaned data that the
    view reads. *)
Record t : Type :=
  mk { has_changed : bool; first_name : string; last_name : string;
       email : option string }.

#[global] Instance entry_eq_dec : EqDecision t.
Proof. solve_decision. Defined.
End Entry.

Record Validation : Type := mkValidation {
  emails_in_this_batch : gset string;
  new_athletes_info : list Entry.t;
  warnings : list string   (* the email named by each warning message *)
}.

(** Lines 168-175: one pass through the loop of pass 1.  [email_taken] is
    [CustomUser.objects.filter(email__iexact=email).exists()]. *)
Definition validation_step (lower : string → string)
    (email_taken : string → bool) (st : Validation) (form : Entry.t)
  : Validation :=
  if Entry.has_changed form then
    match Entry.email form with
    | Some email =>
        if decide (email = "") then st
        else if email_taken email
                || bool_decide (lower email ∈ emails_in_this_batch st)
        then mkValidation (emails_in_this_batch st) (new_athletes_info st)
               (warnings st ++ [email])
        else mkValidation ({[ lower email ]} ∪ emails_in_this_batch st)
               (new_athletes_info st ++ [form]) (warnings st)
    | None => st
    end
  else st.

(** Lines 163-175: pass 1 over the formset. *)
Definition validation (lower : string → string) (email_taken : string → bool)
    (formset : list Entry.t) : Validation :=
  foldl (validation_step lower email_taken) (mkValidation ∅ [] []) formset.

(** The forms that pass 1 considers: changed, with an email. *)
Definition eligible (form : Entry.t) : Prop :=
  Entry.has_changed form = true
  ∧ ∃ email, Entry.email form = Some email ∧ email ≠ "".

#[global] Instance eligible_dec form : Decision (eligible form).
Proof.
  unfold eligible. destruct (Entry.email form) as [email|].
  - destruct (decide (Entry.has_changed form = true ∧ email ≠ "")) as [H|H].
    + left. split; [tauto|]. exists email. tauto.
    + right. intros [? (e & [= <-] & ?)]. tauto.
  - right. by intros [_ (e & ? & _)].
Defined.

(** The lowered email of a form. *)
Definition lowered (lower : string → string) (form : Entry.t) : option string :=
  lower <$> Entry.email form.

(** Line 186: [f"{first_name.lower()}.{last_name.lower()}"] *)
Definition base_username (lower : string → string) (data : Entry.t) : string :=
  lower (Entry.first_name data) +:+ "." +:+ lower (Entry.last_name data).

(** Lines 187-191: the loop that looks for a free user name.  [username] is
    the candidate, [counter] the number the next candidate ends with; the
    loop body runs at most [fuel] times. *)
Fixpoint next_username (fuel : nat) (usernames : list string) (base : string)
    (counter : nat) (username : string) : option string :=
  if decide (username ∈ usernames) then
    match fuel with
    | O => None
    | S fuel' =>
        next_username fuel' usernames base (S counter) (base +:+ pretty counter)
    end
  else Some username.

(** The loop never runs more often than there are user names. *)
Definition unique_username (usernames : list string) (base : string)
  : option string :=
  next_username (length usernames) usernames base 1 base.

(** The [n]-th candidate of the loop. *)
Definition candidate (base : string) (n : nat) : string :=
  match n with
  | O => base
  | S _ => base +:+ pretty n
  end.

(** Lines 181-199, on the user names: the names given to the users that
    pass 2 creates, in the order of the batch, when no creation raises.
    Each user is created before the name of the next one is looked for. *)
Fixpoint created_usernames (lower : string → string) (usernames : list string)
    (batch : list Entry.t) : option (list string) :=
  match batch with
  | [] => Some []
  | data :: rest =>
      username ← unique_username usernames (base_username lower data);
      names ← created_usernames lower (usernames ++ [username]) rest;
      Some (username :: names)
  end.

(** ** A sample roster

    Athlete 7 plays on the soccer team (sport 10) and is coached by coach 3
    (user 30); athlete 8 plays tennis (sport 11); athlete 9 has no team.
    "Goals" belongs to soccer, "Aces" to tennis; the universal "Points" was
    stored under the short name [points]. *)

Definition sample_universal : list (string * string) := [("pts", "Points")].

Definition soccer : Team.t := Team.mk 1 10 100.
Definition tennis : Team.t := Team.mk 2 11 100.

Definition admin_user : CustomUser.t := CustomUser.mk 1 CustomUser.ADMINISTRATOR "F" "Ada".
Definition coach_user : CustomUser.t := CustomUser.mk 30 CustomUser.COACH "M" "Cal".
Definition athlete_user : CustomUser.t := CustomUser.mk 70 CustomUser.ATHLETE "F" "Zoe".
Definition tennis_user : CustomUser.t := CustomUser.mk 71 CustomUser.ATHLETE "M" "Ann".
Definition lone_user : CustomUser.t := CustomUser.mk 72 CustomUser.ATHLETE "F" "Bea".

Definition athlete7 : Athlete.t := Athlete.mk 7 70 (Some soccer) (Some 3).
Definition athlete8 : Athlete.t := Athlete.mk 8 71 (Some tennis) None.
Definition athlete9 : Athlete.t := Athlete.mk 9 72 None None.

Definition goals : Statistic.t := Statistic.mk 1 "Goals" "goals" (Some 10).
Definition aces : Statistic.t := Statistic.mk 2 "Aces" "aces" (Some 11).
Definition points : Statistic.t := Statistic.mk 3 "Points" "points" None.

Definition sample_db : DB :=
  mkDB [admin_user; coach_user; athlete_user; tennis_user; lone_user]
       [Coach.mk 3 30 (Some soccer)]
       [athlete7; athlete8; athlete9]
       [goals; aces; points]
       [PerformanceStat.mk 1 7 1 2024 "3"].

(** The same roster before any record was entered. *)
Definition blank_db : DB := set_performance_stats [] sample_db.

(** The same roster with two records of athlete 7 for "Goals" in 2024. *)
Definition doubled_db : DB :=
  set_performance_stats
    [PerformanceStat.mk 1 7 1 2024 "3"; PerformanceStat.mk 2 7 1 2024 "4"]
    sample_db.

Definition post (u : CustomUser.t) (q : gmap string (list string)) : Request :=
  mkRequest (Some u) POST ∅ q.

Definition sample_post : gmap string (list string) :=
  {[ "year" := ["2024"]; "pts" := ["12"]; "goals" := ["5"] ]}.

Definition first_post : gmap string (list string) :=
  {[ "year" := ["2024"]; "pts" := ["10"]; "goals" := ["3"] ]}.

Definition points_post : gmap string (list string) :=
  {[ "year" := ["2024"]; "pts" := ["12"] ]}.

Definition delete_post : gmap string (list string) :=
  {[ "athlete_ids" := ["70"; "71"] ]}.

Definition get_form (u : CustomUser.t) : Request := mkRequest (Some u) GET ∅ ∅.

(** The cleaned data of [sample_post]. *)
Definition sample_cleaned : gmap string Value :=
  {[ "year" := Int 2024; "pts" := Str "12"; "goals" := Str "5" ]}.

(** A submission of the id of an athlete of another team. *)
Definition other_team_post : gmap string (list string) :=
  {[ "athlete_ids" := ["+71"] ]}.

(** A submission whose ids carry a sign, blanks and an underscore. *)
Definition spaced_post : gmap string (list string) :=
  {[ "athlete_ids" := ["+70"; " 7_1 "] ]}.

(** The integers of 64 bits, which the driver of SQLite accepts. *)
Definition int64 (z : Z) : bool := (- 2 ^ 63 <=? z) && (z <? 2 ^ 63).

(** The list of the soccer players, asked for by the coach. *)
Definition soccer_list : Request :=
  mkRequest (Some coach_user) GET {[ "sport" := ["10"] ]} ∅.

(** [str.lower] on the letters A to Z. *)
Definition lower_char (c : Ascii.ascii) : Ascii.ascii :=
  let n := Ascii.nat_of_ascii c in
  if (65 <=? n)%nat && (n <=? 90)%nat then Ascii.ascii_of_nat (n + 32) else c.

Fixpoint ascii_lower (s : string) : string :=
  match s with
  | EmptyString => EmptyString
  | String c s' => String (lower_char c) (ascii_lower s')
  end.

(** A formset in which the second form repeats the email of the first up
    to case, the third is unchanged and the email of the fourth is taken. *)
Definition ann : Entry.t := Entry.mk true "Ann" "Lee" (Some "Ann@x.org").
Definition ann_again : Entry.t := Entry.mk true "Ann" "Lee" (Some "ann@X.org").
Definition untouched : Entry.t := Entry.mk false "" "" None.
Definition bo : Entry.t := Entry.mk true "Bo" "Diaz" (Some "bo@x.org").

Definition sample_formset : list Entry.t := [ann; ann_again; untouched; bo].

Definition sample_taken (email : string) : bool := bool_decide (email = "bo@x.org").

(** ** The statistics entry view *)

Section manage_stats.

(** [UNIVERSAL_STATISTICS] of [athletes/forms.py], the pairs
    [(key, label)] of the universal statistics; the module is not among the
    sources, so the list is a parameter. *)
Variable UNIVERSAL_STATISTICS : list (string * string).

(** Modelled from the spec: [ScorecardForm] of [athletes/forms.py], which is
    not among the sources.  For each universal statistic and each statistic
    of the sport it has one optional free-text field keyed by the short
    code, plus one required [year] field.  The sport-specific fields are
    built like those of [GameReportForm]. *)
Definition ScorecardForm_fields (sp : Z) (db : DB) : gmap string Field :=
  <["year" := mkField "Year" true IntegerField]>
    (add_stat_fields (sport_specific_stats sp db)
       (foldl (λ fs kl, <[kl.1 := mkField kl.2 false CharField]> fs)
              ∅ UNIVERSAL_STATISTICS)).

Definition ScorecardForm (data : option (gmap string (list string)))
    (initial : gmap string Value) (sp : Z) (db : DB) : Form :=
  mkForm (ScorecardForm_fields sp db) initial data.

(** Modelled from the spec: validation of one field.  [year], the integer
    field, fails when it is missing or not numeric; a statistic field is
    optional, and an absent value is the empty text. *)
Definition clean_field (f : Field) (raw : option string) : option Value :=
  match field_type f with
  | IntegerField => Int <$> (raw ≫= int_of_string)
  | CharField =>
      match raw with
      | Some s => if required f && bool_decide (s = "") then None else Some (Str s)
      | None => if required f then None else Some (Str "")
      end
  end.

Definition clean (form : Form) (k : string) (f : Field) : option Value :=
  clean_field f (data form ≫= get k).

(** [form.is_valid()] *)
Definition is_valid (form : Form) : bool :=
  bool_decide (is_Some (data form)
               ∧ map_Forall (λ k f, is_Some (clean form k f)) (fields form)).

(** [form.cleaned_data] *)
Definition cleaned_data (form : Form) : gmap string Value :=
  map_imap (clean form) (fields form).

(** Lines 260-272: the body of the loop over [UNIVERSAL_STATISTICS]. *)
Definition universal_body (athlete : Athlete.t) (year : Z)
    (cleaned : gmap string Value) (kl : string * string) : M unit :=
  let '(key, label) := kl in
  match cleaned !! key with
  | Some value =>
      if truthy value then
        stat_obj ←← get_or_create label key ;;
        update_or_create (Athlete.pk athlete) (Statistic.pk stat_obj) year
          (to_text value)
      else ret tt
  | None => ret tt
  end.

(** Lines 275-283: the body of the loop over [sport_specific_stats]. *)
Definition specific_body (athlete : Athlete.t) (year : Z)
    (cleaned : gmap string Value) (stat_definition : Statistic.t) : M unit :=
  match cleaned !! Statistic.short_name stat_definition with
  | Some value =>
      if truthy value then
        update_or_create (Athlete.pk athlete) (Statistic.pk stat_definition)
          year (to_text value)
      else ret tt
  | None => ret tt
  end.

(** Lines 260-283.  [sport_specific_stats] is a lazy queryset: it is
    evaluated when its loop starts, after the first loop has run. *)
Definition upsert (athlete : Athlete.t) (athlete_sport : Z) (year : Z)
    (cleaned : gmap string Value) : M unit :=
  for_each (universal_body athlete year cleaned) UNIVERSAL_STATISTICS ;;;
  stats ←← (λ db, (db, inr (sport_specific_stats athlete_sport db))) ;;
  for_each (specific_body athlete year cleaned) stats.

(** Lines 287-290: the initial data of the unbound form. *)
Definition initial_data (today : Z) (athlete : Athlete.t) (db : DB)
  : Exception + gmap string Value :=
  foldl (λ acc stat_record,
           match acc with
           | inr init =>
               match get_statistic (PerformanceStat.statistic stat_record) db with
               | Some st =>
                   inr (<[Statistic.short_name st :=
                            Str (PerformanceStat.value stat_record)]> init)
               | None => inl DoesNotExist
               end
           | inl e => inl e
           end)
        (inr {[ "year" := Int today ]})
        (filter (λ r, PerformanceStat.athlete r = Athlete.pk athlete
                      ∧ PerformanceStat.year r = today)
                (performance_stats db)).

Definition is_their_coach (u : CustomUser.t) (athlete : Athlete.t) (db : DB) : bool :=
  match user_coach u db with
  | Some c => bool_decide (Athlete.coach_id athlete = Some (Coach.pk c))
  | None => false
  end.

Definition is_admin (u : CustomUser.t) : bool :=
  bool_decide (CustomUser.role u = CustomUser.ADMINISTRATOR).

Definition template : string := "athletes/manage_stats_form.html".

(** [manage_athlete_stats(request, pk)]; [today] is
    [datetime.date.today().year]. *)
Definition manage_athlete_stats (today : Z) (request : Request) (pk : Z)
    (db : DB) : Outcome :=
  match user request with
  | None => mkOutcome db [] redirect_to_login
  | Some u =>
  match get_athlete pk db with
  | None => mkOutcome db [] Http404
  | Some athlete =>
  match Athlete.team athlete with
  | None =>
      mkOutcome db
        [error "Cannot manage stats for an athlete with no team assigned."]
        (redirect "athlete-detail" (Some pk))
  | Some team =>
  let athlete_sport := Team.sport team in
  if negb (is_their_coach u athlete db || is_admin u) then
    mkOutcome db
      [error "You are not authorized to manage these statistics."]
      (redirect "athlete-detail" (Some pk))
  else
  match method request with
  | POST =>
      let form := ScorecardForm (Some (POST_data request)) ∅ athlete_sport db in
      if is_valid form then
        match cleaned_data form !! "year" with
        | Some (Int year) =>
            match upsert athlete athlete_sport year (cleaned_data form) db with
            | (db', inr _) =>
                mkOutcome db'
                  [success ("Statistics for " +:+ pretty year
                            +:+ " have been updated successfully.")]
                  (redirect "athlete-detail" (Some pk))
            | (db', inl e) => mkOutcome db' [] (ServerError e)
            end
        | _ => mkOutcome db [] (ServerError ValueError)
        end
      else mkOutcome db [] (render_form template form athlete)
  | _ =>
      match initial_data today athlete db with
      | inr init =>
          mkOutcome db []
            (render_form template (ScorecardForm None init athlete_sport db)
               athlete)
      | inl e => mkOutcome db [] (ServerError e)
      end
  end
  end
  end
  end.


(** ** The writes of a submission, as a list of actions

    Each pass through a loop body whose value is truthy does one
    [update_or_create], after a [get_or_create] in the first loop.  The
    passes that write are collected in a list, so that both loops are one
    loop over it. *)

Inductive action : Type :=
| Universal (label key value : string)
| Specific (statistic : Z) (value : string).

Definition run_action (a y : Z) (act : action) : M unit :=
  match act with
  | Universal label key v =>
      stat_obj ←← get_or_create label key ;;
      update_or_create a (Statistic.pk stat_obj) y v
  | Specific s v => update_or_create a s y v
  end.

Definition universal_action (cleaned : gmap string Value) (kl : string * string)
  : option action :=
  match cleaned !! kl.1 with
  | Some value =>
      if truthy value then Some (Universal kl.2 kl.1 (to_text value)) else None
  | None => None
  end.

Definition specific_action (cleaned : gmap string Value) (st : Statistic.t)
  : option action :=
  match cleaned !! Statistic.short_name st with
  | Some value =>
      if truthy value then Some (Specific (Statistic.pk st) (to_text value))
      else None
  | None => None
  end.

Definition actions (cleaned : gmap string Value) (stats : list Statistic.t)
  : list action :=
  omap (universal_action cleaned) UNIVERSAL_STATISTICS
  ++ omap (specific_action cleaned) stats.

(** The statistic an action writes to, looked up in [db]. *)
Definition target (db : DB) (act : action) : option Z :=
  match act with
  | Universal label _ _ =>
      match filter (is_universal label) (statistics db) with
      | [s] => Some (Statistic.pk s)
      | _ => None
      end
  | Specific s _ => Some s
  end.

Definition written (act : action) : string :=
  match act with
  | Universal _ _ v => v
  | Specific _ v => v
  end.

(** ** How the database evolves under the ORM calls *)

(** Statistic rows are only appended, as universal rows under a new key and
    with a name that no universal row had. *)
Definition statistics_grow (db db' : DB) : Prop :=
  ∃ new, statistics db' = statistics db ++ new
    ∧ Forall (λ s, Statistic.sport s = None
                   ∧ (Statistic.pk s ∉ Statistic.pk <$> statistics db)
                   ∧ filter (is_universal (Statistic.name s)) (statistics db) = [])
             new.

(** The number of records of a triple never decreases, and increases only
    from zero to one. *)
Definition records_count (db db' : DB) : Prop :=
  ∀ a s y,
    (length (filter (is_record a s y) (performance_stats db))
     ≤ length (filter (is_record a s y) (performance_stats db')))%nat
    ∧ (length (filter (is_record a s y) (performance_stats db'))
       ≤ Nat.max 1 (length (filter (is_record a s y) (performance_stats db))))%nat.

Definition evolves (db db' : DB) : Prop :=
  users db' = users db ∧ coaches db' = coaches db ∧ athletes db' = athletes db
  ∧ statistics_grow db db' ∧ records_count db db'.

(** ** Re-running a list of actions

    [settled db acts]: every action of [acts] finds its statistic in [db],
    the triple it writes has exactly one record, and that record holds the
    value of the last action of [acts] that writes the triple. *)

Fixpoint settled (a y : Z) (db : DB) (acts : list action) : Prop :=
  match acts with
  | [] => True
  | act :: rest =>
      (∃ p r, target db act = Some p
         ∧ filter (is_record a p y) (performance_stats db) = [r]
         ∧ ((∃ act', act' ∈ rest ∧ target db act' = Some p)
            ∨ PerformanceStat.value r = written act))
      ∧ settled a y db rest
  end.

(** [pending a y db acts rx r]: the record [rx] is the record [r] of [db],
    or differs from it in the value only and is still to be written by an
    action of [acts]. *)
Definition pending (a y : Z) (db : DB) (acts : list action)
    (rx r : PerformanceStat.t) : Prop :=
  rx = r
  ∨ (PerformanceStat.with_value (PerformanceStat.value r) rx = r
     ∧ PerformanceStat.athlete rx = a ∧ PerformanceStat.year rx = y
     ∧ ∃ act, act ∈ acts ∧ target db act = Some (PerformanceStat.statistic rx)).

Definition sim (a y : Z) (acts : list action) (x db : DB) : Prop :=
  users x = users db ∧ coaches x = coaches db ∧ athletes x = athletes db
  ∧ statistics x = statistics db
  ∧ Forall2 (pending a y db acts) (performance_stats x) (performance_stats db).

(** At most one record for every (athlete, statistic, year). *)
Definition unique_records (db : DB) : Prop :=
  ∀ a s y, (length (filter (is_record a s y) (performance_stats db)) ≤ 1)%nat.

(** The outcomes of the two rejections of [manage_athlete_stats]. *)
Definition no_team (pk : Z) (db : DB) : Outcome :=
  mkOutcome db
    [error "Cannot manage stats for an athlete with no team assigned."]
    (redirect "athlete-detail" (Some pk)).

Definition unauthorized (pk : Z) (db : DB) : Outcome :=
  mkOutcome db
    [error "You are not authorized to manage these statistics."]
    (redirect "athlete-detail" (Some pk)).

(** [cleaned_data.get(key)] is truthy: a value was submitted for [key]. *)
Definition submitted (cleaned : gmap string Value) (key : string) : Prop :=
  ∃ value, cleaned !! key = Some value ∧ truthy value = true.

(** The statistic with primary key [p] is addressed by a submitted value: it
    is the universal row named by a pair of [UNIVERSAL_STATISTICS] whose
    key was submitted, or a row of the sport whose short name was submitted. *)
Definition addressed (cleaned : gmap string Value) (sp : Z) (db : DB) (p : Z)
  : Prop :=
  (∃ kl st, kl ∈ UNIVERSAL_STATISTICS ∧ submitted cleaned kl.1
            ∧ st ∈ statistics db ∧ is_universal kl.2 st ∧ Statistic.pk st = p)
  ∨ (∃ st, st ∈ statistics db ∧ of_sport sp st
           ∧ submitted cleaned (Statistic.short_name st) ∧ Statistic.pk st = p).

(** The athletes a requester may see, as the docstring of [athlete_list]
    has them. *)
Definition visible (u : CustomUser.t) (db : DB) (a : Athlete.t) : Prop :=
  a ∈ athletes db
  ∧ match CustomUser.role u with
    | CustomUser.ADMINISTRATOR => True
    | CustomUser.COACH =>
        ∃ c t, user_coach u db = Some c ∧ Coach.team c = Some t ∧ on_team t a
    | CustomUser.ATHLETE =>
        ∃ me t, user_athlete u db = Some me ∧ Athlete.team me = Some t
                ∧ on_team t a
    | CustomUser.OtherRole _ => False
    end.

(** At most one universal row of [Statistic] for every name. *)
Definition unique_universal (db : DB) : Prop :=
  ∀ label, (length (filter (is_universal label) (statistics db)) ≤ 1)%nat.

(** Every record refers to a row of [Statistic]. *)
Definition statistics_exist (db : DB) : Prop :=
  ∀ r, r ∈ performance_stats db →
       is_Some (get_statistic (PerformanceStat.statistic r) db).

(** [same_record r r']: [r'] is the record [r], up to its value. *)
Definition same_record (r r' : PerformanceStat.t) : Prop :=
  PerformanceStat.with_value (PerformanceStat.value r') r = r'.

(** The records of [db] are all in [db'], in their places and up to their
    values, followed by new records of athlete [a] and year [y]. *)
Definition records_kept (a y : Z) (db db' : DB) : Prop :=
  ∃ changed new,
    performance_stats db' = changed ++ new
    ∧ Forall2 same_record (performance_stats db) changed
    ∧ Forall (λ r, PerformanceStat.athlete r = a ∧ PerformanceStat.year r = y)
             new.

(** The rows of [Statistic] added between [db] and [db'] are universal rows
    named by a pair of [UNIVERSAL_STATISTICS], stored under its key. *)
Definition statistics_from_universal (db db' : DB) : Prop :=
  ∃ new,
    statistics db' = statistics db ++ new
    ∧ Forall (λ s, Statistic.sport s = None
                   ∧ (Statistic.short_name s, Statistic.name s)
                       ∈ UNIVERSAL_STATISTICS)
             new.

(** The key under which the GET branch pre-fills the value of a record. *)
Definition record_key (db : DB) (r : PerformanceStat.t) : option string :=
  Statistic.short_name <$> get_statistic (PerformanceStat.statistic r) db.

(** The records that the GET branch reads: those of the athlete for the
    current year. *)
Definition existing_stats (today : Z) (athlete : Athlete.t) (db : DB)
  : list PerformanceStat.t :=
  filter (λ r, PerformanceStat.athlete r = Athlete.pk athlete
               ∧ PerformanceStat.year r = today)
         (performance_stats db).

(** ** Basic facts *)

Lemma fresh_pk_gt (pks : list Z) (p : Z) : p ∈ pks → p < fresh_pk pks.
Proof.
  unfold fresh_pk. induction 1 as [p l|p q l _ IH]; simpl; lia.
Qed.

Lemma fresh_pk_not_in (pks : list Z) : fresh_pk pks ∉ pks.
Proof. intros H%fresh_pk_gt. lia. Qed.

Lemma DB_eq (db db' : DB) :
  users db = users db' → coaches db = coaches db' → athletes db = athletes db' →
  statistics db = statistics db' → performance_stats db = performance_stats db' →
  db = db'.
Proof. destruct db, db'; simpl; congruence. Qed.

Lemma for_each_app {A} (body : A → M unit) (l1 l2 : list A) (db : DB) :
  for_each body (l1 ++ l2) db = (for_each body l1 ;;; for_each body l2) db.
Proof.
  revert db. induction l1 as [|x l1 IH]; intros db; simpl.
  - reflexivity.
  - unfold bind. destruct (body x db) as [db' [e|[]]]; [done|].
    rewrite IH. reflexivity.
Qed.

Lemma for_each_omap {A B} (f : A → option B) (body : A → M unit)
    (body' : B → M unit) (l : list A) (db : DB) :
  (∀ x, body x = match f x with Some b => body' b | None => ret tt end) →
  for_each body l db = for_each body' (omap f l) db.
Proof.
  intros Hb. revert db. induction l as [|x l IH]; intros db; simpl; [done|].
  rewrite Hb. destruct (f x) as [b|]; simpl.
  - unfold bind. destruct (body' b db) as [db' [e|[]]]; [done|]. apply IH.
  - unfold bind, ret. apply IH.
Qed.

Inductive get_or_create_spec (label key : string) (db : DB)
  : DB * (Exception + Statistic.t) → Prop :=
| goc_found s :
    filter (is_universal label) (statistics db) = [s] →
    get_or_create_spec label key db (db, inr s)
| goc_created :
    filter (is_universal label) (statistics db) = [] →
    let s := Statistic.mk (fresh_pk (Statistic.pk <$> statistics db))
               label key None in
    get_or_create_spec label key db
      (set_statistics (statistics db ++ [s]) db, inr s)
| goc_multiple s1 s2 l :
    filter (is_universal label) (statistics db) = s1 :: s2 :: l →
    get_or_create_spec label key db (db, inl MultipleObjectsReturned).

Lemma get_or_create_cases label key db :
  get_or_create_spec label key db (get_or_create label key db).
Proof.
  unfold get_or_create.
  destruct (filter (is_universal label) (statistics db)) as [|s1 [|s2 l]] eqn:E.
  - by apply goc_created.
  - by apply goc_found.
  - by eapply goc_multiple.
Qed.

Inductive update_or_create_spec (a s y : Z) (v : string) (db : DB)
  : DB * (Exception + unit) → Prop :=
| uoc_created :
    filter (is_record a s y) (performance_stats db) = [] →
    let r := PerformanceStat.mk
               (fresh_pk (PerformanceStat.pk <$> performance_stats db)) a s y v in
    update_or_create_spec a s y v db
      (set_performance_stats (performance_stats db ++ [r]) db, inr tt)
| uoc_updated r :
    filter (is_record a s y) (performance_stats db) = [r] →
    update_or_create_spec a s y v db
      (set_performance_stats (save_value a s y v <$> performance_stats db) db,
       inr tt)
| uoc_multiple r1 r2 l :
    filter (is_record a s y) (performance_stats db) = r1 :: r2 :: l →
    update_or_create_spec a s y v db (db, inl MultipleObjectsReturned).

Lemma update_or_create_cases a s y v db :
  update_or_create_spec a s y v db (update_or_create a s y v db).
Proof.
  unfold update_or_create.
  destruct (filter (is_record a s y) (performance_stats db)) as [|r1 [|r2 l]] eqn:E.
  - by apply uoc_created.
  - by eapply uoc_updated.
  - by eapply uoc_multiple.
Qed.

Lemma is_record_with_value a s y v r :
  is_record a s y (PerformanceStat.with_value v r) ↔ is_record a s y r.
Proof. reflexivity. Qed.

Lemma is_record_save_value a s y a' s' y' v r :
  is_record a' s' y' (save_value a s y v r) ↔ is_record a' s' y' r.
Proof. unfold save_value. case_decide; [apply is_record_with_value | done]. Qed.

Lemma filter_save_value a s y a' s' y' v (rows : list PerformanceStat.t) :
  filter (is_record a' s' y') (save_value a s y v <$> rows)
  = save_value a s y v <$> filter (is_record a' s' y') rows.
Proof.
  induction rows as [|r rows IH]; [done|].
  rewrite fmap_cons, !filter_cons.
  destruct (decide (is_record a' s' y' r)) as [H|H].
  - rewrite decide_True by by apply is_record_save_value.
    by rewrite fmap_cons, IH.
  - rewrite decide_False by by rewrite is_record_save_value.
    done.
Qed.

Lemma filter_record_singleton a s y a' s' y' v pk :
  filter (is_record a' s' y') [PerformanceStat.mk pk a s y v]
  = if decide (a = a' ∧ s = s' ∧ y = y') then [PerformanceStat.mk pk a s y v]
    else [].
Proof.
  rewrite filter_cons, filter_nil. unfold is_record; simpl.
  repeat case_decide; done.
Qed.

(** *** [evolves] is a preorder, kept by every ORM call of the view *)

Lemma statistics_grow_refl db : statistics_grow db db.
Proof. exists []. by rewrite app_nil_r. Qed.

Lemma statistics_grow_trans db1 db2 db3 :
  statistics_grow db1 db2 → statistics_grow db2 db3 → statistics_grow db1 db3.
Proof.
  intros (n1 & E1 & F1) (n2 & E2 & F2). exists (n1 ++ n2). split.
  - by rewrite E2, E1, app_assoc.
  - apply Forall_app. split; [done|].
    eapply Forall_impl; [exact F2|]. intros s (Hs & Hpk & Hf).
    rewrite E1 in Hpk, Hf. rewrite fmap_app in Hpk. rewrite filter_app in Hf.
    apply app_eq_nil in Hf as [Hf _].
    split_and!; [done| |done]. intros Hin. apply Hpk, elem_of_app. by left.
Qed.

Lemma records_count_refl db : records_count db db.
Proof. intros a s y. lia. Qed.

Lemma records_count_trans db1 db2 db3 :
  records_count db1 db2 → records_count db2 db3 → records_count db1 db3.
Proof.
  intros H1 H2 a s y. specialize (H1 a s y). specialize (H2 a s y). lia.
Qed.

Lemma evolves_refl db : evolves db db.
Proof.
  unfold evolves. split_and!; auto using statistics_grow_refl, records_count_refl.
Qed.

Lemma evolves_trans db1 db2 db3 :
  evolves db1 db2 → evolves db2 db3 → evolves db1 db3.
Proof.
  intros (U1 & C1 & A1 & S1 & R1) (U2 & C2 & A2 & S2 & R2).
  unfold evolves. split_and!; try congruence.
  - eauto using statistics_grow_trans.
  - eauto using records_count_trans.
Qed.

Lemma get_or_create_evolves label key db :
  evolves db (get_or_create label key db).1.
Proof.
  destruct (get_or_create_cases label key db) as [s E| E s |s1 s2 l E]; simpl;
    try apply evolves_refl.
  unfold evolves; simpl. split_and!; try done.
  - exists [s]. split; [done|]. apply Forall_singleton. subst s; simpl.
    split_and!; [done|apply fresh_pk_not_in|done].
  - intros a' s' y'; simpl. lia.
Qed.

Lemma update_or_create_evolves a s y v db :
  evolves db (update_or_create a s y v db).1.
Proof.
  destruct (update_or_create_cases a s y v db) as [E r|r E|r1 r2 l E]; simpl;
    try apply evolves_refl.
  - unfold evolves; simpl. split_and!; try done; [by exists []; rewrite app_nil_r|].
    intros a' s' y'; simpl. rewrite filter_app, length_app. subst r.
    rewrite filter_record_singleton. case_decide as Hd; simpl.
    + destruct Hd as (-> & -> & ->). rewrite E. simpl. lia.
    + lia.
  - unfold evolves; simpl. split_and!; try done; [by exists []; rewrite app_nil_r|].
    intros a' s' y'; simpl. rewrite filter_save_value, length_fmap. lia.
Qed.

Lemma run_action_evolves a y act db : evolves db (run_action a y act db).1.
Proof.
  destruct act as [label key v|s v]; simpl; [|apply update_or_create_evolves].
  unfold bind. pose proof (get_or_create_evolves label key db) as H1.
  destruct (get_or_create label key db) as [db1 [e|st]]; simpl in *; [done|].
  eapply evolves_trans; [exact H1|]. apply update_or_create_evolves.
Qed.

Lemma for_each_evolves {A} (body : A → M unit) (l : list A) db :
  (∀ x db, evolves db (body x db).1) → evolves db (for_each body l db).1.
Proof.
  intros Hb. revert db. induction l as [|x l IH]; intros db; simpl.
  - apply evolves_refl.
  - unfold bind. pose proof (Hb x db) as H1.
    destruct (body x db) as [db1 [e|[]]]; simpl in *; [done|].
    eapply evolves_trans; [exact H1|]. apply IH.
Qed.

Lemma evolves_sport_specific_stats sp db db' :
  evolves db db' → sport_specific_stats sp db' = sport_specific_stats sp db.
Proof.
  intros (_ & _ & _ & (new & E & F) & _). unfold sport_specific_stats.
  rewrite E, filter_app.
  assert (filter (of_sport sp) new = []) as ->; [|by rewrite app_nil_r].
  clear E. induction F as [|s new (Hs & _) _ IH]; [done|].
  rewrite filter_cons_False; [done|]. unfold of_sport. by rewrite Hs.
Qed.

(** Both loops of the view are the one loop over the actions. *)
Lemma upsert_actions athlete sp y cleaned db :
  upsert athlete sp y cleaned db
  = for_each (run_action (Athlete.pk athlete) y)
      (actions cleaned (sport_specific_stats sp db)) db.
Proof.
  unfold upsert, actions. rewrite for_each_app. unfold bind at 1 3.
  rewrite (for_each_omap (universal_action cleaned) _
             (run_action (Athlete.pk athlete) y)).
  2:{ intros [key label]. unfold universal_body, universal_action; simpl.
      destruct (cleaned !! key) as [value|]; [|done]. by destruct (truthy value). }
  pose proof (for_each_evolves (run_action (Athlete.pk athlete) y)
                (omap (universal_action cleaned) UNIVERSAL_STATISTICS) db
                (run_action_evolves _ _)) as Hev.
  destruct (for_each _ (omap _ UNIVERSAL_STATISTICS) db) as [db1 [e|[]]];
    simpl in *; [done|].
  unfold bind. rewrite (evolves_sport_specific_stats _ _ _ Hev).
  apply for_each_omap. intros st. unfold specific_body, specific_action.
  destruct (cleaned !! Statistic.short_name st) as [value|]; [|done].
  by destruct (truthy value).
Qed.

(** *** One action *)

Lemma statistics_grow_filter db db' label :
  statistics_grow db db' →
  filter (is_universal label) (statistics db) ≠ [] →
  filter (is_universal label) (statistics db')
  = filter (is_universal label) (statistics db).
Proof.
  intros (new & E & F) Hne. rewrite E, filter_app.
  assert (filter (is_universal label) new = []) as ->; [|by rewrite app_nil_r].
  clear E. induction F as [|s new (Hs & _ & Hf) _ IH]; [done|].
  rewrite filter_cons_False; [done|]. intros [Hn _]. by rewrite Hn in Hf.
Qed.

Lemma target_evolves db db' act p :
  evolves db db' → target db act = Some p → target db' act = Some p.
Proof.
  intros (_ & _ & _ & Hg & _). destruct act as [label key v|s v]; simpl; [|done].
  intros Ht. rewrite (statistics_grow_filter _ _ _ Hg); [done|].
  by destruct (filter (is_universal label) (statistics db)).
Qed.

Lemma target_statistics db db' act :
  statistics db = statistics db' → target db act = target db' act.
Proof. intros E. destruct act; simpl; by rewrite ?E. Qed.

Lemma record_one_evolves db db' a s y r :
  evolves db db' →
  filter (is_record a s y) (performance_stats db) = [r] →
  ∃ r', filter (is_record a s y) (performance_stats db') = [r'].
Proof.
  intros (_ & _ & _ & _ & Hc) E. specialize (Hc a s y). rewrite E in Hc.
  simpl in Hc.
  destruct (filter (is_record a s y) (performance_stats db')) as [|r' [|r'' l]];
    simpl in *; [lia|by exists r'|lia].
Qed.

Lemma save_value_other a s y v (rows : list PerformanceStat.t) :
  Forall (λ r, ¬ is_record a s y r) rows → save_value a s y v <$> rows = rows.
Proof.
  induction 1 as [|r rows Hr _ IH]; [done|].
  rewrite fmap_cons, IH. unfold save_value. by rewrite decide_False.
Qed.

Lemma filter_other_record a s y a' s' y' (rows : list PerformanceStat.t) :
  ¬ (a' = a ∧ s' = s ∧ y' = y) →
  Forall (λ r, ¬ is_record a s y r) (filter (is_record a' s' y') rows).
Proof.
  intros Hne. apply Forall_forall. intros r [(<- & <- & <-) _]%list_elem_of_filter.
  intros (? & ? & ?). by apply Hne.
Qed.

(** An [update_or_create] that returns leaves one record for its triple,
    with the value written, and the records of every other triple as they
    were. *)
Lemma update_or_create_ok a s y v db db' :
  update_or_create a s y v db = (db', inr tt) →
  statistics db' = statistics db
  ∧ (∃ r, filter (is_record a s y) (performance_stats db') = [r]
          ∧ PerformanceStat.value r = v)
  ∧ (∀ a' s' y', ¬ (a' = a ∧ s' = s ∧ y' = y) →
       filter (is_record a' s' y') (performance_stats db')
       = filter (is_record a' s' y') (performance_stats db)).
Proof.
  intros Hu. destruct (update_or_create_cases a s y v db) as [E r|r E|r1 r2 l E];
    [| |done]; injection Hu as <-; simpl.
  - split_and!; [done| |].
    + exists r. rewrite filter_app, E. subst r.
      rewrite filter_record_singleton, decide_True by done. done.
    + intros a' s' y' Hne. rewrite filter_app. subst r.
      rewrite filter_record_singleton, decide_False; [by rewrite app_nil_r|].
      intros (-> & -> & ->). by apply Hne.
  - split_and!; [done| |].
    + exists (PerformanceStat.with_value v r). rewrite filter_save_value, E.
      split; [|done]. simpl. unfold save_value. rewrite decide_True; [done|].
      assert (r ∈ [r]) as Hin by apply list_elem_of_here.
      rewrite <- E in Hin. by apply list_elem_of_filter in Hin as [? _].
    + intros a' s' y' Hne. rewrite filter_save_value.
      by apply save_value_other, filter_other_record.
Qed.

Lemma update_or_create_error a s y v db db' e :
  update_or_create a s y v db = (db', inl e) → db' = db.
Proof.
  intros Hu. destruct (update_or_create_cases a s y v db); [done|done|].
  by injection Hu as <-.
Qed.

Lemma get_or_create_ok label key db db' s :
  get_or_create label key db = (db', inr s) →
  filter (is_universal label) (statistics db') = [s]
  ∧ performance_stats db' = performance_stats db.
Proof.
  intros Hg. destruct (get_or_create_cases label key db) as [s0 E| E s0 |s1 s2 l E];
    [| |done]; injection Hg as <- <-; simpl; [done|].
  split; [|done]. rewrite filter_app, E. subst s0.
  by rewrite filter_cons_True, filter_nil.
Qed.

Lemma get_or_create_found label key db s :
  filter (is_universal label) (statistics db) = [s] →
  get_or_create label key db = (db, inr s).
Proof. intros E. unfold get_or_create. by rewrite E. Qed.

Lemma get_or_create_error label key db db' e :
  get_or_create label key db = (db', inl e) → db' = db.
Proof.
  intros Hg. destruct (get_or_create_cases label key db); [done|done|].
  by injection Hg as <-.
Qed.

Section actions.

Variables a y : Z.

Lemma run_action_ok act db db' :
  run_action a y act db = (db', inr tt) →
  ∃ p r, target db' act = Some p
    ∧ filter (is_record a p y) (performance_stats db') = [r]
    ∧ PerformanceStat.value r = written act
    ∧ (∀ a' s' y', ¬ (a' = a ∧ s' = p ∧ y' = y) →
         filter (is_record a' s' y') (performance_stats db')
         = filter (is_record a' s' y') (performance_stats db)).
Proof.
  destruct act as [label key v|s v]; simpl.
  - unfold bind. destruct (get_or_create label key db) as [db1 [e|st]] eqn:Hg;
      [done|]. intros Hu.
    apply get_or_create_ok in Hg as [Hf Hp].
    apply update_or_create_ok in Hu as (Hs & (r & Hr & Hv) & Hfr).
    exists (Statistic.pk st), r. rewrite Hs, Hf. split_and!; try done.
    intros a' s' y' Hne. rewrite <- Hp. by apply Hfr.
  - intros Hu. apply update_or_create_ok in Hu as (Hs & (r & Hr & Hv) & Hfr).
    by exists s, r.
Qed.

(** An action that raises has written no record, and raises again on the
    database it leaves. *)
Lemma run_action_error act db db' e :
  run_action a y act db = (db', inl e) →
  performance_stats db' = performance_stats db
  ∧ run_action a y act db' = (db', inl e).
Proof.
  destruct act as [label key v|s v]; simpl.
  - unfold bind. destruct (get_or_create label key db) as [db1 [e1|st]] eqn:Hg.
    + intros [= <- <-]. pose proof (get_or_create_error _ _ _ _ _ Hg) as ->.
      split; [done|]. by rewrite Hg.
    + intros Hu. pose proof (update_or_create_error _ _ _ _ _ _ _ Hu) as ->.
      apply get_or_create_ok in Hg as [Hf Hp]. split; [done|].
      by rewrite (get_or_create_found _ _ _ _ Hf).
  - intros Hu. pose proof (update_or_create_error _ _ _ _ _ _ _ Hu) as ->.
    done.
Qed.

(** *** A list of actions *)

Abbreviation run acts := (for_each (run_action a y) acts).

Lemma run_evolves acts db : evolves db (run acts db).1.
Proof. apply for_each_evolves. intros; apply run_action_evolves. Qed.

Lemma run_cons act acts db :
  run (act :: acts) db
  = match run_action a y act db with
    | (db', inr _) => run acts db'
    | (db', inl e) => (db', inl e)
    end.
Proof. reflexivity. Qed.

(** The records of a triple that no action of the list writes are left as
    they were, whether the run completes or raises. *)
Lemma run_frame acts db db1 res a' p y' :
  run acts db = (db1, res) →
  (a' = a → y' = y → ∀ act, act ∈ acts → target db1 act ≠ Some p) →
  filter (is_record a' p y') (performance_stats db1)
  = filter (is_record a' p y') (performance_stats db).
Proof.
  revert db. induction acts as [|act acts IH]; intros db Hrun Hno.
  - by injection Hrun as <- _.
  - rewrite run_cons in Hrun.
    destruct (run_action a y act db) as [db' [e|[]]] eqn:Hact.
    + injection Hrun as <- _. by apply run_action_error in Hact as [-> _].
    + pose proof (run_evolves acts db') as Hev. rewrite Hrun in Hev. simpl in Hev.
      apply run_action_ok in Hact as (q & r & Hq & _ & _ & Hfr).
      rewrite (IH db' Hrun).
      * apply Hfr. intros (-> & -> & ->).
        eapply (Hno eq_refl eq_refl act); [apply list_elem_of_here|].
        by eapply target_evolves.
      * intros Ha Hy act' Hin. apply Hno; [done|done|]. by apply list_elem_of_further.
Qed.

Lemma run_settled acts db db1 :
  run acts db = (db1, inr tt) → settled a y db1 acts.
Proof.
  revert db. induction acts as [|act acts IH]; intros db Hrun; [done|].
  rewrite run_cons in Hrun.
  destruct (run_action a y act db) as [db' [e|[]]] eqn:Hact; [done|].
  pose proof (run_evolves acts db') as Hev. rewrite Hrun in Hev. simpl in Hev.
  split; [|by eapply IH].
  apply run_action_ok in Hact as (p & r & Hp & Hr & Hv & _).
  destruct (record_one_evolves _ _ _ _ _ _ Hev Hr) as [r1 Hr1].
  exists p, r1. split_and!; [by eapply target_evolves|done|].
  destruct (decide (Exists (λ act', target db1 act' = Some p) acts)) as [Hex|Hex].
  - left. by apply Exists_exists in Hex.
  - right. rewrite (run_frame acts db' db1 (inr tt) a p y Hrun) in Hr1.
    + rewrite Hr in Hr1. by injection Hr1 as <-.
    + intros _ _ act' Hin Ht. apply Hex, Exists_exists. eauto.
Qed.

Lemma pending_is_record db acts rx r a' s' y' :
  pending a y db acts rx r → is_record a' s' y' rx ↔ is_record a' s' y' r.
Proof. intros [->|(<- & _)]; [done|]. by rewrite is_record_with_value. Qed.

Lemma Forall2_pending_filter db acts a' s' y' (l k : list PerformanceStat.t) :
  Forall2 (pending a y db acts) l k →
  length (filter (is_record a' s' y') l) = length (filter (is_record a' s' y') k).
Proof.
  induction 1 as [|rx r l k Hp _ IH]; [done|].
  rewrite !filter_cons. pose proof (pending_is_record _ _ _ _ a' s' y' Hp) as Hi.
  destruct (decide (is_record a' s' y' rx)) as [H|H].
  - rewrite decide_True by by apply Hi. simpl. by rewrite IH.
  - rewrite decide_False by by rewrite <- Hi. done.
Qed.

Lemma Forall2_impl_elem {A B} (P Q : A → B → Prop) (l : list A) (k : list B) :
  Forall2 P l k →
  (∀ x z, x ∈ l → z ∈ k → P x z → Q x z) →
  Forall2 Q l k.
Proof.
  induction 1 as [|x z l k Hp _ IH]; intros HPQ; [constructor|].
  constructor.
  - apply HPQ; [apply list_elem_of_here..|done].
  - apply IH. intros x' z' Hx Hz. apply HPQ; by apply list_elem_of_further.
Qed.

(** A database that differs from a settled one only in records still to be
    written is brought to it by the run. *)
Lemma run_sim acts x db1 :
  settled a y db1 acts → sim a y acts x db1 → run acts x = (db1, inr tt).
Proof.
  revert x. induction acts as [|act acts IH]; intros x Hset Hsim.
  - simpl. unfold ret. f_equal. destruct Hsim as (? & ? & ? & ? & Hf).
    apply DB_eq; try done. apply list_eq_Forall2.
    eapply Forall2_impl; [exact Hf|]. intros rx r [->|(_ & _ & _ & act & Hin & _)]; [done|].
    by apply elem_of_nil in Hin.
  - destruct Hset as [(p & r & Hp & Hr & Hv) Hrest].
    destruct Hsim as (Eu & Ec & Ea & Es & Hf).
    assert (∃ rx, filter (is_record a p y) (performance_stats x) = [rx]) as [rx Hrx].
    { pose proof (Forall2_pending_filter _ _ a p y _ _ Hf) as Hl. rewrite Hr in Hl.
      destruct (filter (is_record a p y) (performance_stats x)) as [|rx [|? ?]];
        simpl in Hl; [lia|by exists rx|lia]. }
    assert (update_or_create a p y (written act) x
            = (set_performance_stats
                 (save_value a p y (written act) <$> performance_stats x) x,
               inr tt)) as Hu.
    { unfold update_or_create. by rewrite Hrx. }
    assert (run_action a y act x
            = (set_performance_stats
                 (save_value a p y (written act) <$> performance_stats x) x,
               inr tt)) as Hact.
    { rewrite <- (target_statistics x db1) in Hp by done.
      destruct act as [label key v|s v]; simpl in *.
      - destruct (filter (is_universal label) (statistics x)) as [|st [|? ?]] eqn:E;
          [done| |done]. injection Hp as <-.
        unfold bind. by rewrite (get_or_create_found _ _ _ _ E).
      - by injection Hp as ->. }
    rewrite run_cons, Hact. apply IH; [done|].
    unfold sim; simpl. split_and!; try done.
    apply Forall2_fmap_l. eapply Forall2_impl_elem; [exact Hf|].
    intros r0 r1 _ Hin1 Hpend. unfold compose, save_value.
    destruct (decide (is_record a p y r0)) as [Hm|Hm]; unfold pending.
    + assert (r1 = r) as ->.
      { assert (r1 ∈ filter (is_record a p y) (performance_stats db1)) as Hin.
        { apply list_elem_of_filter. split; [|done].
          by apply (pending_is_record _ _ _ _ a p y Hpend). }
        rewrite Hr in Hin. by apply list_elem_of_singleton in Hin. }
      destruct Hm as (Ha & Hst & Hy).
      assert (PerformanceStat.with_value (PerformanceStat.value r) r0 = r) as Hw.
      { destruct Hpend as [->|(Hw & _)]; [by destruct r|done]. }
      destruct Hv as [(act' & Hin' & Ht')|Hv].
      * right. split_and!; [done|done|done|]. exists act'. simpl. by rewrite Hst.
      * left. by rewrite <- Hv.
    + destruct Hpend as [->|(Hw & Ha & Hy & act' & Hin' & Ht')]; [by left|].
      right. split_and!; try done. exists act'. split; [|done].
      apply elem_of_cons in Hin' as [->|Hin']; [|done].
      exfalso. apply Hm. split_and!; try done. congruence.
Qed.

Lemma sim_refl acts db : sim a y acts db db.
Proof.
  unfold sim. split_and!; try done. apply Forall2_same_length_lookup_2; [done|].
  intros i rx r H1 H2. left. congruence.
Qed.

Lemma run_error_split acts db db1 e :
  run acts db = (db1, inl e) →
  ∃ pre act post db',
    acts = pre ++ act :: post ∧ run pre db = (db', inr tt)
    ∧ run_action a y act db' = (db1, inl e).
Proof.
  revert db. induction acts as [|act acts IH]; intros db Hrun; [done|].
  rewrite run_cons in Hrun.
  destruct (run_action a y act db) as [db' [e'|[]]] eqn:Hact.
  - injection Hrun as <- <-. by exists [], act, acts, db.
  - destruct (IH _ Hrun) as (pre & act' & post & db2 & -> & Hpre & Hact').
    exists (act :: pre), act', post, db2. split_and!; [done| |done].
    by rewrite run_cons, Hact.
Qed.

(** Running the same actions again changes nothing and ends the same way. *)
Lemma run_idempotent acts db db1 res :
  run acts db = (db1, res) → run acts db1 = (db1, res).
Proof.
  destruct res as [e|[]]; intros Hrun.
  - apply run_error_split in Hrun as (pre & act & post & db' & -> & Hpre & Hact).
    pose proof (run_action_evolves a y act db') as Hev. rewrite Hact in Hev.
    destruct Hev as (_ & _ & _ & Hg & _). simpl in Hg.
    apply run_action_error in Hact as [Hp Hact].
    rewrite for_each_app. unfold bind.
    rewrite (run_sim pre db1 db1).
    + by rewrite run_cons, Hact.
    + apply run_settled in Hpre. clear Hact.
      induction pre as [|act0 pre IH]; [done|].
      destruct Hpre as [(q & r & Hq & Hr & Hv) Hrest]. split; [|by apply IH].
      assert (∀ act', target db' act' = Some q → target db1 act' = Some q) as Ht.
      { intros [label key v|s v]; simpl; [|done]. intros Ht.
        rewrite (statistics_grow_filter _ _ _ Hg); [done|].
        by destruct (filter (is_universal label) (statistics db')). }
      exists q, r. rewrite Hp. split_and!; [by apply Ht|done|].
      destruct Hv as [(act' & Hin & Ht')|Hv]; [left|by right].
      exists act'. split; [done|by apply Ht].
    + apply sim_refl.
  - apply run_sim; [by eapply run_settled|apply sim_refl].
Qed.

End actions.

(** ** The submission as a whole *)

Lemma upsert_evolves athlete sp y cleaned db :
  evolves db (upsert athlete sp y cleaned db).1.
Proof. rewrite upsert_actions. apply run_evolves. Qed.

Lemma manage_athlete_stats_evolves today request pk db :
  evolves db (db_after (manage_athlete_stats today request pk db)).
Proof.
  unfold manage_athlete_stats.
  destruct (user request) as [u|]; [|apply evolves_refl].
  destruct (get_athlete pk db) as [athlete|]; [|apply evolves_refl].
  destruct (Athlete.team athlete) as [team|]; [|apply evolves_refl].
  destruct (negb _); [apply evolves_refl|].
  destruct (method request).
  - destruct (initial_data _ _ _); apply evolves_refl.
  - destruct (is_valid _); [|apply evolves_refl].
    destruct (cleaned_data _ !! "year") as [[?|year]|]; try apply evolves_refl.
    pose proof (upsert_evolves athlete (Team.sport team) year
                  (cleaned_data (ScorecardForm (Some (POST_data request)) ∅
                                   (Team.sport team) db)) db) as H.
    destruct (upsert _ _ _ _ db) as [db' [e|?]]; exact H.
  - destruct (initial_data _ _ _); apply evolves_refl.
Qed.

Lemma evolves_get_athlete pk db db' :
  evolves db db' → get_athlete pk db' = get_athlete pk db.
Proof. intros (_ & _ & E & _). unfold get_athlete. by rewrite E. Qed.

Lemma evolves_is_their_coach u athlete db db' :
  evolves db db' → is_their_coach u athlete db' = is_their_coach u athlete db.
Proof. intros (_ & E & _). unfold is_their_coach, user_coach. by rewrite E. Qed.

Lemma evolves_ScorecardForm data init sp db db' :
  evolves db db' → ScorecardForm data init sp db' = ScorecardForm data init sp db.
Proof.
  intros H. unfold ScorecardForm, ScorecardForm_fields.
  by rewrite (evolves_sport_specific_stats _ _ _ H).
Qed.

(** C2. The upsert is idempotent: applying the same (athlete, year, values)
    to the database left by a first application changes nothing, neither
    the rows nor their values nor the way the run ends; and the same
    submission posted twice to the view leaves the database of the first
    post. *)
Theorem upsert_idempotent athlete sp year cleaned today request pk db :
  upsert athlete sp year cleaned (upsert athlete sp year cleaned db).1
  = upsert athlete sp year cleaned db
  ∧ manage_athlete_stats today request pk
      (db_after (manage_athlete_stats today request pk db))
    = manage_athlete_stats today request pk db.
Proof.
  assert (∀ athlete sp year cleaned db,
            upsert athlete sp year cleaned (upsert athlete sp year cleaned db).1
            = upsert athlete sp year cleaned db) as Hup.
  { clear. intros athlete sp year cleaned db.
    pose proof (upsert_evolves athlete sp year cleaned db) as Hev.
    rewrite !upsert_actions in *. rewrite (evolves_sport_specific_stats _ _ _ Hev).
    destruct (for_each _ _ db) as [db1 res] eqn:Hrun. simpl.
    by apply run_idempotent in Hrun. }
  split; [apply Hup|].
  pose proof (manage_athlete_stats_evolves today request pk db) as Hev.
  unfold manage_athlete_stats in *.
  destruct (user request) as [u|]; [|done].
  destruct (get_athlete pk db) as [athlete'|] eqn:Hath; simpl; [|by rewrite Hath].
  destruct (Athlete.team athlete') as [team|] eqn:Hteam; simpl;
    [|by rewrite Hath, Hteam].
  destruct (negb (is_their_coach u athlete' db || is_admin u)) eqn:Hauth; simpl.
  { by rewrite Hath, Hteam, Hauth. }
  destruct (method request);
    try (destruct (initial_data today athlete' db) eqn:Hinit; simpl;
         by rewrite Hath, Hteam, Hauth, Hinit).
  set (form := ScorecardForm (Some (POST_data request)) ∅ (Team.sport team) db) in *.
  destruct (is_valid form) eqn:Hvalid; simpl.
  2:{ rewrite Hath, Hteam, Hauth. fold form. by rewrite Hvalid. }
  destruct (cleaned_data form !! "year") as [[?|y]|] eqn:Hyear; simpl;
    try (rewrite Hath, Hteam, Hauth; fold form; by rewrite Hvalid, Hyear).
  specialize (Hup athlete' (Team.sport team) y (cleaned_data form) db).
  destruct (upsert athlete' (Team.sport team) y (cleaned_data form) db)
    as [db1 [e|[]]] eqn:Hrun; simpl in *;
    rewrite (evolves_get_athlete _ _ _ Hev), Hath, Hteam,
      (evolves_is_their_coach _ _ _ _ Hev), Hauth,
      (evolves_ScorecardForm _ _ _ _ _ Hev); fold form;
    by rewrite Hvalid, Hyear, Hup.
Qed.

(** C8. From a database with at most one record per (athlete, statistic,
    year), [update_or_create] returns, leaving exactly one record for its
    triple (the record updated in place, or the first one created), and
    every submission to the view leaves at most one record per triple. *)
Theorem upsert_keeps_unique_records today request pk a s y v db :
  unique_records db →
  (∃ db', update_or_create a s y v db = (db', inr tt)
          ∧ length (filter (is_record a s y) (performance_stats db')) = 1%nat
          ∧ unique_records db')
  ∧ unique_records (db_after (manage_athlete_stats today request pk db)).
Proof.
  intros Hu.
  assert (∀ db', evolves db db' → unique_records db') as Hk.
  { intros db' (_ & _ & _ & _ & Hc) a' s' y'.
    specialize (Hc a' s' y'). specialize (Hu a' s' y'). lia. }
  split; [|apply Hk, manage_athlete_stats_evolves].
  pose proof (update_or_create_evolves a s y v db) as Hev.
  destruct (update_or_create a s y v db) as [db' [e|[]]] eqn:Hrun.
  - specialize (Hu a s y).
    destruct (update_or_create_cases a s y v db) as [E r|r E|r1 r2 l E];
      [done|done|]. rewrite E in Hu. simpl in Hu. lia.
  - exists db'. split_and!; [done| |by apply Hk].
    apply update_or_create_ok in Hrun as (_ & (r & -> & _) & _). done.
Qed.

(** C9. A universal statistic is looked up by its name among the rows
    without sport: when the row exists, [get_or_create] returns it as it
    is, whatever key the value was submitted under; the key becomes the
    [short_name] only of a row that is created.  No submission changes a
    row of [Statistic]: the table of the database left by the view starts
    with the rows it had. *)
Theorem universal_short_name_kept today request pk label key db :
  (∀ s, filter (is_universal label) (statistics db) = [s] →
        get_or_create label key db = (db, inr s))
  ∧ (filter (is_universal label) (statistics db) = [] →
     ∃ s db', get_or_create label key db = (db', inr s)
              ∧ Statistic.short_name s = key
              ∧ statistics db' = statistics db ++ [s])
  ∧ statistics db
      `prefix_of` statistics (db_after (manage_athlete_stats today request pk db)).
Proof.
  split_and!.
  - intros s E. by apply get_or_create_found.
  - intros E. unfold get_or_create. rewrite E. by eexists _, _.
  - destruct (manage_athlete_stats_evolves today request pk db)
      as (_ & _ & _ & (new & E & _) & _).
    by exists new.
Qed.

(** C3. The authorization test of the view holds exactly for an
    administrator and for the coach assigned to the athlete.  A requester
    who fails it gets an error message and a redirect, and the database is
    left as it was; for an athlete with a team, the view answers with the
    authorization error exactly when the test fails. *)
Theorem admin_or_own_coach today request pk u athlete db :
  (is_their_coach u athlete db || is_admin u = true
   ↔ CustomUser.role u = CustomUser.ADMINISTRATOR
     ∨ ∃ c, user_coach u db = Some c
            ∧ Athlete.coach_id athlete = Some (Coach.pk c))
  ∧ (user request = Some u → get_athlete pk db = Some athlete →
     is_their_coach u athlete db || is_admin u = false →
     let out := manage_athlete_stats today request pk db in
     db_after out = db
     ∧ response out = redirect "athlete-detail" (Some pk)
     ∧ ∃ text, messages out = [error text])
  ∧ (user request = Some u → get_athlete pk db = Some athlete →
     is_Some (Athlete.team athlete) →
     (manage_athlete_stats today request pk db = unauthorized pk db
      ↔ is_their_coach u athlete db || is_admin u = false)).
Proof.
  split_and!.
  - unfold is_their_coach, is_admin. rewrite orb_true_iff, !bool_decide_eq_true.
    destruct (user_coach u db) as [c|].
    + rewrite bool_decide_eq_true. split.
      * intros [H|H]; [right; by exists c|by left].
      * intros [H|(c' & [= <-] & H)]; [by right|by left].
    + split.
      * intros [H|H]; [done|by left].
      * intros [H|(c' & H & _)]; [by right|done].
  - intros Hu Ha Hno. unfold manage_athlete_stats. rewrite Hu, Ha, Hno. simpl.
    destruct (Athlete.team athlete); simpl; eauto.
  - intros Hu Ha [team Ht]. unfold manage_athlete_stats. rewrite Hu, Ha, Ht.
    destruct (is_their_coach u athlete db || is_admin u); simpl; [|done].
    split; [|done]. destruct (method request).
    + by destruct (initial_data _ _ _).
    + destruct (is_valid _); [|done].
      destruct (cleaned_data _ !! "year") as [[?|year]|]; try done.
      by destruct (upsert _ _ _ _ db) as [db' [e|?]].
    + by destruct (initial_data _ _ _).
Qed.

(** C5. For an athlete without team the view answers with the no-team
    error message and the redirect to the athlete's page, whoever the
    logged-in requester is and whatever the method and the data; no request
    for such an athlete changes the database. *)
Theorem no_team_precedence today request pk athlete db :
  get_athlete pk db = Some athlete → Athlete.team athlete = None →
  (∀ u, user request = Some u →
        manage_athlete_stats today request pk db = no_team pk db)
  ∧ db_after (manage_athlete_stats today request pk db) = db.
Proof.
  intros Ha Ht. unfold manage_athlete_stats. split.
  - intros u Hu. by rewrite Hu, Ha, Ht.
  - destruct (user request); [|done]. by rewrite Ha, Ht.
Qed.

(** *** The fields of the forms *)

Lemma fold_insert_lookup {A} (f : A → string) (g : A → Field) (l : list A)
    (fs : gmap string Field) (k : string) :
  foldl (λ fs x, <[f x := g x]> fs) fs l !! k
  = match last (filter (λ x, f x = k) l) with
    | Some x => Some (g x)
    | None => fs !! k
    end.
Proof.
  revert fs. induction l as [|x l IH]; intros fs; [done|].
  simpl. rewrite IH, filter_cons. destruct (decide (f x = k)) as [<-|Hne].
  - rewrite last_cons. destruct (last (filter _ l)); [done|].
    by rewrite lookup_insert_eq.
  - destruct (last (filter _ l)); [done|]. by rewrite lookup_insert_ne.
Qed.

Lemma add_stat_fields_lookup stats fs k :
  add_stat_fields stats fs !! k
  = match last (filter (λ st, Statistic.short_name st = k) stats) with
    | Some st => Some (stat_field st)
    | None => fs !! k
    end.
Proof. apply fold_insert_lookup. Qed.

Lemma last_filter_elem {A} (P : A → Prop) `{∀ x, Decision (P x)} (l : list A) x :
  last (filter P l) = Some x → P x ∧ x ∈ l.
Proof. intros Hl%last_Some_elem_of. by apply list_elem_of_filter in Hl. Qed.

Lemma last_filter_is_Some {A} (P : A → Prop) `{∀ x, Decision (P x)} (l : list A) x :
  x ∈ l → P x → is_Some (last (filter P l)).
Proof.
  intros Hin HP. destruct (last (filter P l)) eqn:E; [done|].
  apply last_None in E. exfalso.
  by eapply (filter_nil_not_elem_of P l x).
Qed.

(** C7. A statistic of sport A is not in the queryset of the statistics of
    another sport B; every field of the form built for B is keyed by the
    short name of a statistic of B; and every performance record that a
    request for an athlete of a team of sport B leaves in the database was
    there before, or refers to a row of [Statistic] that is universal or of
    sport B; with distinct primary keys in [Statistic], every record of the
    statistic of sport A that the request leaves was there before. *)
Theorem sport_isolation today request pk athlete team A B s db :
  A ≠ B → Statistic.sport s = Some A →
  (s ∉ sport_specific_stats B db)
  ∧ (∀ k f, GameReportForm (Some B) db !! k = Some f →
       ∃ st, st ∈ statistics db ∧ Statistic.sport st = Some B
             ∧ Statistic.short_name st = k ∧ f = stat_field st)
  ∧ (get_athlete pk db = Some athlete → Athlete.team athlete = Some team →
     Team.sport team = B →
     let db' := db_after (manage_athlete_stats today request pk db) in
     ∀ r, r ∈ performance_stats db' →
       r ∈ performance_stats db
       ∨ ∃ st, st ∈ statistics db'
               ∧ Statistic.pk st = PerformanceStat.statistic r
               ∧ (Statistic.sport st = None ∨ Statistic.sport st = Some B))
  ∧ (get_athlete pk db = Some athlete → Athlete.team athlete = Some team →
     Team.sport team = B →
     s ∈ statistics db → NoDup (Statistic.pk <$> statistics db) →
     ∀ r, r ∈ performance_stats
               (db_after (manage_athlete_stats today request pk db)) →
          PerformanceStat.statistic r = Statistic.pk s →
          r ∈ performance_stats db).
Proof.
  intros HAB Hs.
  assert (get_athlete pk db = Some athlete → Athlete.team athlete = Some team →
     Team.sport team = B →
     let db' := db_after (manage_athlete_stats today request pk db) in
     ∀ r, r ∈ performance_stats db' →
       r ∈ performance_stats db
       ∨ ∃ st, st ∈ statistics db'
               ∧ Statistic.pk st = PerformanceStat.statistic r
               ∧ (Statistic.sport st = None ∨ Statistic.sport st = Some B))
    as Hwritten; [|split_and!; [| |exact Hwritten|]].
  4:{ intros Ha Ht HB Hin Hnd r Hr Hpk.
      destruct (Hwritten Ha Ht HB r Hr) as [?|(st & Hst & Hpk' & Hsp)]; [done|].
      exfalso.
      destruct (manage_athlete_stats_evolves today request pk db)
        as (_ & _ & _ & (new & Enew & Fnew) & _).
      rewrite Enew in Hst. apply elem_of_app in Hst as [Hst|Hst].
      - assert (st = s) as ->.
        { apply list_elem_of_lookup in Hst as [i Hi].
          apply list_elem_of_lookup in Hin as [j Hj].
          assert (i = j) as ->; [|congruence].
          eapply NoDup_lookup; [exact Hnd| |];
            rewrite list_lookup_fmap; [by rewrite Hi|].
          rewrite Hj. simpl. congruence. }
        destruct Hsp; congruence.
      - rewrite Forall_forall in Fnew. destruct (Fnew _ Hst) as (_ & Hfresh & _).
        apply Hfresh. rewrite Hpk', Hpk. by apply list_elem_of_fmap_2. }
  3:{ intros k f. unfold GameReportForm. rewrite add_stat_fields_lookup.
      destruct (last _) as [st|] eqn:E; [|by rewrite lookup_empty].
      intros [= <-]. apply last_filter_elem in E as [Hk Hin].
      apply list_elem_of_filter in Hin as [Hsp Hin]. by exists st. }
  2:{ intros [Hsp _]%list_elem_of_filter. unfold of_sport in Hsp. congruence. }
  intros Ha Ht HB db' r. subst db'. unfold manage_athlete_stats.
    destruct (user request) as [u|]; [|by left]. rewrite Ha, Ht.
    destruct (negb _); [by left|].
    destruct (method request); try (destruct (initial_data _ _ _); by left).
    destruct (is_valid _); [|by left].
    destruct (cleaned_data _ !! "year") as [[?|year]|]; try by left.
    set (cleaned := cleaned_data _). rewrite HB.
    assert (∀ db1 res, upsert athlete B year cleaned db = (db1, res) →
              r ∈ performance_stats db1 →
              r ∈ performance_stats db
              ∨ ∃ st, st ∈ statistics db1
                  ∧ Statistic.pk st = PerformanceStat.statistic r
                  ∧ (Statistic.sport st = None ∨ Statistic.sport st = Some B))
      as Hkey.
    { intros db1 res Hrun Hin. rewrite upsert_actions in Hrun.
      set (acts := actions cleaned (sport_specific_stats B db)) in *.
      pose proof (run_evolves (Athlete.pk athlete) year acts db) as Hev.
      rewrite Hrun in Hev. simpl in Hev.
      destruct (decide (Exists (λ act, target db1 act
                                       = Some (PerformanceStat.statistic r)) acts))
        as [Hex|Hex].
      - right. apply Exists_exists in Hex as (act & Hact & Ht').
        apply elem_of_app in Hact as [Hact|Hact];
          apply list_elem_of_omap in Hact as (x & Hx & Hact).
        + unfold universal_action in Hact.
          destruct (cleaned !! x.1) as [value|]; [|done].
          destruct (truthy value); [|done]. injection Hact as <-. simpl in Ht'.
          destruct (filter (is_universal x.2) (statistics db1)) as [|st [|? ?]] eqn:E;
            try done. injection Ht' as Ht'.
          assert (st ∈ filter (is_universal x.2) (statistics db1)) as Hst
            by (rewrite E; apply list_elem_of_here).
          apply list_elem_of_filter in Hst as [[_ Hnone] Hst]. exists st. eauto.
        + unfold specific_action in Hact.
          destruct (cleaned !! Statistic.short_name x) as [value|]; [|done].
          destruct (truthy value); [|done]. injection Hact as <-. simpl in Ht'.
          injection Ht' as Ht'.
          apply list_elem_of_filter in Hx as [Hsp Hx]. exists x.
          split_and!; [|done|by right].
          destruct Hev as (_ & _ & _ & (new & -> & _) & _).
          apply elem_of_app. by left.
      - left.
        assert (r ∈ filter (is_record (PerformanceStat.athlete r)
                              (PerformanceStat.statistic r) (PerformanceStat.year r))
                      (performance_stats db1)) as Hf.
        { apply list_elem_of_filter. by split. }
        rewrite (run_frame _ _ _ _ _ _ _ _ _ Hrun) in Hf.
        + by apply list_elem_of_filter in Hf as [_ ?].
        + intros _ _ act Hact Ht'. apply Hex, Exists_exists. eauto. }
    destruct (upsert athlete B year cleaned db) as [db1 [e|?]] eqn:Hrun; simpl;
      by eapply Hkey.
Qed.

Lemma ScorecardForm_fields_stat sp db k f :
  k ≠ "year" → ScorecardForm_fields sp db !! k = Some f →
  required f = false ∧ field_type f = CharField.
Proof.
  intros Hk. unfold ScorecardForm_fields.
  rewrite lookup_insert_ne by done. rewrite add_stat_fields_lookup.
  destruct (last (filter _ (sport_specific_stats sp db))); [by intros [= <-]|].
  rewrite fold_insert_lookup.
  destruct (last (filter _ UNIVERSAL_STATISTICS)); [by intros [= <-]|].
  by rewrite lookup_empty.
Qed.

Lemma cleaned_data_blank q init sp db key :
  key ≠ "year" → get key q = None ∨ get key q = Some "" →
  ¬ submitted (cleaned_data (ScorecardForm (Some q) init sp db)) key.
Proof.
  intros Hk Hq (value & Hc & Ht). unfold cleaned_data in Hc.
  rewrite map_lookup_imap in Hc. simpl in Hc.
  destruct (ScorecardForm_fields sp db !! key) as [f|] eqn:Hf; [|done].
  apply ScorecardForm_fields_stat in Hf as [Hr Hty]; [|done].
  simpl in Hc. unfold clean, clean_field in Hc. simpl in Hc.
  rewrite Hty, Hr in Hc. destruct Hq as [Hq|Hq]; rewrite Hq in Hc; simpl in Hc;
    injection Hc as <-; done.
Qed.

(** A valid form has an integer under [year]: the last branch of the match
    on [cleaned_data.get('year')] in [manage_athlete_stats] is never taken. *)
Lemma valid_form_year q init sp db :
  is_valid (ScorecardForm (Some q) init sp db) = true →
  ∃ y, cleaned_data (ScorecardForm (Some q) init sp db) !! "year" = Some (Int y).
Proof.
  intros [_ Hall]%bool_decide_eq_true. simpl in Hall.
  assert (ScorecardForm_fields sp db !! "year"
          = Some (mkField "Year" true IntegerField)) as Hy
    by apply lookup_insert_eq.
  destruct (Hall _ _ Hy) as [v Hv].
  unfold cleaned_data. rewrite map_lookup_imap. simpl. rewrite Hy. simpl.
  rewrite Hv. unfold clean, clean_field in Hv. simpl in Hv.
  destruct (get "year" q ≫= int_of_string) as [y|]; [|done].
  injection Hv as <-. by exists y.
Qed.

(** C4. A pass of either loop for a key without submitted value leaves the
    database as it is.  For a row of [Statistic] that no submitted value
    addresses, the submission leaves the records of that statistic, of
    every athlete and year, exactly as they were: none is created, changed
    or removed.  A key that is absent from the posted data, or posted
    empty, is not submitted. *)
Theorem selective_write today request pk athlete team year cleaned p db :
  (∀ kl, ¬ submitted cleaned kl.1 →
         universal_body athlete year cleaned kl db = (db, inr tt))
  ∧ (∀ st, ¬ submitted cleaned (Statistic.short_name st) →
           specific_body athlete year cleaned st db = (db, inr tt))
  ∧ (∀ sp, p ∈ Statistic.pk <$> statistics db → ¬ addressed cleaned sp db p →
      ∀ a' y',
        filter (is_record a' p y')
          (performance_stats (upsert athlete sp year cleaned db).1)
        = filter (is_record a' p y') (performance_stats db))
  ∧ (get_athlete pk db = Some athlete → Athlete.team athlete = Some team →
     p ∈ Statistic.pk <$> statistics db →
     ¬ addressed
         (cleaned_data (ScorecardForm (Some (POST_data request)) ∅
                          (Team.sport team) db))
         (Team.sport team) db p →
     ∀ a' y',
       filter (is_record a' p y')
         (performance_stats (db_after (manage_athlete_stats today request pk db)))
       = filter (is_record a' p y') (performance_stats db))
  ∧ (∀ q init sp key, key ≠ "year" → get key q = None ∨ get key q = Some "" →
       ¬ submitted (cleaned_data (ScorecardForm (Some q) init sp db)) key).
Proof.
  assert (∀ athlete year cleaned sp, p ∈ Statistic.pk <$> statistics db →
            ¬ addressed cleaned sp db p → ∀ a' y',
            filter (is_record a' p y')
              (performance_stats (upsert athlete sp year cleaned db).1)
            = filter (is_record a' p y') (performance_stats db)) as Hframe.
  { clear. intros athlete year cleaned sp Hp Hno a' y'.
    rewrite upsert_actions.
    set (acts := actions cleaned (sport_specific_stats sp db)).
    pose proof (run_evolves (Athlete.pk athlete) year acts db) as Hev.
    destruct (for_each _ acts db) as [db1 res] eqn:Hrun. simpl in *.
    apply (run_frame _ _ _ _ _ _ _ _ _ Hrun). intros _ _ act Hact Ht.
    apply Hno. destruct Hev as (_ & _ & _ & (new & Enew & Fnew) & _).
    apply elem_of_app in Hact as [Hact|Hact];
      apply list_elem_of_omap in Hact as (x & Hx & Hact).
    - left. unfold universal_action in Hact.
      destruct (cleaned !! x.1) as [value|] eqn:Hv; [|done].
      destruct (truthy value) eqn:Htr; [|done]. injection Hact as <-.
      simpl in Ht.
      destruct (filter (is_universal x.2) (statistics db1)) as [|st [|? ?]] eqn:E;
        try done. injection Ht as Ht.
      assert (st ∈ filter (is_universal x.2) (statistics db1)) as Hst
        by (rewrite E; apply list_elem_of_here).
      apply list_elem_of_filter in Hst as [Huni Hst].
      rewrite Enew in Hst. apply elem_of_app in Hst as [Hst|Hst].
      + exists x, st. split_and!; try done. by exists value.
      + exfalso. rewrite Forall_forall in Fnew.
        destruct (Fnew _ Hst) as (_ & Hfresh & _). apply Hfresh. by rewrite Ht.
    - right. unfold specific_action in Hact.
      destruct (cleaned !! Statistic.short_name x) as [value|] eqn:Hv; [|done].
      destruct (truthy value) eqn:Htr; [|done]. injection Hact as <-.
      simpl in Ht. injection Ht as Ht.
      apply list_elem_of_filter in Hx as [Hsp Hx].
      exists x. split_and!; try done. by exists value. }
  split_and!.
  - intros [key label] Hno. unfold universal_body. simpl in Hno.
    destruct (cleaned !! key) as [value|] eqn:Hv; [|done].
    destruct (truthy value) eqn:Htr; [|done]. exfalso. apply Hno. by exists value.
  - intros st Hno. unfold specific_body.
    destruct (cleaned !! Statistic.short_name st) as [value|] eqn:Hv; [|done].
    destruct (truthy value) eqn:Htr; [|done]. exfalso. apply Hno. by exists value.
  - intros sp. apply Hframe.
  - intros Ha Ht Hp Hno a' y'. unfold manage_athlete_stats.
    destruct (user request) as [u|]; [|done]. rewrite Ha, Ht.
    destruct (negb _); [done|].
    destruct (method request); try (by destruct (initial_data _ _ _)).
    destruct (is_valid _); [|done].
    destruct (cleaned_data _ !! "year") as [[?|y0]|]; try done.
    specialize (Hframe athlete y0 _ _ Hp Hno a' y').
    by destruct (upsert _ _ _ _ db) as [db' [e|?]].
  - intros q init sp key. apply cleaned_data_blank.
Qed.

(** ** The roster view *)

Lemma base_queryset_visible u db a : a ∈ base_queryset u db ↔ visible u db a.
Proof.
  unfold base_queryset, base_query, visible. destruct (CustomUser.role u); simpl.
  - tauto.
  - destruct (user_coach u db) as [c|]; simpl.
    + destruct (Coach.team c) as [t|] eqn:Et; simpl.
      * rewrite list_elem_of_filter. split.
        -- intros [Ht Ha]. split; [done|]. by exists c, t.
        -- intros [Ha (c' & t' & [= <-] & Et' & Ht)]. split; [|done]. congruence.
      * rewrite elem_of_nil. split; [done|].
        intros [_ (c' & t' & [= <-] & Et' & _)]. congruence.
    + rewrite elem_of_nil. split; [done|]. by intros [_ (c' & t' & ? & _)].
  - destruct (user_athlete u db) as [me|]; simpl.
    + destruct (Athlete.team me) as [t|] eqn:Et; simpl.
      * rewrite list_elem_of_filter. split.
        -- intros [Ht Ha]. split; [done|]. by exists me, t.
        -- intros [Ha (me' & t' & [= <-] & Et' & Ht)]. split; [|done]. congruence.
      * rewrite elem_of_nil. split; [done|].
        intros [_ (c' & t' & [= <-] & Et' & _)]. congruence.
    + rewrite elem_of_nil. split; [done|]. by intros [_ (c' & t' & ? & _)].
  - rewrite elem_of_nil. tauto.
Qed.

Section roster_delete.

Variable int : string → option Z.
Variable in_range : Z → bool.
Variable name_le : string → string → bool.

(** A request other than POST writes nothing and queues no message. *)
Lemma athlete_list_get_unchanged request db :
  method request ≠ POST →
  db_after (athlete_list int in_range name_le request db) = db
  ∧ messages (athlete_list int in_range name_le request db) = [].
Proof.
  intros Hm. unfold athlete_list. destruct (user request) as [u|]; [|done].
  destruct (method request); [|done|];
    (destruct (filter_int _ _ _ _) as [e|l1]; simpl; [done|];
     destruct (filter_int _ _ _ l1) as [e|l2]; simpl; [done|];
     destruct (filter_int _ _ _ l2) as [e|l3]; simpl; [done|];
     destruct (get "gender" _) as [g|]; [destruct (decide (g = ""))|]; simpl;
     by destruct (_ && _)).
Qed.

(** C10. Every user that the roster view deletes is the user of an athlete
    of the requester's base queryset, which holds the athletes the
    requester may see: all of them for an administrator, those of the own
    team for a coach and for an athlete, none otherwise.  This holds
    whatever texts are submitted and whatever numbers [int] makes of
    them. *)
Theorem bulk_delete_within_visible request db x :
  x ∈ users db →
  x ∉ users (db_after (athlete_list int in_range name_le request db)) →
  ∃ u a, user request = Some u ∧ method request = POST
         ∧ a ∈ base_queryset u db ∧ visible u db a
         ∧ Athlete.user_id a = CustomUser.pk x.
Proof.
  intros Hin Hout.
  assert (method request = POST) as Hm.
  { destruct (method request) eqn:Hm; [|done|]; exfalso; apply Hout;
      by rewrite (proj1 (athlete_list_get_unchanged request db
                           ltac:(by rewrite Hm))). }
  unfold athlete_list in Hout. rewrite Hm in Hout.
  destruct (user request) as [u|]; [|done].
  destruct (int_keys _ _) as [e|ids]; [done|].
  destruct (_ && _); [done|]. fold (base_queryset u db) in Hout.
  set (deletable := Athlete.user_id <$> filter _ (base_queryset u db)) in *.
  destruct deletable as [|d0 ds] eqn:Hd; [done|]. rewrite <- Hd in Hout.
  simpl in Hout.
  assert (CustomUser.pk x ∈ deletable) as Hx.
  { destruct (decide (CustomUser.pk x ∈ deletable)) as [?|Hn]; [done|].
    exfalso. apply Hout. apply list_elem_of_filter. done. }
  apply list_elem_of_fmap in Hx as (a & Hpk & Ha).
  apply list_elem_of_filter in Ha as [_ Ha].
  exists u, a. split_and!; try done. by apply base_queryset_visible.
Qed.

End roster_delete.

(** ** The form of the view *)

Lemma get_statistic_elem pk db st :
  get_statistic pk db = Some st → st ∈ statistics db.
Proof.
  unfold get_statistic. intros H%head_Some_elem_of.
  by apply list_elem_of_filter in H as [_ ?].
Qed.

Lemma initial_data_year today athlete db :
  (∀ st, st ∈ statistics db → Statistic.short_name st ≠ "year") →
  (∀ r, r ∈ performance_stats db →
        is_Some (get_statistic (PerformanceStat.statistic r) db)) →
  ∃ init, initial_data today athlete db = inr init
          ∧ init !! "year" = Some (Int today).
Proof.
  intros Hname Hfk. unfold initial_data.
  set (l := filter _ (performance_stats db)).
  assert (∀ r, r ∈ l → r ∈ performance_stats db) as Hl.
  { intros r Hr. by apply list_elem_of_filter in Hr as [_ ?]. }
  assert (({[ "year" := Int today ]} : gmap string Value) !! "year"
          = Some (Int today)) as Hy by apply lookup_singleton_eq.
  revert Hl Hy. generalize ({[ "year" := Int today ]} : gmap string Value).
  induction l as [|r l IH]; intros init0 Hl Hy; simpl.
  - by exists init0.
  - destruct (Hfk r) as [st Hst]; [apply Hl, list_elem_of_here|].
    rewrite Hst. apply IH.
    + intros r' Hr'. by apply Hl, list_elem_of_further.
    + rewrite lookup_insert_ne; [done|].
      by apply Hname, (get_statistic_elem _ _ _ Hst).
Qed.

(** C6. The form built for a sport has the required [year] field; for
    every universal statistic and for every statistic of the sport it has
    an optional text field under the short code (for a statistic of the
    sport, the field that [GameReportForm] builds); it has no other field;
    and the unbound form that the view renders for a GET request has these
    fields and the current year as the initial value of [year].  A short
    code is taken to differ from the key of the year field. *)
Theorem scorecard_form_fields today request pk u athlete team sp db :
  ScorecardForm_fields sp db !! "year" = Some (mkField "Year" true IntegerField)
  ∧ (∀ kl, kl ∈ UNIVERSAL_STATISTICS → kl.1 ≠ "year" →
       ∃ f, ScorecardForm_fields sp db !! kl.1 = Some f
            ∧ required f = false ∧ field_type f = CharField)
  ∧ (∀ st, st ∈ statistics db → Statistic.sport st = Some sp →
       Statistic.short_name st ≠ "year" →
       ∃ f, ScorecardForm_fields sp db !! Statistic.short_name st = Some f
            ∧ GameReportForm (Some sp) db !! Statistic.short_name st = Some f
            ∧ required f = false ∧ field_type f = CharField)
  ∧ (∀ k f, ScorecardForm_fields sp db !! k = Some f →
       k = "year"
       ∨ (∃ kl, kl ∈ UNIVERSAL_STATISTICS ∧ kl.1 = k)
       ∨ (∃ st, st ∈ statistics db ∧ Statistic.sport st = Some sp
                ∧ Statistic.short_name st = k))
  ∧ (user request = Some u → get_athlete pk db = Some athlete →
     Athlete.team athlete = Some team →
     is_their_coach u athlete db || is_admin u = true →
     method request = GET →
     (∀ st, st ∈ statistics db → Statistic.short_name st ≠ "year") →
     (∀ r, r ∈ performance_stats db →
           is_Some (get_statistic (PerformanceStat.statistic r) db)) →
     ∃ init,
       manage_athlete_stats today request pk db
       = mkOutcome db []
           (render_form template
              (mkForm (ScorecardForm_fields (Team.sport team) db) init None)
              athlete)
       ∧ init !! "year" = Some (Int today)).
Proof.
  split_and!.
  - apply lookup_insert_eq.
  - intros kl Hin Hk.
    destruct (ScorecardForm_fields sp db !! kl.1) as [f|] eqn:Hf.
    + exists f. split; [done|]. by eapply ScorecardForm_fields_stat.
    + exfalso. unfold ScorecardForm_fields in Hf.
      rewrite lookup_insert_ne in Hf by done.
      rewrite add_stat_fields_lookup in Hf.
      destruct (last (filter _ (sport_specific_stats sp db))); [done|].
      rewrite fold_insert_lookup in Hf.
      destruct (last_filter_is_Some (λ x : string * string, x.1 = kl.1)
                  UNIVERSAL_STATISTICS kl Hin eq_refl) as [x Hx].
      by rewrite Hx in Hf.
  - intros st Hin Hsp Hk. unfold ScorecardForm_fields, GameReportForm.
    rewrite lookup_insert_ne by done. rewrite !add_stat_fields_lookup.
    destruct (last_filter_is_Some
                (λ x, Statistic.short_name x = Statistic.short_name st)
                (sport_specific_stats sp db) st) as [x Hx]; [|done|].
    { by apply list_elem_of_filter. }
    rewrite Hx. by exists (stat_field x).
  - intros k f. unfold ScorecardForm_fields.
    destruct (decide (k = "year")) as [->|Hk]; [by left|].
    rewrite lookup_insert_ne by done. rewrite add_stat_fields_lookup.
    destruct (last (filter _ (sport_specific_stats sp db))) as [st|] eqn:E.
    + intros _. right; right. apply last_filter_elem in E as [Hs Hin].
      apply list_elem_of_filter in Hin as [Hsp Hin]. by exists st.
    + rewrite fold_insert_lookup.
      destruct (last (filter _ UNIVERSAL_STATISTICS)) as [kl|] eqn:E';
        [|by rewrite lookup_empty].
      intros _. right; left. apply last_filter_elem in E' as [Hs Hin].
      by exists kl.
  - intros Hu Ha Ht Hauth Hm Hname Hfk. unfold manage_athlete_stats.
    rewrite Hu, Ha, Ht, Hauth, Hm. simpl.
    destruct (initial_data_year today athlete db Hname Hfk) as (init & -> & Hy).
    by exists init.
Qed.

(** ** Further properties of the submission *)

Lemma run_action_invariant a y (P : DB → Prop) :
  (∀ l k db, P db → P (get_or_create l k db).1) →
  (∀ s v db, P db → P (update_or_create a s y v db).1) →
  ∀ act db, P db → P (run_action a y act db).1.
Proof.
  intros Hg Hu [label key v|s v] db HP; simpl; [|by apply Hu].
  unfold bind. specialize (Hg label key db HP).
  destruct (get_or_create label key db) as [db1 [e|st]]; simpl in *; [done|].
  by apply Hu.
Qed.

Lemma for_each_invariant {A} (P : DB → Prop) (body : A → M unit) (l : list A) :
  (∀ x db, P db → P (body x db).1) → ∀ db, P db → P (for_each body l db).1.
Proof.
  intros Hb. induction l as [|x l IH]; intros db HP; simpl; [done|].
  unfold bind. specialize (Hb x db HP).
  destruct (body x db) as [db1 [e|[]]]; simpl in *; [done|]. by apply IH.
Qed.

Lemma upsert_invariant (P : DB → Prop) athlete sp year cleaned :
  (∀ l k db, P db → P (get_or_create l k db).1) →
  (∀ s v db, P db → P (update_or_create (Athlete.pk athlete) s year v db).1) →
  ∀ db, P db → P (upsert athlete sp year cleaned db).1.
Proof.
  intros Hg Hu db HP. rewrite upsert_actions. apply for_each_invariant; [|done].
  intros act db0. by apply run_action_invariant.
Qed.

Lemma get_or_create_total label key db :
  unique_universal db →
  ∃ s db', get_or_create label key db = (db', inr s)
           ∧ unique_universal db'
           ∧ performance_stats db' = performance_stats db.
Proof.
  intros Hu. destruct (get_or_create_cases label key db) as [s E| E s |s1 s2 l E].
  - by exists s, db.
  - eexists s, _. split_and!; [done| |done]. intros label'. simpl.
    rewrite filter_app, length_app, filter_cons, filter_nil.
    destruct (decide (is_universal label' s)) as [[Hn _]|_]; simpl.
    + subst s. simpl in Hn. subst label'. rewrite E. simpl. lia.
    + specialize (Hu label'). lia.
  - specialize (Hu label). rewrite E in Hu. simpl in Hu. lia.
Qed.

Lemma update_or_create_total a s y v db :
  unique_records db →
  ∃ db', update_or_create a s y v db = (db', inr tt)
         ∧ unique_records db'
         ∧ statistics db' = statistics db.
Proof.
  intros Hu. pose proof (update_or_create_evolves a s y v db) as Hev.
  destruct (update_or_create a s y v db) as [db' [e|[]]] eqn:Hrun; simpl in Hev.
  - destruct (update_or_create_cases a s y v db) as [E r|r E|r1 r2 l E];
      [done|done|]. specialize (Hu a s y). rewrite E in Hu. simpl in Hu. lia.
  - exists db'. split_and!; [done| |].
    + destruct Hev as (_ & _ & _ & _ & Hc). intros a' s' y'.
      specialize (Hc a' s' y'). specialize (Hu a' s' y'). lia.
    + by apply update_or_create_ok in Hrun as [? _].
Qed.

Lemma run_total a y acts db :
  unique_records db → unique_universal db →
  ∃ db', for_each (run_action a y) acts db = (db', inr tt)
         ∧ unique_records db' ∧ unique_universal db'.
Proof.
  revert db. induction acts as [|act acts IH]; intros db Hr Hu.
  - by exists db.
  - rewrite run_cons.
    assert (∃ db1, run_action a y act db = (db1, inr tt)
                   ∧ unique_records db1 ∧ unique_universal db1)
      as (db1 & -> & Hr1 & Hu1); [|by apply IH].
    destruct act as [label key v|s v]; simpl.
    + unfold bind.
      destruct (get_or_create_total label key db Hu) as (st & db0 & -> & Hu0 & Ep).
      assert (unique_records db0) as Hr0.
      { intros a' s' y'. rewrite Ep. apply Hr. }
      destruct (update_or_create_total a (Statistic.pk st) y v db0 Hr0)
        as (db1 & -> & Hr1 & Es).
      exists db1. split_and!; [done|done|]. intros l. rewrite Es. apply Hu0.
    + destruct (update_or_create_total a s y v db Hr) as (db1 & -> & Hr1 & Es).
      exists db1. split_and!; [done|done|]. intros l. rewrite Es. apply Hu.
Qed.

Lemma get_or_create_raises label key db db' e :
  get_or_create label key db = (db', inl e) → e = MultipleObjectsReturned.
Proof.
  unfold get_or_create.
  destruct (filter (is_universal label) (statistics db)) as [|s1 [|s2 l]];
    [done|done|]. by intros [= _ <-].
Qed.

Lemma update_or_create_raises a s y v db db' e :
  update_or_create a s y v db = (db', inl e) → e = MultipleObjectsReturned.
Proof.
  unfold update_or_create.
  destruct (filter (is_record a s y) (performance_stats db)) as [|r1 [|r2 l]];
    [done|done|]. by intros [= _ <-].
Qed.

Lemma run_action_raises a y act db db' e :
  run_action a y act db = (db', inl e) → e = MultipleObjectsReturned.
Proof.
  destruct act as [label key v|s v]; simpl.
  - unfold bind. destruct (get_or_create label key db) as [db1 [e1|st]] eqn:Hg.
    + intros [= _ <-]. by eapply get_or_create_raises.
    + apply update_or_create_raises.
  - apply update_or_create_raises.
Qed.

(** X1. On a database with at most one record per (athlete, statistic, year)
    and at most one universal statistic per name, no lookup of the two
    loops of a submission finds two rows: the loops do not raise
    [MultipleObjectsReturned], and the database they leave has the same two
    properties. *)
Theorem upsert_finds_no_duplicates athlete sp year cleaned db :
  unique_records db → unique_universal db →
  (∀ db', upsert athlete sp year cleaned db
          ≠ (db', inl MultipleObjectsReturned))
  ∧ unique_records (upsert athlete sp year cleaned db).1
  ∧ unique_universal (upsert athlete sp year cleaned db).1.
Proof.
  intros Hr Hu. rewrite upsert_actions.
  destruct (run_total (Athlete.pk athlete) year
              (actions cleaned (sport_specific_stats sp db)) db Hr Hu)
    as (db1 & -> & Hr1 & Hu1).
  by split_and!.
Qed.

Lemma NoDup_fmap_eq {A B} (f : A → B) (l : list A) (x z : A) :
  NoDup (f <$> l) → x ∈ l → z ∈ l → f x = f z → x = z.
Proof.
  intros Hnd [i Hi]%list_elem_of_lookup [j Hj]%list_elem_of_lookup Hf.
  assert (i = j) as ->; [|congruence].
  eapply NoDup_lookup; [exact Hnd| |]; rewrite list_lookup_fmap.
  - by rewrite Hi.
  - rewrite Hj. simpl. by rewrite Hf.
Qed.

Lemma get_or_create_NoDup label key db :
  NoDup (Statistic.pk <$> statistics db) →
  NoDup (Statistic.pk <$> statistics (get_or_create label key db).1).
Proof.
  intros Hnd. destruct (get_or_create_cases label key db) as [s E| E s |s1 s2 l E];
    simpl; [done| |done].
  rewrite fmap_app. apply NoDup_app. split_and!; [done| |apply NoDup_singleton].
  intros p Hp Hin. apply list_elem_of_singleton in Hin. subst p s. simpl in Hp.
  by apply fresh_pk_not_in in Hp.
Qed.

Lemma update_or_create_statistics a s y v db :
  statistics (update_or_create a s y v db).1 = statistics db.
Proof. by destruct (update_or_create_cases a s y v db). Qed.

Lemma upsert_NoDup athlete sp year cleaned db :
  NoDup (Statistic.pk <$> statistics db) →
  NoDup (Statistic.pk <$> statistics (upsert athlete sp year cleaned db).1).
Proof.
  apply (upsert_invariant (λ db, NoDup (Statistic.pk <$> statistics db))).
  - intros. by apply get_or_create_NoDup.
  - intros. by rewrite update_or_create_statistics.
Qed.

Lemma get_or_create_from_universal label key db :
  (key, label) ∈ UNIVERSAL_STATISTICS →
  statistics_from_universal db (get_or_create label key db).1.
Proof.
  intros Hin. destruct (get_or_create_cases label key db) as [s E| E s |s1 s2 l E];
    simpl; try (exists []; by rewrite app_nil_r).
  exists [s]. split; [done|]. apply Forall_singleton. by subst s.
Qed.

Lemma statistics_from_universal_trans db1 db2 db3 :
  statistics_from_universal db1 db2 → statistics_from_universal db2 db3 →
  statistics_from_universal db1 db3.
Proof.
  intros (n1 & E1 & F1) (n2 & E2 & F2). exists (n1 ++ n2). split.
  - by rewrite E2, E1, app_assoc.
  - by apply Forall_app.
Qed.

Lemma upsert_from_universal athlete sp year cleaned db :
  statistics_from_universal db (upsert athlete sp year cleaned db).1.
Proof.
  rewrite upsert_actions.
  set (acts := actions cleaned (sport_specific_stats sp db)).
  assert (Forall (λ act, match act with
                         | Universal l k _ => (k, l) ∈ UNIVERSAL_STATISTICS
                         | Specific _ _ => True
                         end) acts) as Hacts.
  { apply Forall_forall. intros act Hact.
    apply elem_of_app in Hact as [Hact|Hact];
      apply list_elem_of_omap in Hact as (x & Hx & Hact).
    - unfold universal_action in Hact.
      destruct (cleaned !! x.1) as [value|]; [|done].
      destruct (truthy value); [|done]. injection Hact as <-. by destruct x.
    - unfold specific_action in Hact.
      destruct (cleaned !! Statistic.short_name x) as [value|]; [|done].
      destruct (truthy value); [|done]. by injection Hact as <-. }
  clearbody acts. revert db. induction Hacts as [|act acts Hact _ IH]; intros db.
  - exists []. by rewrite app_nil_r.
  - rewrite run_cons.
    assert (statistics_from_universal db
              (run_action (Athlete.pk athlete) year act db).1) as H1.
    { destruct act as [label key v|s v]; simpl.
      - unfold bind. pose proof (get_or_create_from_universal label key db Hact) as Hg.
        destruct (get_or_create label key db) as [db1 [e|st]]; simpl in *; [done|].
        destruct Hg as (new & E & F). exists new.
        by rewrite update_or_create_statistics.
      - exists []. by rewrite update_or_create_statistics, app_nil_r. }
    destruct (run_action (Athlete.pk athlete) year act db) as [db1 [e|[]]];
      simpl in *; [done|].
    eapply statistics_from_universal_trans; [exact H1|apply IH].
Qed.

Lemma settled_written a y db acts act :
  settled a y db acts → act ∈ acts →
  ∃ p r act', target db act = Some p
    ∧ filter (is_record a p y) (performance_stats db) = [r]
    ∧ act' ∈ acts ∧ target db act' = Some p
    ∧ PerformanceStat.value r = written act'.
Proof.
  revert act. induction acts as [|act0 acts IH]; intros act Hset Hin;
    [by apply elem_of_nil in Hin|].
  destruct Hset as [(p & r & Hp & Hr & Hv) Hrest].
  apply elem_of_cons in Hin as [->|Hin].
  - destruct Hv as [(act' & Hin' & Ht')|Hv].
    + destruct (IH _ Hrest Hin') as (p' & r' & act'' & Hp' & Hr' & Hin'' & Ht'' & Hv').
      assert (p' = p) as -> by congruence. assert (r' = r) as -> by congruence.
      exists p, r, act''. split_and!; try done. by apply list_elem_of_further.
    + exists p, r, act0. split_and!; try done. apply list_elem_of_here.
  - destruct (IH _ Hrest Hin) as (p' & r' & act'' & Hp' & Hr' & Hin'' & Ht'' & Hv').
    exists p', r', act''. split_and!; try done. by apply list_elem_of_further.
Qed.

Lemma actions_universal cleaned act :
  act ∈ omap (universal_action cleaned) UNIVERSAL_STATISTICS ↔
  ∃ key label value, (key, label) ∈ UNIVERSAL_STATISTICS
    ∧ cleaned !! key = Some value ∧ truthy value = true
    ∧ act = Universal label key (to_text value).
Proof.
  rewrite list_elem_of_omap. split.
  - intros ([key label] & Hx & Hact). unfold universal_action in Hact. simpl in Hact.
    destruct (cleaned !! key) as [value|] eqn:Hc; [|done].
    destruct (truthy value) eqn:Ht; [|done]. injection Hact as <-.
    by exists key, label, value.
  - intros (key & label & value & Hx & Hc & Ht & ->). exists (key, label).
    split; [done|]. unfold universal_action. simpl. by rewrite Hc, Ht.
Qed.

Lemma actions_specific cleaned (stats : list Statistic.t) act :
  act ∈ omap (specific_action cleaned) stats ↔
  ∃ st value, st ∈ stats ∧ cleaned !! Statistic.short_name st = Some value
    ∧ truthy value = true ∧ act = Specific (Statistic.pk st) (to_text value).
Proof.
  rewrite list_elem_of_omap. split.
  - intros (st & Hx & Hact). unfold specific_action in Hact.
    destruct (cleaned !! Statistic.short_name st) as [value|] eqn:Hc; [|done].
    destruct (truthy value) eqn:Ht; [|done]. injection Hact as <-.
    by exists st, value.
  - intros (st & value & Hx & Hc & Ht & ->). exists st.
    split; [done|]. unfold specific_action. by rewrite Hc, Ht.
Qed.

Lemma upsert_statistics_app athlete sp year cleaned db :
  ∃ new, statistics (upsert athlete sp year cleaned db).1 = statistics db ++ new.
Proof.
  destruct (upsert_evolves athlete sp year cleaned db)
    as (_ & _ & _ & (new & E & _) & _). by exists new.
Qed.

Lemma sport_value_written athlete sp year cleaned st value db db' :
  NoDup (Statistic.pk <$> statistics db) →
  st ∈ statistics db → Statistic.sport st = Some sp →
  cleaned !! Statistic.short_name st = Some value → truthy value = true →
  upsert athlete sp year cleaned db = (db', inr tt) →
  ∃ r, filter (is_record (Athlete.pk athlete) (Statistic.pk st) year)
         (performance_stats db') = [r]
       ∧ PerformanceStat.value r = to_text value.
Proof.
  intros Hnd Hst Hsp Hc Ht Hrun.
  pose proof (upsert_NoDup athlete sp year cleaned db Hnd) as Hnd'.
  destruct (upsert_statistics_app athlete sp year cleaned db) as [new Enew].
  rewrite Hrun in Hnd', Enew. simpl in Hnd', Enew.
  rewrite upsert_actions in Hrun. apply run_settled in Hrun.
  assert (st ∈ sport_specific_stats sp db) as Hsss by by apply list_elem_of_filter.
  assert (st ∈ statistics db') as Hst'.
  { rewrite Enew. apply elem_of_app. by left. }
  destruct (settled_written _ _ _ _ (Specific (Statistic.pk st) (to_text value))
              Hrun) as (p & r & act' & Hp & Hr & Hin' & Ht' & Hv).
  { apply elem_of_app. right. apply actions_specific. by exists st, value. }
  injection Hp as <-. exists r. split; [done|]. rewrite Hv.
  apply elem_of_app in Hin' as [Hin'|Hin'].
  - exfalso. apply actions_universal in Hin' as (k & l & v' & _ & _ & _ & ->).
    simpl in Ht'.
    destruct (filter (is_universal l) (statistics db')) as [|s' [|? ?]] eqn:E;
      try done. injection Ht' as Ht'.
    assert (s' ∈ filter (is_universal l) (statistics db')) as Hs'
      by (rewrite E; apply list_elem_of_here).
    apply list_elem_of_filter in Hs' as [[_ Hnone] Hs'].
    assert (s' = st) as ->
      by (eapply (NoDup_fmap_eq Statistic.pk); [exact Hnd'|done..]).
    congruence.
  - apply actions_specific in Hin' as (st' & v' & Hst0 & Hc' & _ & ->).
    simpl in *. injection Ht' as Ht'.
    apply list_elem_of_filter in Hst0 as [_ Hst0].
    assert (st' = st) as ->
      by (eapply (NoDup_fmap_eq Statistic.pk); [exact Hnd|done..]).
    congruence.
Qed.

(** X2. With distinct primary keys in [Statistic], a submission that
    completes stores the value submitted under the short name of a
    statistic of the athlete's sport: afterwards there is exactly one
    record of (athlete, that statistic, year), and it holds that value. *)
Theorem specific_value_stored athlete sp year cleaned st value db db' :
  NoDup (Statistic.pk <$> statistics db) →
  st ∈ statistics db → Statistic.sport st = Some sp →
  cleaned !! Statistic.short_name st = Some value → truthy value = true →
  upsert athlete sp year cleaned db = (db', inr tt) →
  ∃ r, filter (is_record (Athlete.pk athlete) (Statistic.pk st) year)
         (performance_stats db') = [r]
       ∧ PerformanceStat.value r = to_text value.
Proof.
  intros Hnd Hst Hsp Hc Ht Hrun.
  destruct (sport_value_written athlete sp year cleaned st value db db'
              Hnd Hst Hsp Hc Ht Hrun) as (r & Hr & Hv).
  exists r. by split.
Qed.

Lemma universal_value_written athlete sp year cleaned key label value db db' :
  NoDup (Statistic.pk <$> statistics db) →
  (key, label) ∈ UNIVERSAL_STATISTICS →
  (∀ key', (key', label) ∈ UNIVERSAL_STATISTICS → key' = key) →
  cleaned !! key = Some value → truthy value = true →
  upsert athlete sp year cleaned db = (db', inr tt) →
  ∃ s r, filter (is_universal label) (statistics db') = [s]
    ∧ filter (is_record (Athlete.pk athlete) (Statistic.pk s) year)
        (performance_stats db') = [r]
    ∧ PerformanceStat.value r = to_text value
    ∧ (filter (is_universal label) (statistics db) = [] →
       Statistic.short_name s = key ∧ s ∉ statistics db).
Proof.
  intros Hnd Hin Hkey Hc Ht Hrun.
  pose proof (upsert_NoDup athlete sp year cleaned db Hnd) as Hnd'.
  pose proof (upsert_from_universal athlete sp year cleaned db) as (new & Enew & Fnew).
  rewrite Hrun in Hnd', Enew. simpl in Hnd', Enew.
  rewrite upsert_actions in Hrun. apply run_settled in Hrun.
  destruct (settled_written _ _ _ _ (Universal label key (to_text value)) Hrun)
    as (p & r & act' & Hp & Hr & Hin' & Ht' & Hv).
  { apply elem_of_app. left. apply actions_universal. by exists key, label, value. }
  simpl in Hp.
  destruct (filter (is_universal label) (statistics db')) as [|s [|? ?]] eqn:E;
    try done. injection Hp as <-.
  assert (s ∈ statistics db' ∧ is_universal label s) as [Hs [Hname Hnone]].
  { assert (s ∈ filter (is_universal label) (statistics db')) as Hs
      by (rewrite E; apply list_elem_of_here).
    by apply list_elem_of_filter in Hs as [? ?]. }
  exists s, r. split_and!; [done|done| |].
  - rewrite Hv. apply elem_of_app in Hin' as [Hin'|Hin'].
    + apply actions_universal in Hin' as (k' & l' & v' & Hx & Hc' & _ & ->).
      simpl in *.
      destruct (filter (is_universal l') (statistics db')) as [|s' [|? ?]] eqn:E';
        try done. injection Ht' as Ht'.
      assert (s' ∈ filter (is_universal l') (statistics db')) as Hs'
        by (rewrite E'; apply list_elem_of_here).
      apply list_elem_of_filter in Hs' as [[Hname' _] Hs'].
      assert (s' = s) as ->
        by (eapply (NoDup_fmap_eq Statistic.pk); [exact Hnd'|done..]).
      assert (l' = label) as -> by congruence.
      rewrite (Hkey _ Hx) in Hc'. congruence.
    + exfalso. apply actions_specific in Hin' as (st' & v' & Hst0 & _ & _ & ->).
      simpl in Ht'. injection Ht' as Ht'.
      apply list_elem_of_filter in Hst0 as [Hsp Hst0]. unfold of_sport in Hsp.
      assert (st' = s) as ->.
      { eapply (NoDup_fmap_eq Statistic.pk); [exact Hnd'| |done|done].
        rewrite Enew. apply elem_of_app. by left. }
      congruence.
  - intros Hnone0.
    assert (s ∉ statistics db) as Hnot.
    { intros Hs0. eapply (filter_nil_not_elem_of _ _ s Hnone0); [|done]. done. }
    split; [|done]. rewrite Enew in Hs. apply elem_of_app in Hs as [Hs|Hs]; [done|].
    rewrite Forall_forall in Fnew. destruct (Fnew _ Hs) as [_ Hpair].
    rewrite Hname in Hpair. by apply Hkey.
Qed.

(** X3. With distinct primary keys in [Statistic], a submission that
    completes stores the value submitted under the key of a universal
    statistic whose label has no other key: afterwards there is exactly one
    universal row with that label, and exactly one record of (athlete, that
    row, year), which holds the value; when no universal row had the label,
    the row is the one created, stored under the key. *)
Theorem universal_value_stored athlete sp year cleaned key label value db db' :
  NoDup (Statistic.pk <$> statistics db) →
  (key, label) ∈ UNIVERSAL_STATISTICS →
  (∀ key', (key', label) ∈ UNIVERSAL_STATISTICS → key' = key) →
  cleaned !! key = Some value → truthy value = true →
  upsert athlete sp year cleaned db = (db', inr tt) →
  ∃ s r, filter (is_universal label) (statistics db') = [s]
    ∧ filter (is_record (Athlete.pk athlete) (Statistic.pk s) year)
        (performance_stats db') = [r]
    ∧ PerformanceStat.value r = to_text value
    ∧ (filter (is_universal label) (statistics db) = [] →
       Statistic.short_name s = key ∧ s ∉ statistics db).
Proof.
  intros Hnd Hin Hkey Hc Ht Hrun.
  destruct (universal_value_written athlete sp year cleaned key label value
              db db' Hnd Hin Hkey Hc Ht Hrun) as (s & r & Hs & Hr & Hv & Hnew).
  by exists s, r.
Qed.

Lemma get_athlete_pk pk db athlete :
  get_athlete pk db = Some athlete → Athlete.pk athlete = pk ∧ athlete ∈ athletes db.
Proof.
  unfold get_athlete. intros H%head_Some_elem_of.
  by apply list_elem_of_filter in H.
Qed.

(** The case analysis of the view: it leaves the database as it is, or it
    leaves the database of the two loops run for the athlete of the url. *)
Lemma manage_athlete_stats_cases today request pk db :
  db_after (manage_athlete_stats today request pk db) = db
  ∨ ∃ athlete team year cleaned,
      get_athlete pk db = Some athlete ∧ Athlete.team athlete = Some team
      ∧ db_after (manage_athlete_stats today request pk db)
        = (upsert athlete (Team.sport team) year cleaned db).1.
Proof.
  unfold manage_athlete_stats.
  destruct (user request) as [u|]; [|by left].
  destruct (get_athlete pk db) as [athlete|] eqn:Ha; [|by left].
  destruct (Athlete.team athlete) as [team|] eqn:Ht; [|by left].
  destruct (negb _); [by left|].
  destruct (method request); try (destruct (initial_data _ _ _); by left).
  destruct (is_valid _); [|by left].
  destruct (cleaned_data _ !! "year") as [[?|year]|]; try by left.
  right. exists athlete, team, year, (cleaned_data
    (ScorecardForm (Some (POST_data request)) ∅ (Team.sport team) db)).
  split_and!; [done|done|]. by destruct (upsert _ _ _ _ db) as [db' [e|?]].
Qed.

(** X4. A submission for an athlete and a year leaves the records of every
    other athlete and of every other year exactly as they were; whatever
    the request, the view leaves the records of every athlete other than
    the one of the url as they were. *)
Theorem other_records_untouched today request pk athlete sp year cleaned db :
  (∀ a' s y', a' ≠ Athlete.pk athlete ∨ y' ≠ year →
     filter (is_record a' s y')
       (performance_stats (upsert athlete sp year cleaned db).1)
     = filter (is_record a' s y') (performance_stats db))
  ∧ (∀ a' s y', a' ≠ pk →
     filter (is_record a' s y')
       (performance_stats (db_after (manage_athlete_stats today request pk db)))
     = filter (is_record a' s y') (performance_stats db)).
Proof.
  assert (∀ athlete sp year cleaned a' s y',
            a' ≠ Athlete.pk athlete ∨ y' ≠ year →
            filter (is_record a' s y')
              (performance_stats (upsert athlete sp year cleaned db).1)
            = filter (is_record a' s y') (performance_stats db)) as Hup.
  { clear. intros athlete sp year cleaned a' s y' Hne. rewrite upsert_actions.
    destruct (for_each _ _ db) as [db1 res] eqn:Hrun. simpl.
    apply (run_frame _ _ _ _ _ _ _ _ _ Hrun). intros -> ->. by destruct Hne. }
  split; [apply Hup|]. intros a' s y' Hne.
  destruct (manage_athlete_stats_cases today request pk db)
    as [->|(ath & team & yr & cl & Ha & _ & ->)]; [done|].
  apply Hup. left. by apply get_athlete_pk in Ha as [-> _].
Qed.

Lemma same_record_refl r : same_record r r.
Proof. by destruct r. Qed.

Lemma same_record_trans r1 r2 r3 :
  same_record r1 r2 → same_record r2 r3 → same_record r1 r3.
Proof. unfold same_record. intros <- <-. by destruct r1. Qed.

Lemma records_kept_refl a y db : records_kept a y db db.
Proof.
  exists (performance_stats db), []. rewrite app_nil_r. split_and!; [done| |done].
  apply Forall2_same_length_lookup_2; [done|].
  intros i r r' H1 H2. assert (r' = r) as -> by congruence. apply same_record_refl.
Qed.

Lemma records_kept_trans a y db1 db2 db3 :
  records_kept a y db1 db2 → records_kept a y db2 db3 → records_kept a y db1 db3.
Proof.
  intros (c1 & n1 & E1 & F1 & N1) (c2 & n2 & E2 & F2 & N2).
  rewrite E1 in F2. apply Forall2_app_inv_l in F2 as (c2a & c2b & Fa & Fb & ->).
  exists c2a, (c2b ++ n2). split_and!.
  - by rewrite E2, app_assoc.
  - clear -F1 Fa. revert c2a Fa. induction F1 as [|r r' l l' H _ IH]; intros c2a Fa.
    + by apply Forall2_nil_inv_l in Fa as ->.
    + apply Forall2_cons_inv_l in Fa as (r'' & c & H' & Fc & ->).
      constructor; [by eapply same_record_trans|by apply IH].
  - apply Forall_app. split; [|done]. clear -N1 Fb.
    induction Fb as [|r r' l l' H _ IH]; [done|].
    apply Forall_cons in N1 as [[Ha Hy] N1]. constructor; [|by apply IH].
    unfold same_record in H. rewrite <- H. done.
Qed.

Lemma update_or_create_kept a s y v db :
  records_kept a y db (update_or_create a s y v db).1.
Proof.
  destruct (update_or_create_cases a s y v db) as [E r|r E|r1 r2 l E]; simpl;
    try apply records_kept_refl.
  - exists (performance_stats db), [r]. split_and!; [done| |].
    + apply Forall2_same_length_lookup_2; [done|].
      intros i r1 r2 H1 H2. assert (r2 = r1) as -> by congruence.
      apply same_record_refl.
    + apply Forall_singleton. by subst r.
  - exists (save_value a s y v <$> performance_stats db), [].
    rewrite app_nil_r. split_and!; [done| |done].
    apply Forall2_fmap_r, Forall2_same_length_lookup_2; [done|].
    intros i r1 r2 H1 H2. assert (r2 = r1) as -> by congruence.
    unfold same_record, save_value, compose.
    destruct (decide (is_record a s y r1)); by destruct r1.
Qed.

Lemma upsert_kept athlete sp year cleaned db :
  records_kept (Athlete.pk athlete) year db (upsert athlete sp year cleaned db).1.
Proof.
  assert (∀ db0, records_kept (Athlete.pk athlete) year db0
                   (upsert athlete sp year cleaned db0).1 ) as H; [|apply H].
  intros db0.
  apply (upsert_invariant (λ db1, records_kept (Athlete.pk athlete) year db0 db1)).
  - intros l k db1 H1. eapply records_kept_trans; [exact H1|].
    destruct (get_or_create_cases l k db1); simpl; try apply records_kept_refl.
    exists (performance_stats db1), []. rewrite app_nil_r. split_and!; [done| |done].
    apply Forall2_same_length_lookup_2; [done|].
    intros i r1 r2 H2 H3. assert (r2 = r1) as -> by congruence.
    apply same_record_refl.
  - intros s v db1 H1. eapply records_kept_trans; [exact H1|].
    apply update_or_create_kept.
  - apply records_kept_refl.
Qed.

(** X5. No request to the view removes a record or changes its primary
    key, athlete, statistic or year: the records of the database are all
    in the database the view leaves, in their places and up to their
    values, and the records after them are new records of the athlete of
    the url. *)
Theorem records_never_removed today request pk db :
  ∃ changed new,
    performance_stats (db_after (manage_athlete_stats today request pk db))
    = changed ++ new
    ∧ Forall2 same_record (performance_stats db) changed
    ∧ Forall (λ r, PerformanceStat.athlete r = pk) new.
Proof.
  destruct (manage_athlete_stats_cases today request pk db)
    as [->|(ath & team & yr & cl & Ha & _ & ->)].
  - destruct (records_kept_refl pk 0 db) as (c & n & E & F & N).
    exists c, n. split_and!; [done|done|]. eapply Forall_impl; [exact N|].
    by intros r [? _].
  - destruct (upsert_kept ath (Team.sport team) yr cl db) as (c & n & E & F & N).
    exists c, n. split_and!; [done|done|]. eapply Forall_impl; [exact N|].
    intros r [Hr _]. by apply get_athlete_pk in Ha as [<- _].
Qed.

(** X6. No request to the view changes the users, the coaches or the
    athletes, and the only rows it adds to [Statistic] are universal rows
    (without sport) whose name and short name are a label and its key of
    [UNIVERSAL_STATISTICS]: it never creates a statistic of a sport. *)
Theorem only_universal_statistics_created today request pk db :
  let db' := db_after (manage_athlete_stats today request pk db) in
  users db' = users db ∧ coaches db' = coaches db ∧ athletes db' = athletes db
  ∧ ∃ new, statistics db' = statistics db ++ new
      ∧ Forall (λ s, Statistic.sport s = None
                     ∧ (Statistic.short_name s, Statistic.name s)
                         ∈ UNIVERSAL_STATISTICS) new.
Proof.
  destruct (manage_athlete_stats_evolves today request pk db)
    as (Hu & Hc & Ha & _ & _).
  simpl. split_and!; [done|done|done|].
  destruct (manage_athlete_stats_cases today request pk db)
    as [->|(ath & team & yr & cl & _ & _ & ->)].
  - exists []. by rewrite app_nil_r.
  - apply upsert_from_universal.
Qed.

(** ** The pre-filled form *)

Lemma initial_data_fold db (l : list PerformanceStat.t) (init0 : gmap string Value) :
  (∀ r, r ∈ l → is_Some (record_key db r)) →
  ∃ init,
    foldl (λ acc stat_record,
             match acc with
             | inr init =>
                 match get_statistic (PerformanceStat.statistic stat_record) db with
                 | Some st =>
                     inr (<[Statistic.short_name st :=
                              Str (PerformanceStat.value stat_record)]> init)
                 | None => inl DoesNotExist
                 end
             | inl e => inl e
             end) (inr init0) l = inr init
    ∧ ∀ k, init !! k
           = match last (filter (λ r, record_key db r = Some k) l) with
             | Some r => Some (Str (PerformanceStat.value r))
             | None => init0 !! k
             end.
Proof.
  revert init0. induction l as [|r l IH]; intros init0 Hl; simpl.
  - by exists init0.
  - destruct (Hl r) as [k0 Hk0]; [apply list_elem_of_here|].
    unfold record_key in Hk0.
    destruct (get_statistic (PerformanceStat.statistic r) db) as [st|] eqn:Hst;
      [|done]. injection Hk0 as Hk0.
    destruct (IH (<[Statistic.short_name st := Str (PerformanceStat.value r)]> init0))
      as (init & -> & Hinit).
    { intros r' Hr'. by apply Hl, list_elem_of_further. }
    exists init. split; [done|]. intros k. rewrite Hinit, filter_cons.
    assert (record_key db r = Some (Statistic.short_name st)) as Hrk.
    { unfold record_key. by rewrite Hst. }
    destruct (decide (record_key db r = Some k)) as [Hd|Hd]; rewrite Hrk in Hd.
    + injection Hd as <-. rewrite last_cons. destruct (last (filter _ l)); [done|].
      by rewrite lookup_insert_eq.
    + destruct (last (filter _ l)); [done|].
      rewrite lookup_insert_ne; [done|]. congruence.
Qed.

Lemma initial_data_lookup today athlete db :
  (∀ r, r ∈ existing_stats today athlete db → is_Some (record_key db r)) →
  ∃ init,
    initial_data today athlete db = inr init
    ∧ ∀ k, init !! k
           = match last (filter (λ r, record_key db r = Some k)
                           (existing_stats today athlete db)) with
             | Some r => Some (Str (PerformanceStat.value r))
             | None => if decide (k = "year") then Some (Int today) else None
             end.
Proof.
  intros Hl. unfold initial_data.
  destruct (initial_data_fold db (existing_stats today athlete db)
              {[ "year" := Int today ]} Hl) as (init & E & Hinit).
  exists init. split; [exact E|]. intros k. rewrite Hinit.
  destruct (last _); [done|]. destruct (decide (k = "year")) as [->|Hne].
  - apply lookup_singleton_eq.
  - by apply lookup_singleton_ne.
Qed.

Lemma statistics_exist_keys today athlete db :
  statistics_exist db →
  ∀ r, r ∈ existing_stats today athlete db → is_Some (record_key db r).
Proof.
  intros Hfk r [_ Hr]%list_elem_of_filter. unfold record_key.
  destruct (Hfk r Hr) as [st ->]. by eexists.
Qed.

(** X7. For a requester who passes the authorization test, an athlete with
    a team and a database whose records all refer to a statistic, a request
    other than POST renders the unbound form and changes nothing.  The
    initial value under a key is the value of the last record of this
    athlete for the current year whose statistic has the key as short name;
    a key without such a record has no initial value, except [year], which
    has the current year. *)
Theorem prefill_from_current_year today request pk u athlete team db :
  user request = Some u → get_athlete pk db = Some athlete →
  Athlete.team athlete = Some team →
  is_their_coach u athlete db || is_admin u = true →
  method request ≠ POST → statistics_exist db →
  ∃ init,
    manage_athlete_stats today request pk db
    = mkOutcome db []
        (render_form template (ScorecardForm None init (Team.sport team) db)
           athlete)
    ∧ ∀ k, init !! k
           = match last (filter (λ r, record_key db r = Some k)
                           (existing_stats today athlete db)) with
             | Some r => Some (Str (PerformanceStat.value r))
             | None => if decide (k = "year") then Some (Int today) else None
             end.
Proof.
  intros Hu Ha Ht Hauth Hm Hfk.
  destruct (initial_data_lookup today athlete db
              (statistics_exist_keys today athlete db Hfk)) as (init & E & Hinit).
  exists init. split; [|done]. unfold manage_athlete_stats.
  rewrite Hu, Ha, Ht, Hauth. simpl. destruct (method request); [|done|];
    by rewrite E.
Qed.

Lemma get_statistic_elem_pk p db st :
  get_statistic p db = Some st → st ∈ statistics db ∧ Statistic.pk st = p.
Proof.
  unfold get_statistic. intros H%head_Some_elem_of.
  apply list_elem_of_filter in H. tauto.
Qed.

Lemma get_statistic_is_Some p db :
  is_Some (get_statistic p db) ↔ ∃ st, st ∈ statistics db ∧ Statistic.pk st = p.
Proof.
  split.
  - intros [st H]. exists st. by apply get_statistic_elem_pk.
  - intros (st & Hin & Hpk). unfold get_statistic.
    destruct (filter _ (statistics db)) as [|st' l] eqn:E; [|by eexists].
    exfalso. by eapply (filter_nil_not_elem_of _ _ st E).
Qed.

Lemma statistics_exist_grow db db' :
  (∀ st, st ∈ statistics db → st ∈ statistics db') →
  (∀ r, r ∈ performance_stats db' →
        r ∈ performance_stats db
        ∨ ∃ st, st ∈ statistics db'
                ∧ Statistic.pk st = PerformanceStat.statistic r) →
  statistics_exist db → statistics_exist db'.
Proof.
  intros Hs Hr Hfk r Hin. apply get_statistic_is_Some.
  destruct (Hr r Hin) as [Hold|(st & Hst & Hpk)]; [|by exists st].
  apply Hfk, get_statistic_is_Some in Hold as (st & Hst & Hpk). exists st. auto.
Qed.

Lemma upsert_statistics_exist athlete sp year cleaned db :
  statistics_exist db → statistics_exist (upsert athlete sp year cleaned db).1.
Proof.
  intros Hfk.
  destruct (upsert_statistics_app athlete sp year cleaned db) as [new Enew].
  rewrite upsert_actions in *.
  set (acts := actions cleaned (sport_specific_stats sp db)) in *.
  destruct (for_each _ acts db) as [db1 res] eqn:Hrun. simpl in *.
  eapply statistics_exist_grow; [| |exact Hfk].
  - intros st Hst. rewrite Enew. apply elem_of_app. by left.
  - intros r Hr.
    destruct (decide (Exists (λ act, target db1 act
                                     = Some (PerformanceStat.statistic r)) acts))
      as [Hex|Hex].
    + right. apply Exists_exists in Hex as (act & Hact & Ht).
      apply elem_of_app in Hact as [Hact|Hact].
      * apply actions_universal in Hact as (k & l & v & _ & _ & _ & ->).
        simpl in Ht.
        destruct (filter (is_universal l) (statistics db1)) as [|st [|? ?]] eqn:E;
          try done. injection Ht as Ht. exists st. split; [|done].
        assert (st ∈ filter (is_universal l) (statistics db1)) as Hst
          by (rewrite E; apply list_elem_of_here).
        by apply list_elem_of_filter in Hst as [_ ?].
      * apply actions_specific in Hact as (st & v & Hst & _ & _ & ->).
        simpl in Ht. injection Ht as Ht. exists st. split; [|done].
        apply list_elem_of_filter in Hst as [_ Hst]. rewrite Enew.
        apply elem_of_app. by left.
    + left.
      assert (r ∈ filter (is_record (PerformanceStat.athlete r)
                            (PerformanceStat.statistic r) (PerformanceStat.year r))
                    (performance_stats db1)) as Hf.
      { apply list_elem_of_filter. by split. }
      rewrite (run_frame _ _ _ _ _ _ _ _ _ Hrun) in Hf.
      * by apply list_elem_of_filter in Hf as [_ ?].
      * intros _ _ act Hact Ht. apply Hex, Exists_exists. eauto.
Qed.

Lemma last_all_equal {A} (l : list A) (x : A) :
  x ∈ l → (∀ z, z ∈ l → z = x) → last l = Some x.
Proof.
  intros Hin Hall. destruct (last l) as [z|] eqn:E.
  - f_equal. by apply Hall, last_Some_elem_of.
  - apply last_None in E. subst l. by apply elem_of_nil in Hin.
Qed.

(** X8. Round trip of a value through the two branches of the view.  Let the
    primary keys of [Statistic] be distinct, every record refer to a
    statistic, and a statistic of the athlete's sport have a short name
    that no other statistic and no universal key has.  When the loops for
    the current year complete with a value submitted under that short name,
    the initial data of the form built afterwards have that value under
    the same key. *)
Theorem submitted_value_prefilled athlete sp today cleaned st value db db' :
  NoDup (Statistic.pk <$> statistics db) → statistics_exist db →
  st ∈ statistics db → Statistic.sport st = Some sp →
  (∀ st', st' ∈ statistics db →
          Statistic.short_name st' = Statistic.short_name st → st' = st) →
  (∀ key label, (key, label) ∈ UNIVERSAL_STATISTICS →
                key ≠ Statistic.short_name st) →
  cleaned !! Statistic.short_name st = Some value → truthy value = true →
  upsert athlete sp today cleaned db = (db', inr tt) →
  ∃ init, initial_data today athlete db' = inr init
          ∧ init !! Statistic.short_name st = Some (Str (to_text value)).
Proof.
  intros Hnd Hfk Hst Hsp Huniq Hnokey Hc Ht Hrun.
  destruct (sport_value_written athlete sp today cleaned st value db db'
              Hnd Hst Hsp Hc Ht Hrun) as (r0 & Hr0 & Hv0).
  pose proof (upsert_NoDup athlete sp today cleaned db Hnd) as Hnd'.
  pose proof (upsert_statistics_exist athlete sp today cleaned db Hfk) as Hfk'.
  pose proof (upsert_from_universal athlete sp today cleaned db)
    as (new & Enew & Fnew).
  rewrite Hrun in Hnd', Hfk', Enew. simpl in Hnd', Hfk', Enew.
  assert (st ∈ statistics db') as Hst'.
  { rewrite Enew. apply elem_of_app. by left. }
  destruct (initial_data_lookup today athlete db'
              (statistics_exist_keys today athlete db' Hfk')) as (init & E & Hinit).
  exists init. split; [exact E|]. rewrite Hinit.
  assert (r0 ∈ filter (is_record (Athlete.pk athlete) (Statistic.pk st) today)
                  (performance_stats db')) as Hin0
    by (rewrite Hr0; apply list_elem_of_here).
  apply list_elem_of_filter in Hin0 as [(Ha0 & Hs0 & Hy0) Hin0].
  rewrite (last_all_equal _ r0); [by rewrite Hv0| |].
  - apply list_elem_of_filter. split.
    + unfold record_key. rewrite Hs0.
      destruct (get_statistic (Statistic.pk st) db') as [st''|] eqn:Hg.
      * apply get_statistic_elem_pk in Hg as [Hin'' Hpk''].
        assert (st'' = st) as ->
          by (eapply (NoDup_fmap_eq Statistic.pk); [exact Hnd'|done..]).
        done.
      * exfalso. assert (is_Some (get_statistic (Statistic.pk st) db')) as [? ?];
          [|congruence]. apply get_statistic_is_Some. by exists st.
    + apply list_elem_of_filter. by split.
  - intros r [Hk Hr]%list_elem_of_filter.
    apply list_elem_of_filter in Hr as [[Ha Hy] Hr].
    unfold record_key in Hk.
    destruct (get_statistic (PerformanceStat.statistic r) db') as [st''|] eqn:Hg;
      [|done]. injection Hk as Hk.
    apply get_statistic_elem_pk in Hg as [Hin'' Hpk''].
    assert (st'' = st) as ->.
    { rewrite Enew in Hin''. apply elem_of_app in Hin'' as [Hin''|Hin''].
      - by apply Huniq.
      - exfalso. rewrite Forall_forall in Fnew.
        destruct (Fnew _ Hin'') as [_ Hpair]. by eapply Hnokey. }
    assert (r ∈ filter (is_record (Athlete.pk athlete) (Statistic.pk st) today)
                  (performance_stats db')) as Hf.
    { apply list_elem_of_filter. by split. }
    rewrite Hr0 in Hf. by apply list_elem_of_singleton in Hf.
Qed.

Lemma prefilled_record today athlete db st r0 :
  NoDup (Statistic.pk <$> statistics db) → statistics_exist db →
  st ∈ statistics db →
  (∀ st', st' ∈ statistics db →
          Statistic.short_name st' = Statistic.short_name st → st' = st) →
  filter (is_record (Athlete.pk athlete) (Statistic.pk st) today)
    (performance_stats db) = [r0] →
  ∃ init, initial_data today athlete db = inr init
          ∧ init !! Statistic.short_name st
            = Some (Str (PerformanceStat.value r0)).
Proof.
  intros Hnd Hfk Hst Huniq Hr0.
  destruct (initial_data_lookup today athlete db
              (statistics_exist_keys today athlete db Hfk)) as (init & E & Hinit).
  exists init. split; [exact E|]. rewrite Hinit.
  assert (r0 ∈ filter (is_record (Athlete.pk athlete) (Statistic.pk st) today)
                  (performance_stats db)) as Hin0
    by (rewrite Hr0; apply list_elem_of_here).
  apply list_elem_of_filter in Hin0 as [(Ha0 & Hs0 & Hy0) Hin0].
  rewrite (last_all_equal _ r0); [done| |].
  - apply list_elem_of_filter. split.
    + unfold record_key. rewrite Hs0.
      destruct (get_statistic (Statistic.pk st) db) as [st''|] eqn:Hg.
      * apply get_statistic_elem_pk in Hg as [Hin'' Hpk''].
        assert (st'' = st) as ->
          by (eapply (NoDup_fmap_eq Statistic.pk); [exact Hnd|done..]).
        done.
      * exfalso. assert (is_Some (get_statistic (Statistic.pk st) db)) as [? ?];
          [|congruence]. apply get_statistic_is_Some. by exists st.
    + apply list_elem_of_filter. by split.
  - intros r [Hk Hr]%list_elem_of_filter.
    apply list_elem_of_filter in Hr as [[Ha Hy] Hr].
    unfold record_key in Hk.
    destruct (get_statistic (PerformanceStat.statistic r) db) as [st''|] eqn:Hg;
      [|done]. injection Hk as Hk.
    apply get_statistic_elem_pk in Hg as [Hin'' Hpk''].
    assert (st'' = st) as -> by by apply Huniq.
    assert (r ∈ filter (is_record (Athlete.pk athlete) (Statistic.pk st) today)
                  (performance_stats db)) as Hf.
    { apply list_elem_of_filter. by split. }
    rewrite Hr0 in Hf. by apply list_elem_of_singleton in Hf.
Qed.

(** X18. Where a value submitted for a universal statistic is pre-filled.
    With distinct primary keys and every record referring to a statistic,
    after the loops for the current year complete with a value under the
    key of a universal statistic whose label has no other key, the initial
    data built afterwards hold the value under the short name of the
    universal row with that label, provided no other statistic has that
    short name.  That short name is the key when the submission created the
    row; a row that existed keeps the short name it was stored under. *)
Theorem universal_value_prefilled athlete sp today cleaned key label value db db' :
  NoDup (Statistic.pk <$> statistics db) → statistics_exist db →
  (key, label) ∈ UNIVERSAL_STATISTICS →
  (∀ key', (key', label) ∈ UNIVERSAL_STATISTICS → key' = key) →
  cleaned !! key = Some value → truthy value = true →
  upsert athlete sp today cleaned db = (db', inr tt) →
  ∃ s, filter (is_universal label) (statistics db') = [s]
    ∧ (filter (is_universal label) (statistics db) = [] →
       Statistic.short_name s = key)
    ∧ (∀ s0, filter (is_universal label) (statistics db) = [s0] → s = s0)
    ∧ ((∀ st', st' ∈ statistics db' →
               Statistic.short_name st' = Statistic.short_name s → st' = s) →
       ∃ init, initial_data today athlete db' = inr init
               ∧ init !! Statistic.short_name s = Some (Str (to_text value))).
Proof.
  intros Hnd Hfk Hin Hkey Hc Ht Hrun.
  destruct (universal_value_written athlete sp today cleaned key label value
              db db' Hnd Hin Hkey Hc Ht Hrun) as (s & r & Hs & Hr & Hv & Hnew).
  pose proof (upsert_NoDup athlete sp today cleaned db Hnd) as Hnd'.
  pose proof (upsert_statistics_exist athlete sp today cleaned db Hfk) as Hfk'.
  pose proof (upsert_evolves athlete sp today cleaned db) as (_ & _ & _ & Hg & _).
  rewrite Hrun in Hnd', Hfk', Hg. simpl in Hnd', Hfk', Hg.
  exists s. split_and!; [done|by intros H; apply Hnew| |].
  - intros s0 Hs0. rewrite (statistics_grow_filter _ _ _ Hg) in Hs;
      [congruence|by rewrite Hs0].
  - intros Huniq.
    assert (s ∈ statistics db') as Hs'.
    { assert (s ∈ filter (is_universal label) (statistics db')) as H
        by (rewrite Hs; apply list_elem_of_here).
      by apply list_elem_of_filter in H as [_ ?]. }
    destruct (prefilled_record today athlete db' s r Hnd' Hfk' Hs' Huniq Hr)
      as (init & E & Hinit).
    exists init. split; [done|]. by rewrite Hinit, Hv.
Qed.

(** X17. When the two loops raise, the writes made before the failing pass
    stay: the database left is the one that the passes before it produced,
    up to the statistic that the failing pass may have created, and the
    records are exactly those the earlier passes left. *)
Theorem upsert_raises_keeps_earlier_writes athlete sp year cleaned db db' e :
  upsert athlete sp year cleaned db = (db', inl e) →
  ∃ pre act post db0,
    actions cleaned (sport_specific_stats sp db) = pre ++ act :: post
    ∧ for_each (run_action (Athlete.pk athlete) year) pre db = (db0, inr tt)
    ∧ run_action (Athlete.pk athlete) year act db0 = (db', inl e)
    ∧ performance_stats db' = performance_stats db0.
Proof.
  rewrite upsert_actions. intros Hrun.
  apply run_error_split in Hrun as (pre & act & post & db0 & Hacts & Hpre & Hact).
  exists pre, act, post, db0. split_and!; [done|done|done|].
  by apply run_action_error in Hact as [? _].
Qed.

(** ** Further properties of the roster view *)

Section roster_further.

Variable int : string → option Z.
Variable in_range : Z → bool.
Variable name_le : string → string → bool.

Lemma deletable_users_elem u (ids : list Z) db p :
  p ∈ Athlete.user_id <$> filter (λ a, Athlete.user_id a ∈ ids) (base_queryset u db)
  ↔ ∃ a, a ∈ base_queryset u db ∧ Athlete.user_id a = p ∧ p ∈ ids.
Proof.
  rewrite list_elem_of_fmap. split.
  - intros (a & -> & [Hid Ha]%list_elem_of_filter). by exists a.
  - intros (a & Ha & <- & Hid). exists a. split; [done|].
    by apply list_elem_of_filter.
Qed.

(** The numbers of an [__in] lookup are those that [int] makes of the
    submitted texts. *)
Lemma mapM_int_elem (texts : list string) (ids : list Z) (z : Z) :
  mapM int texts = Some ids →
  (z ∈ ids ↔ ∃ text, text ∈ texts ∧ int text = Some z).
Proof.
  intros H%mapM_Some. induction H as [|text z' texts ids Hz _ IH].
  - split; [by intros ?%elem_of_nil|]. by intros (text & ?%elem_of_nil & _).
  - rewrite elem_of_cons, IH. split.
    + intros [->|(text' & Hin & Hz')].
      * exists text. split; [apply list_elem_of_here|done].
      * exists text'. split; [by apply list_elem_of_further|done].
    + intros (text' & [->|Hin]%elem_of_cons & Hz').
      * left. congruence.
      * right. by exists text'.
Qed.

(** The outcome of a bulk delete whose query is not refused. *)
Definition deleted (u : CustomUser.t) (ids : list Z) (db : DB) : Outcome :=
  let deletable_users :=
    Athlete.user_id
      <$> filter (λ a, Athlete.user_id a ∈ ids) (base_queryset u db) in
  match deletable_users with
  | [] => mkOutcome db [] (redirect "athlete-list" None)
  | _ :: _ =>
      let '(db', deleted_count) := delete_users deletable_users db in
      mkOutcome db'
        [success ("Successfully deleted "
                  +:+ pretty (Z.of_nat deleted_count)
                  +:+ " athlete(s).")]
        (redirect "athlete-list" None)
  end.

Lemma athlete_list_post request u db :
  user request = Some u → method request = POST →
  athlete_list int in_range name_le request db
  = match mapM int (getlist "athlete_ids" (POST_data request)) with
    | None => mkOutcome db [] (ServerError ValueError)
    | Some ids =>
        if negb (is_none (base_query u db)) && negb (bool_decide (ids = []))
           && negb (forallb in_range ids)
        then mkOutcome db [] (ServerError OverflowError)
        else deleted u ids db
    end.
Proof.
  intros Hu Hm. unfold athlete_list, int_keys. rewrite Hu, Hm.
  by destruct (mapM int _).
Qed.

(** A query that Django does not send finds nothing. *)
Lemma deleted_not_sent u ids db :
  negb (is_none (base_query u db)) && negb (bool_decide (ids = [])) = false →
  deleted u ids db = mkOutcome db [] (redirect "athlete-list" None).
Proof.
  intros H. unfold deleted, base_queryset.
  apply andb_false_iff in H as [H|H].
  - destruct (base_query u db); try done.
  - apply negb_false_iff, bool_decide_eq_true in H. subst ids.
    assert (filter (λ a, Athlete.user_id a ∈ @nil Z) (rows (base_query u db) db)
            = []) as ->; [|done].
    apply elem_of_nil_inv. intros a [Hid _]%list_elem_of_filter.
    by apply elem_of_nil in Hid.
Qed.

Lemma deleted_users u ids db x :
  x ∈ users (db_after (deleted u ids db))
  ↔ x ∈ users db
    ∧ ¬ ∃ a, a ∈ base_queryset u db
             ∧ Athlete.user_id a = CustomUser.pk x ∧ CustomUser.pk x ∈ ids.
Proof.
  unfold deleted.
  pose proof (deletable_users_elem u ids db (CustomUser.pk x)) as Hel.
  destruct (Athlete.user_id <$> filter _ (base_queryset u db)) as [|d0 ds] eqn:Hd.
  - simpl. split; [|tauto]. intros Hx. split; [done|]. intros Hex.
    apply Hel in Hex. by apply elem_of_nil in Hex.
  - simpl. rewrite list_elem_of_filter. rewrite <- Hel. tauto.
Qed.

(** X9. When every submitted text is a number that the database accepts,
    the bulk delete removes exactly the users of the athletes of the
    requester's base queryset whose user id was submitted: a user is in the
    table afterwards iff it was there and is not the user of such an
    athlete.  When a text is no number the view raises [ValueError], and
    when the database refuses a number nothing is removed. *)
Theorem bulk_delete_exact request u db x :
  user request = Some u → method request = POST →
  let out := athlete_list int in_range name_le request db in
  let texts := getlist "athlete_ids" (POST_data request) in
  (∀ ids, mapM int texts = Some ids → forallb in_range ids = true →
     (x ∈ users (db_after out)
      ↔ x ∈ users db
        ∧ ¬ ∃ a text, a ∈ base_queryset u db
                      ∧ Athlete.user_id a = CustomUser.pk x
                      ∧ text ∈ texts ∧ int text = Some (CustomUser.pk x)))
  ∧ (mapM int texts = None → out = mkOutcome db [] (ServerError ValueError))
  ∧ (∀ ids, mapM int texts = Some ids → forallb in_range ids = false →
       db_after out = db).
Proof.
  intros Hu Hm out texts. subst out texts.
  rewrite (athlete_list_post request u db Hu Hm). split_and!.
  - intros ids Hids Hr. rewrite Hids, Hr, andb_false_r, deleted_users.
    split; intros [Hx Hno]; (split; [done|]).
    + intros (a & text & Ha & Hpk & Ht & Hz). apply Hno. exists a.
      split_and!; [done|done|]. apply (mapM_int_elem _ _ _ Hids). by exists text.
    + intros (a & Ha & Hpk & Hz). apply (mapM_int_elem _ _ _ Hids) in Hz
        as (text & Ht & Hz). apply Hno. by exists a, text.
  - by intros ->.
  - intros ids Hids Hr. rewrite Hids.
    destruct (negb (is_none _) && negb (bool_decide _)) eqn:Hsent; simpl.
    + by rewrite Hr.
    + by rewrite (deleted_not_sent u ids db Hsent).
Qed.

(** X10. When no athlete of the requester's base queryset has a submitted
    user id (nothing was ticked, the ids are those of athletes the
    requester does not see, or the requester sees no athlete), the POST
    branch deletes nothing and queues no message; when every submitted text
    is a number that the database accepts, it only redirects to the
    list. *)
Theorem bulk_delete_nothing request u db :
  user request = Some u → method request = POST →
  let out := athlete_list int in_range name_le request db in
  let texts := getlist "athlete_ids" (POST_data request) in
  (∀ a text, a ∈ base_queryset u db → text ∈ texts →
             int text ≠ Some (Athlete.user_id a)) →
  db_after out = db ∧ messages out = []
  ∧ (∀ ids, mapM int texts = Some ids → forallb in_range ids = true →
       response out = redirect "athlete-list" None).
Proof.
  intros Hu Hm out texts Hno. subst out texts.
  rewrite (athlete_list_post request u db Hu Hm).
  destruct (mapM int _) as [ids|] eqn:Hids; [|by split_and!].
  assert (deleted u ids db = mkOutcome db [] (redirect "athlete-list" None))
    as Hd.
  { unfold deleted.
    assert (filter (λ a, Athlete.user_id a ∈ ids) (base_queryset u db) = [])
      as ->; [|done].
    apply elem_of_nil_inv. intros a [Hid Ha]%list_elem_of_filter.
    apply (mapM_int_elem _ _ _ Hids) in Hid as (text & Ht & Hz).
    by apply (Hno a text). }
  rewrite Hd. split_and!.
  - by destruct (_ && _).
  - by destruct (_ && _).
  - intros ids' [= <-] Hr. by rewrite Hr, andb_false_r.
Qed.

Lemma filter_int_inr param (P : Z → Athlete.t → Prop) `{∀ z a, Decision (P z a)}
    (l l' : list Athlete.t) :
  filter_int int param P l = inr l' →
  l' `sublist_of` l ∧ ∀ a, a ∈ l' ↔ a ∈ l ∧ accepts int param P a.
Proof.
  unfold filter_int, accepts. destruct param as [s|].
  - destruct (decide (s = "")) as [->|Hne].
    + intros [= <-]. split; [done|]. intros a. split; [auto|tauto].
    + destruct (int s) as [z|] eqn:Hz; [|done]. intros [= <-]. split.
      * apply sublist_filter.
      * intros a. rewrite list_elem_of_filter. split.
        -- intros [HP Ha]. split; [done|]. right. by exists z.
        -- intros [Ha [?|(z' & [= <-] & HP)]]; done.
  - intros [= <-]. split; [done|]. intros a. tauto.
Qed.

Lemma filter_int_numeric param (P : Z → Athlete.t → Prop)
    `{∀ z a, Decision (P z a)} (l : list Athlete.t) :
  numeric_or_blank int in_range param →
  (∃ l', filter_int int param P l = inr l')
  ∧ from_option in_range true (given int param) = true.
Proof.
  unfold filter_int, numeric_or_blank, given. destruct param as [s|];
    [|split; [by eexists|done]].
  destruct (decide (s = "")) as [->|Hne]; [split; [by eexists|done]|].
  intros [?|(z & -> & Hz)]; [done|]. split; [by eexists|done].
Qed.

Lemma forallb_omap_given (params : list (option string)) :
  Forall (λ param, from_option in_range true (given int param) = true) params →
  forallb in_range (omap (given int) params) = true.
Proof.
  induction 1 as [|param params Hp _ IH]; [done|]. simpl.
  destruct (given int param) as [z|]; simpl in *; [|done]. by rewrite Hp.
Qed.

(** Step 3 of [athlete_list]: the filters of the GET parameters. *)
Definition filtered (u : CustomUser.t) (db : DB) (q : gmap string (list string))
  : Exception + list Athlete.t :=
  let step l (f : list Athlete.t → Exception + list Athlete.t) :=
    match l with inr l => f l | inl e => inl e end in
  let l0 := select_related db (base_queryset u db) in
  let l1 := filter_int int (get "sport" q) in_sport l0 in
  let l2 := step l1 (filter_int int (get "campus" q) in_campus) in
  let l3 := step l2 (filter_int int (get "coach" q) has_coach) in
  step l3 (λ l,
    match get "gender" q with
    | Some g => if decide (g = "") then inr l
                else inr (filter (has_gender db g) l)
    | None => inr l
    end).

Lemma athlete_list_not_post request u db :
  user request = Some u → method request ≠ POST →
  athlete_list int in_range name_le request db
  = match filtered u db (GET_data request) with
    | inr l =>
        if negb (is_none (base_query u db))
           && negb (forallb in_range
                      (omap (given int)
                         [get "sport" (GET_data request);
                          get "campus" (GET_data request);
                          get "coach" (GET_data request)]))
        then mkOutcome db [] (ServerError OverflowError)
        else mkOutcome db []
               (render_list "athletes/athlete_list.html"
                  (order_by_first_name name_le db l))
    | inl e => mkOutcome db [] (ServerError e)
    end.
Proof.
  intros Hu Hm. unfold athlete_list. rewrite Hu. by destruct (method request).
Qed.

Lemma filtered_numeric u db q :
  numeric_or_blank int in_range (get "sport" q) →
  numeric_or_blank int in_range (get "campus" q) →
  numeric_or_blank int in_range (get "coach" q) →
  (∃ l, filtered u db q = inr l)
  ∧ forallb in_range
      (omap (given int) [get "sport" q; get "campus" q; get "coach" q]) = true.
Proof.
  intros N1 N2 N3. unfold filtered.
  destruct (filter_int_numeric (get "sport" q) in_sport
              (select_related db (base_queryset u db)) N1) as [[l1 E1] R1].
  destruct (filter_int_numeric (get "campus" q) in_campus l1 N2) as [[l2 E2] R2].
  destruct (filter_int_numeric (get "coach" q) has_coach l2 N3) as [[l3 E3] R3].
  split.
  - cbv zeta. rewrite E1, E2, E3.
    destruct (get "gender" q) as [g|]; [destruct (decide (g = ""))|]; by eexists.
  - apply forallb_omap_given. by repeat constructor.
Qed.

(** The athletes that Step 3 keeps. *)
Lemma athlete_list_filters u db (q : gmap string (list string)) l4 :
  filtered u db q = inr l4 →
  l4 `sublist_of` athletes db
  ∧ ∀ a, a ∈ l4 ↔ visible u db a
                   ∧ is_Some (athlete_user_row db a)
                   ∧ accepts int (get "sport" q) in_sport a
                   ∧ accepts int (get "campus" q) in_campus a
                   ∧ accepts int (get "coach" q) has_coach a
                   ∧ accepts_gender db (get "gender" q) a.
Proof.
  assert (base_queryset u db `sublist_of` athletes db) as Hbase.
  { unfold base_queryset. destruct (base_query u db); simpl;
      [apply sublist_nil_l|done|apply sublist_filter]. }
  assert (select_related db (base_queryset u db) `sublist_of` athletes db) as S0.
  { etrans; [apply sublist_filter|done]. }
  assert (∀ a, a ∈ select_related db (base_queryset u db)
               ↔ visible u db a ∧ is_Some (athlete_user_row db a)) as M0.
  { intros a. unfold select_related.
    rewrite list_elem_of_filter, base_queryset_visible. tauto. }
  unfold filtered. cbv zeta.
  destruct (filter_int int (get "sport" q) in_sport _) as [e|l1] eqn:E1; [done|].
  destruct (filter_int int (get "campus" q) in_campus l1) as [e|l2] eqn:E2; [done|].
  destruct (filter_int int (get "coach" q) has_coach l2) as [e|l3] eqn:E3; [done|].
  apply filter_int_inr in E1 as [S1 M1]. apply filter_int_inr in E2 as [S2 M2].
  apply filter_int_inr in E3 as [S3 M3].
  assert (l3 `sublist_of` athletes db) as S by (by repeat (etrans; [eassumption|])).
  assert (∀ a, a ∈ l3 ↔ visible u db a ∧ is_Some (athlete_user_row db a)
                         ∧ accepts int (get "sport" q) in_sport a
                         ∧ accepts int (get "campus" q) in_campus a
                         ∧ accepts int (get "coach" q) has_coach a) as M.
  { intros a. rewrite M3, M2, M1, M0. tauto. }
  unfold accepts_gender. destruct (get "gender" q) as [g|].
  - destruct (decide (g = "")) as [->|Hg]; intros [= <-].
    + split; [done|]. intros a. rewrite M. tauto.
    + split; [by etrans; [apply sublist_filter|]|]. intros a.
      rewrite list_elem_of_filter, M. split; [tauto|].
      intros (? & ? & ? & ? & ? & [?|?]); tauto.
  - intros [= <-]. split; [done|]. intros a. rewrite M. tauto.
Qed.

(** X11. A request other than POST leaves the database as it is and queues
    no message.  When its sport, campus and coach parameters are absent,
    empty or numbers that the database accepts, it renders the list.  The
    athletes listed are exactly the athletes the requester may see whose
    user is in the table and that pass every parameter given; each row of
    the table is listed as often as it is there, and the list is sorted by
    the first name of the user when the order of the database is total. *)
Theorem athlete_list_get request u db :
  user request = Some u → method request ≠ POST →
  let q := GET_data request in
  let out := athlete_list int in_range name_le request db in
  db_after out = db ∧ messages out = []
  ∧ (numeric_or_blank int in_range (get "sport" q) →
     numeric_or_blank int in_range (get "campus" q) →
     numeric_or_blank int in_range (get "coach" q) →
     ∃ l, response out = render_list "athletes/athlete_list.html" l)
  ∧ (∀ l, response out = render_list "athletes/athlete_list.html" l →
       (∃ l0, l0 `sublist_of` athletes db ∧ l ≡ₚ l0)
       ∧ (∀ a, a ∈ l ↔ visible u db a
                       ∧ is_Some (athlete_user_row db a)
                       ∧ accepts int (get "sport" q) in_sport a
                       ∧ accepts int (get "campus" q) in_campus a
                       ∧ accepts int (get "coach" q) has_coach a
                       ∧ accepts_gender db (get "gender" q) a)
       ∧ ((∀ x y, name_le x y = true ∨ name_le y x = true) →
          Sorted (by_first_name name_le db) l)).
Proof.
  intros Hu Hm q out. subst out.
  rewrite (athlete_list_not_post request u db Hu Hm). fold q.
  split_and!.
  - destruct (filtered u db q); [done|]. by destruct (_ && _).
  - destruct (filtered u db q); [done|]. by destruct (_ && _).
  - intros N1 N2 N3.
    destruct (filtered_numeric u db q N1 N2 N3) as [[l ->] ->].
    rewrite andb_false_r. by eexists.
  - intros l Hresp.
    destruct (filtered u db q) as [e|l4] eqn:Hf; [done|].
    destruct (_ && _); [done|]. injection Hresp as <-.
    destruct (athlete_list_filters u db q l4 Hf) as [Hsub Hmem].
    split_and!.
    + exists l4. split; [done|]. apply merge_sort_Permutation.
    + intros a. rewrite <- Hmem. unfold order_by_first_name.
      by rewrite merge_sort_Permutation.
    + intros Htotal.
      assert (Total (by_first_name name_le db)) as HT.
      { intros a b. apply Htotal. }
      apply (Sorted_merge_sort _).
Qed.

End roster_further.

(** ** Further properties of [GameReportForm] *)

Lemma add_stat_fields_dom stats (fs : gmap string Field) :
  dom (add_stat_fields stats fs)
  = dom fs ∪ list_to_set (Statistic.short_name <$> stats).
Proof.
  revert fs. induction stats as [|st stats IH]; intros fs.
  - by rewrite fmap_nil, list_to_set_nil, (right_id_L ∅ (∪)).
  - rewrite fmap_cons, list_to_set_cons. unfold add_stat_fields in *.
    cbn [foldl]. rewrite IH, dom_insert_L, (assoc_L (∪)).
    by rewrite (comm_L (∪) (dom fs)).
Qed.

Lemma size_list_to_set_le (l : list string) :
  (size (list_to_set l : gset string) ≤ length l)%nat.
Proof.
  induction l as [|x l IH].
  - by rewrite list_to_set_nil, size_empty.
  - rewrite list_to_set_cons, size_union_alt, size_singleton.
    assert (size (list_to_set l ∖ {[x]} : gset string)
            ≤ size (list_to_set l : gset string))%nat.
    { apply subseteq_size. intros z Hz. by apply elem_of_difference in Hz as [? _]. }
    simpl. lia.
Qed.

(** X12. [GameReportForm] has a field under a key iff a statistic of the
    sport has the key as short name; the field is an optional text field
    labelled with the name of the last such statistic of the table (a later
    statistic with the same short name replaces the field of an earlier
    one).  Without sport the form has no field. *)
Theorem game_report_form_field sp db k :
  GameReportForm None db = ∅
  ∧ GameReportForm (Some sp) db !! k
    = stat_field <$> last (filter (λ st, Statistic.short_name st = k)
                             (sport_specific_stats sp db))
  ∧ (is_Some (GameReportForm (Some sp) db !! k)
     ↔ ∃ st, st ∈ statistics db ∧ Statistic.sport st = Some sp
             ∧ Statistic.short_name st = k)
  ∧ (∀ f, GameReportForm (Some sp) db !! k = Some f →
          required f = false ∧ field_type f = CharField).
Proof.
  assert (GameReportForm (Some sp) db !! k
          = stat_field <$> last (filter (λ st, Statistic.short_name st = k)
                                   (sport_specific_stats sp db))) as Hl.
  { unfold GameReportForm. rewrite add_stat_fields_lookup.
    destruct (last _); [done|]. by rewrite lookup_empty. }
  split_and!; [done|exact Hl| |].
  - rewrite Hl. split.
    + intros [f Hf]. destruct (last _) as [st|] eqn:E; [|done].
      apply last_filter_elem in E as [Hk Hin].
      apply list_elem_of_filter in Hin as [Hsp Hin]. by exists st.
    + intros (st & Hin & Hsp & Hk).
      destruct (last_filter_is_Some (λ st, Statistic.short_name st = k)
                  (sport_specific_stats sp db) st) as [st' ->];
        [by apply list_elem_of_filter|done|by eexists].
  - intros f. rewrite Hl. destruct (last _); [|done]. by intros [= <-].
Qed.

(** X13. [GameReportForm] has at most as many fields as the sport has
    statistics, and exactly as many when their short names are distinct. *)
Theorem game_report_form_size sp db :
  (size (GameReportForm (Some sp) db) ≤ length (sport_specific_stats sp db))%nat
  ∧ (NoDup (Statistic.short_name <$> sport_specific_stats sp db) →
     size (GameReportForm (Some sp) db) = length (sport_specific_stats sp db)).
Proof.
  unfold GameReportForm. rewrite <- size_dom, add_stat_fields_dom.
  rewrite dom_empty_L, (left_id_L ∅ (∪)). split.
  - etrans; [apply size_list_to_set_le|]. by rewrite length_fmap.
  - intros Hnd. by rewrite size_list_to_set, length_fmap.
Qed.

End manage_stats.

(** ** Bulk enrolment *)

Section bulk_add.

Variable lower : string → string.
Variable email_taken : string → bool.

Lemma validation_snoc formset form :
  validation lower email_taken (formset ++ [form])
  = validation_step lower email_taken (validation lower email_taken formset) form.
Proof. unfold validation. by rewrite foldl_snoc. Qed.

(** What pass 1 keeps of a formset. *)
Record validated (formset : list Entry.t) (st : Validation) : Prop := {
  validated_sublist : new_athletes_info st `sublist_of` formset;
  validated_eligible :
    ∀ d, d ∈ new_athletes_info st →
         Entry.has_changed d = true
         ∧ ∃ email, Entry.email d = Some email ∧ email ≠ ""
                    ∧ email_taken email = false;
  validated_batch :
    ∀ e, e ∈ emails_in_this_batch st
         ↔ ∃ d, d ∈ new_athletes_info st ∧ lowered lower d = Some e;
  validated_NoDup : NoDup (lowered lower <$> new_athletes_info st);
  validated_count :
    (length (new_athletes_info st) + length (warnings st)
     = length (filter eligible formset))%nat;
  validated_covers :
    ∀ d email, d ∈ formset → Entry.has_changed d = true →
               Entry.email d = Some email → email ≠ "" →
               email_taken email = false →
               lower email ∈ emails_in_this_batch st
}.

Lemma validation_validated formset :
  validated formset (validation lower email_taken formset).
Proof.
  induction formset as [|form formset IH] using rev_ind.
  - split; simpl; try done.
    + intros d Hd. by apply elem_of_nil in Hd.
    + intros e. split; [by intros ?%elem_of_empty|].
      intros (d & Hd & _). by apply elem_of_nil in Hd.
    + constructor.
    + intros d email Hd. by apply elem_of_nil in Hd.
  - rewrite validation_snoc. destruct IH as [Hsub Hel Hbatch Hnd Hcount Hcov].
    set (st := validation lower email_taken formset) in *.
    assert (∀ d email, d ∈ formset ++ [form] → d ≠ form →
              Entry.has_changed d = true → Entry.email d = Some email →
              email ≠ "" → email_taken email = false →
              lower email ∈ emails_in_this_batch st) as Hcov'.
    { intros d email [Hd|Hd%list_elem_of_singleton]%elem_of_app Hne; [|done].
      by apply Hcov. }
    unfold validation_step.
    destruct (Entry.has_changed form) eqn:Hch.
    2:{ split; try done.
        - by apply sublist_inserts_r.
        - rewrite filter_app, filter_cons_False, filter_nil, app_nil_r; [done|].
          intros [? _]. congruence.
        - intros d e Hd Hc He Hn Htk. destruct (decide (d = form)) as [->|Hne];
            [congruence|]. by apply (Hcov' d e). }
    destruct (Entry.email form) as [email|] eqn:Hem.
    2:{ split; try done.
        - by apply sublist_inserts_r.
        - rewrite filter_app, filter_cons_False, filter_nil, app_nil_r; [done|].
          intros [_ (e & ? & _)]. congruence.
        - intros d e Hd Hc He Hn Htk. destruct (decide (d = form)) as [->|Hne];
            [congruence|]. by apply (Hcov' d e). }
    destruct (decide (email = "")) as [->|Hblank].
    { split; try done.
      - by apply sublist_inserts_r.
      - rewrite filter_app, filter_cons_False, filter_nil, app_nil_r; [done|].
        intros [_ (e & ? & ?)]. congruence.
      - intros d e Hd Hc He Hn Htk. destruct (decide (d = form)) as [->|Hne];
          [congruence|]. by apply (Hcov' d e). }
    assert (eligible form) as Helig.
    { split; [done|]. by exists email. }
    destruct (email_taken email) eqn:Htaken; simpl.
    { split; simpl; try done.
      - by apply sublist_inserts_r.
      - rewrite filter_app, filter_cons_True, filter_nil by done.
        rewrite !length_app. simpl. lia.
      - intros d e Hd Hc He Hn Htk. destruct (decide (d = form)) as [->|Hne];
          [congruence|]. by apply (Hcov' d e). }
    destruct (bool_decide (lower email ∈ emails_in_this_batch st)) eqn:Hdup.
    { apply bool_decide_eq_true in Hdup. split; simpl; try done.
      - by apply sublist_inserts_r.
      - rewrite filter_app, filter_cons_True, filter_nil by done.
        rewrite !length_app. simpl. lia.
      - intros d e Hd Hc He Hn Htk. destruct (decide (d = form)) as [->|Hne].
        + by assert (e = email) as -> by congruence.
        + by apply (Hcov' d e). }
    apply bool_decide_eq_false in Hdup. split; simpl.
    + by apply sublist_app.
    + intros d [Hd| ->%list_elem_of_singleton]%elem_of_app; [by apply Hel|].
      split; [done|]. by exists email.
    + intros e. rewrite elem_of_union, elem_of_singleton, Hbatch. split.
      * intros [->|(d & Hd & Hl)].
        -- exists form. split; [apply elem_of_app; right; apply list_elem_of_here|].
           unfold lowered. by rewrite Hem.
        -- exists d. split; [|done]. apply elem_of_app. by left.
      * intros (d & [Hd| ->%list_elem_of_singleton]%elem_of_app & Hl).
        -- right. by exists d.
        -- left. unfold lowered in Hl. rewrite Hem in Hl. by injection Hl.
    + rewrite fmap_app. apply NoDup_app. split_and!; [done| |apply NoDup_singleton].
      intros k Hk Hk'. apply list_elem_of_singleton in Hk'. subst k.
      apply list_elem_of_fmap in Hk as (d & Hl & Hd).
      apply Hdup, Hbatch. exists d. split; [done|].
      rewrite <- Hl. unfold lowered. by rewrite Hem.
    + rewrite filter_app, filter_cons_True, filter_nil by done.
      rewrite !length_app. simpl. lia.
    + intros d e Hd Hc He Hn Htk. apply elem_of_union.
      destruct (decide (d = form)) as [->|Hne].
      * left. apply elem_of_singleton. congruence.
      * right. by apply (Hcov' d e).
Qed.

(** X14. Pass 1 of the bulk enrolment keeps forms of the formset in their
    order; every form kept was changed and has a non-empty email that no
    user has; no two forms kept have the same email up to case; every
    changed form with a non-empty email is either kept or warned about;
    and a changed form with a free email is represented in the batch by a
    form kept with the same lowered email. *)
Theorem validation_keeps_distinct_free_emails formset :
  let st := validation lower email_taken formset in
  new_athletes_info st `sublist_of` formset
  ∧ (∀ d, d ∈ new_athletes_info st →
          Entry.has_changed d = true
          ∧ ∃ email, Entry.email d = Some email ∧ email ≠ ""
                     ∧ email_taken email = false)
  ∧ NoDup (lowered lower <$> new_athletes_info st)
  ∧ (length (new_athletes_info st) + length (warnings st)
     = length (filter eligible formset))%nat
  ∧ (∀ d email, d ∈ formset → Entry.has_changed d = true →
        Entry.email d = Some email → email ≠ "" → email_taken email = false →
        ∃ d', d' ∈ new_athletes_info st ∧ lowered lower d' = Some (lower email)).
Proof.
  destruct (validation_validated formset) as [Hsub Hel Hbatch Hnd Hcount Hcov].
  simpl. split_and!; try done.
  intros d email Hd Hc He Hne Ht. by apply Hbatch, (Hcov d).
Qed.

End bulk_add.

(** *** The user names *)

Lemma append_inj_r (base s1 s2 : string) : base +:+ s1 = base +:+ s2 → s1 = s2.
Proof. induction base as [|c base IH]; simpl; [done|]. intros [= H]. by apply IH. Qed.

Lemma append_empty_r (s : string) : s +:+ "" = s.
Proof.
  induction s as [|c s IH]; [done|].
  change (String c (s +:+ "") = String c s). by rewrite IH.
Qed.

Lemma pretty_N_go_length (x : N) (s : string) :
  (String.length s ≤ String.length (pretty_N_go x s))%nat.
Proof.
  revert s. induction (N.lt_wf_0 x) as [x _ IH]; intros s.
  assert (x = 0 ∨ 0 < x)%N as [->|Hx] by lia.
  - by rewrite pretty_N_go_0.
  - rewrite pretty_N_go_step by done.
    etrans; [|apply IH; by apply N.div_lt]. simpl. lia.
Qed.

Lemma pretty_nat_nonempty (n : nat) : pretty n ≠ "".
Proof.
  unfold pretty, pretty_nat, pretty, pretty_N.
  destruct (decide (N.of_nat n = 0%N)) as [_|Hn]; [done|].
  rewrite pretty_N_go_step by lia. intros H.
  pose proof (pretty_N_go_length (N.of_nat n `div` 10)
                (String (pretty_N_char (N.of_nat n `mod` 10)) "")) as Hl.
  rewrite H in Hl. simpl in Hl. lia.
Qed.

Lemma candidate_inj base : Inj (=) (=) (candidate base).
Proof.
  intros [|n] [|m] H; simpl in H.
  - done.
  - exfalso. rewrite <- (append_empty_r base) in H at 1.
    apply append_inj_r in H. by apply (pretty_nat_nonempty (S m)).
  - exfalso. rewrite <- (append_empty_r base) in H at 2.
    apply append_inj_r in H. by apply (pretty_nat_nonempty (S n)).
  - apply append_inj_r in H. by apply (inj pretty) in H.
Qed.

(** The candidates are distinct, so that at most [length usernames] of them
    are taken. *)
Lemma candidates_taken (usernames : list string) base j :
  (∀ i, (i < j)%nat → candidate base i ∈ usernames) → (j ≤ length usernames)%nat.
Proof.
  intros Htaken.
  assert (candidate base <$> seq 0 j ⊆+ usernames) as Hsub.
  { apply NoDup_submseteq.
    - apply NoDup_fmap_2; [apply candidate_inj|apply NoDup_seq].
    - intros x (i & -> & Hi)%list_elem_of_fmap. apply Htaken.
      apply elem_of_seq in Hi. lia. }
  apply submseteq_length in Hsub. by rewrite length_fmap, length_seq in Hsub.
Qed.

Lemma next_username_spec (usernames : list string) base fuel j :
  (fuel + j = length usernames)%nat →
  (∀ i, (i < j)%nat → candidate base i ∈ usernames) →
  ∃ n, next_username fuel usernames base (S j) (candidate base j)
       = Some (candidate base n)
       ∧ (j ≤ n)%nat ∧ (candidate base n ∉ usernames)
       ∧ ∀ i, (i < n)%nat → candidate base i ∈ usernames.
Proof.
  revert j. induction fuel as [|fuel IH]; intros j Hfuel Htaken.
  - simpl. destruct (decide (candidate base j ∈ usernames)) as [Hin|Hout].
    + exfalso. assert (S j ≤ length usernames)%nat; [|lia].
      apply (candidates_taken usernames base). intros i Hi.
      destruct (decide (i = j)) as [->|?]; [done|]. apply Htaken. lia.
    + by exists j.
  - simpl. destruct (decide (candidate base j ∈ usernames)) as [Hin|Hout].
    + destruct (IH (S j)) as (n & Hn & Hle & Hfree & Hall); [lia| |].
      * intros i Hi. destruct (decide (i = j)) as [->|?]; [done|].
        apply Htaken. lia.
      * exists n. split_and!; [exact Hn|lia|done|done].
    + by exists j.
Qed.

(** X15. The loop that looks for a user name ends within as many rounds as
    there are user names, with a name that no user has: the base name when
    it is free, otherwise the base name followed by the least number from 1
    that makes it free. *)
Theorem unique_username_free (usernames : list string) (base : string) :
  ∃ n, unique_username usernames base = Some (candidate base n)
       ∧ (candidate base n ∉ usernames)
       ∧ (∀ i, (i < n)%nat → candidate base i ∈ usernames)
       ∧ (base ∉ usernames → n = 0%nat).
Proof.
  destruct (next_username_spec usernames base (length usernames) 0)
    as (n & Hn & _ & Hfree & Hall); [lia|intros i Hi; lia|].
  exists n. split_and!; [exact Hn|done|done|].
  intros Hbase. destruct n as [|n]; [done|]. exfalso. apply Hbase.
  apply (Hall 0%nat). lia.
Qed.

(** X16. The users that pass 2 creates for a batch get pairwise distinct
    user names, none of which was in use, one for each entry of the batch:
    two entries with the same first and last name do not collide. *)
Theorem created_usernames_distinct (lower : string → string)
    (usernames : list string) (batch : list Entry.t) :
  ∃ names, created_usernames lower usernames batch = Some names
           ∧ length names = length batch
           ∧ NoDup names
           ∧ ∀ name, name ∈ names → name ∉ usernames.
Proof.
  revert usernames. induction batch as [|data batch IH]; intros usernames; simpl.
  - exists []. split_and!; [done|done|constructor|].
    intros name Hn. by apply elem_of_nil in Hn.
  - unfold unique_username.
    destruct (next_username_spec usernames (base_username lower data)
                (length usernames) 0) as (n & Hn & _ & Hfree & _);
      [lia|intros i Hi; lia|].
    change (candidate (base_username lower data) 0)
      with (base_username lower data) in Hn. rewrite Hn. simpl.
    destruct (IH (usernames ++ [candidate (base_username lower data) n]))
      as (names & -> & Hlen & Hnd & Hnot). simpl.
    eexists. split_and!; [done|by rewrite <- Hlen| |].
    + constructor; [|done]. intros Hin. apply (Hnot _ Hin).
      apply elem_of_app. right. apply list_elem_of_here.
    + intros name [->|Hin]%elem_of_cons; [done|].
      intros Hu. apply (Hnot _ Hin). apply elem_of_app. by left.
Qed.

(** ** The properties on the sample roster *)

Lemma sample_statistics st :
  st ∈ statistics sample_db → st = goals ∨ st = aces ∨ st = points.
Proof.
  intros H. apply list_elem_of_In in H. simpl in H.
  destruct H as [<-|[<-|[<-|[]]]]; auto.
Defined.

(** The scenario of the specification: the coach enters points and goals
    for 2024, then posts the points alone; the second post updates the
    record of the points and leaves the goals. *)
Example coach_enters_then_corrects :
  let first := manage_athlete_stats sample_universal 2026
                 (post coach_user first_post) 7 blank_db in
  let second := manage_athlete_stats sample_universal 2026
                  (post coach_user points_post) 7 (db_after first) in
  performance_stats (db_after first)
  = [PerformanceStat.mk 1 7 3 2024 "10"; PerformanceStat.mk 2 7 1 2024 "3"]
  ∧ performance_stats (db_after second)
    = [PerformanceStat.mk 1 7 3 2024 "12"; PerformanceStat.mk 2 7 1 2024 "3"]
  ∧ messages second
    = [success "Statistics for 2024 have been updated successfully."]
  ∧ response second = redirect "athlete-detail" (Some 7).
Proof. by vm_compute. Qed.

Lemma sample_unique_records : unique_records sample_db.
Proof.
  intros a s y. simpl. rewrite filter_cons, filter_nil.
  destruct (decide _); simpl; lia.
Defined.

(** C1. With two records of athlete 7 for "Goals" in 2024 in the table, the
    coach's submission of a value for "Points" and one for "Goals" ends
    with the exception of the second write, and the record for "Points"
    written before it stays in the database: the writes of the submission
    are not one all-or-nothing unit. *)
Theorem upsert_not_atomic :
  let out := manage_athlete_stats sample_universal 2026
               (post coach_user sample_post) 7 doubled_db in
  response out = ServerError MultipleObjectsReturned
  ∧ performance_stats (db_after out)
    = performance_stats doubled_db ++ [PerformanceStat.mk 3 7 3 2024 "12"]
  ∧ db_after out ≠ doubled_db.
Proof.
  split_and!; [by vm_compute|by vm_compute|].
  intros H. apply (f_equal (λ db, length (performance_stats db))) in H.
  vm_compute in H. discriminate.
Qed.

Lemma upsert_keeps_unique_records_witness :
  unique_records sample_db
  ∧ (∃ db', update_or_create 7 1 2024 "5" sample_db = (db', inr tt)
            ∧ length (filter (is_record 7 1 2024) (performance_stats db')) = 1%nat
            ∧ unique_records db')
  ∧ unique_records
      (db_after (manage_athlete_stats sample_universal 2026
                   (post coach_user sample_post) 7 sample_db)).
Proof.
  split; [exact sample_unique_records|].
  exact (upsert_keeps_unique_records sample_universal 2026
           (post coach_user sample_post) 7 7 1 2024 "5" sample_db
           sample_unique_records).
Defined.

Lemma universal_short_name_kept_witness :
  filter (is_universal "Points") (statistics sample_db) = [points]
  ∧ get_or_create "Points" "pts" sample_db = (sample_db, inr points)
  ∧ statistics sample_db
      `prefix_of` statistics
        (db_after (manage_athlete_stats sample_universal 2026
                     (post coach_user sample_post) 7 sample_db)).
Proof.
  pose proof (universal_short_name_kept sample_universal 2026
                (post coach_user sample_post) 7 "Points" "pts" sample_db)
    as (Hfound & _ & Hprefix).
  split_and!; [reflexivity|apply Hfound; reflexivity|exact Hprefix].
Defined.

Lemma admin_or_own_coach_witness :
  user (post tennis_user sample_post) = Some tennis_user
  ∧ get_athlete 7 sample_db = Some athlete7
  ∧ is_their_coach tennis_user athlete7 sample_db || is_admin tennis_user = false
  ∧ is_Some (Athlete.team athlete7)
  ∧ manage_athlete_stats sample_universal 2026 (post tennis_user sample_post)
      7 sample_db
    = unauthorized 7 sample_db.
Proof.
  pose proof (admin_or_own_coach sample_universal 2026
                (post tennis_user sample_post) 7 tennis_user athlete7 sample_db)
    as (_ & _ & Hiff).
  assert (is_Some (Athlete.team athlete7)) as Ht by (by exists soccer).
  split_and!; [reflexivity|reflexivity|reflexivity|exact Ht|].
  apply (Hiff eq_refl eq_refl Ht). reflexivity.
Defined.

Lemma no_team_precedence_witness :
  get_athlete 9 sample_db = Some athlete9
  ∧ Athlete.team athlete9 = None
  ∧ manage_athlete_stats sample_universal 2026 (post admin_user sample_post)
      9 sample_db
    = no_team 9 sample_db.
Proof.
  split_and!; [reflexivity|reflexivity|].
  apply (proj1 (no_team_precedence sample_universal 2026
                  (post admin_user sample_post) 9 athlete9 sample_db
                  eq_refl eq_refl) admin_user eq_refl).
Defined.

Lemma sport_isolation_witness :
  11 ≠ 10 ∧ Statistic.sport aces = Some 11
  ∧ (aces ∉ sport_specific_stats 10 sample_db)
  ∧ get_athlete 7 sample_db = Some athlete7
  ∧ Athlete.team athlete7 = Some soccer ∧ Team.sport soccer = 10
  ∧ aces ∈ statistics sample_db
  ∧ NoDup (Statistic.pk <$> statistics sample_db)
  ∧ ∀ r, r ∈ performance_stats
             (db_after (manage_athlete_stats sample_universal 2026
                          (post coach_user sample_post) 7 sample_db)) →
         PerformanceStat.statistic r = Statistic.pk aces →
         r ∈ performance_stats sample_db.
Proof.
  assert (11 ≠ 10) as Hne by lia.
  assert (aces ∈ statistics sample_db) as Hin.
  { apply list_elem_of_In. simpl. auto. }
  assert (NoDup (Statistic.pk <$> statistics sample_db)) as Hnd.
  { apply NoDup_ListNoDup. simpl.
    repeat constructor; simpl; intros H; decompose [or] H; try lia. }
  pose proof (sport_isolation sample_universal 2026
                (post coach_user sample_post) 7 athlete7 soccer 11 10 aces
                sample_db Hne eq_refl) as (Hnot & _ & _ & Hrec).
  split_and!; [exact Hne|reflexivity|exact Hnot|reflexivity|reflexivity
              |reflexivity|exact Hin|exact Hnd|].
  exact (Hrec eq_refl eq_refl eq_refl Hin Hnd).
Defined.

Lemma selective_write_witness :
  get_athlete 7 sample_db = Some athlete7
  ∧ Athlete.team athlete7 = Some soccer
  ∧ 1 ∈ Statistic.pk <$> statistics sample_db
  ∧ ¬ addressed sample_universal
        (cleaned_data (ScorecardForm sample_universal (Some points_post) ∅
                         (Team.sport soccer) sample_db))
        (Team.sport soccer) sample_db 1
  ∧ ∀ a' y',
      filter (is_record a' 1 y')
        (performance_stats
           (db_after (manage_athlete_stats sample_universal 2026
                        (post coach_user points_post) 7 sample_db)))
      = filter (is_record a' 1 y') (performance_stats sample_db).
Proof.
  assert (1 ∈ Statistic.pk <$> statistics sample_db) as Hin
    by apply list_elem_of_here.
  assert (¬ addressed sample_universal
              (cleaned_data (ScorecardForm sample_universal (Some points_post) ∅
                               (Team.sport soccer) sample_db))
              (Team.sport soccer) sample_db 1) as Hno.
  { intros [(kl & st & _ & _ & Hst & [_ Huni] & Hpk)
           |(st & Hst & _ & (value & Hv & Ht) & Hpk)];
      apply sample_statistics in Hst as [->|[->| ->]];
      [discriminate Huni|discriminate Hpk|discriminate Hpk
      | |discriminate Hpk|discriminate Hpk].
    vm_compute in Hv. injection Hv as <-. discriminate Ht. }
  split_and!; [reflexivity|reflexivity|exact Hin|exact Hno|].
  pose proof (selective_write sample_universal 2026 (post coach_user points_post)
                7 athlete7 soccer 0 ∅ 1 sample_db) as (_ & _ & _ & Hview & _).
  exact (Hview eq_refl eq_refl Hin Hno).
Defined.

Lemma bulk_delete_within_visible_witness :
  athlete_user ∈ users sample_db
  ∧ (athlete_user
       ∉ users (db_after (athlete_list int_of_string int64 String.leb
                            (post coach_user delete_post) sample_db)))
  ∧ ∃ u a, user (post coach_user delete_post) = Some u
           ∧ method (post coach_user delete_post) = POST
           ∧ a ∈ base_queryset u sample_db ∧ visible u sample_db a
           ∧ Athlete.user_id a = CustomUser.pk athlete_user.
Proof.
  assert (athlete_user ∈ users sample_db) as Hin.
  { apply list_elem_of_In. simpl. auto. }
  assert (athlete_user
            ∉ users (db_after (athlete_list int_of_string int64 String.leb
                                 (post coach_user delete_post) sample_db)))
    as Hout.
  { intros H. apply list_elem_of_In in H. vm_compute in H.
    destruct H as [H|[H|[H|[H|[]]]]]; discriminate H. }
  split_and!; [exact Hin|exact Hout|].
  exact (bulk_delete_within_visible int_of_string int64 String.leb
           (post coach_user delete_post) sample_db athlete_user Hin Hout).
Defined.

Lemma scorecard_form_fields_witness :
  user (get_form coach_user) = Some coach_user
  ∧ get_athlete 7 sample_db = Some athlete7
  ∧ Athlete.team athlete7 = Some soccer
  ∧ is_their_coach coach_user athlete7 sample_db || is_admin coach_user = true
  ∧ method (get_form coach_user) = GET
  ∧ (∀ st, st ∈ statistics sample_db → Statistic.short_name st ≠ "year")
  ∧ (∀ r, r ∈ performance_stats sample_db →
          is_Some (get_statistic (PerformanceStat.statistic r) sample_db))
  ∧ ∃ init,
      manage_athlete_stats sample_universal 2024 (get_form coach_user) 7 sample_db
      = mkOutcome sample_db []
          (render_form template
             (mkForm (ScorecardForm_fields sample_universal (Team.sport soccer)
                        sample_db) init None)
             athlete7)
      ∧ init !! "year" = Some (Int 2024).
Proof.
  assert (∀ st, st ∈ statistics sample_db → Statistic.short_name st ≠ "year")
    as Hname.
  { intros st [->|[->| ->]]%sample_statistics; discriminate. }
  assert (∀ r, r ∈ performance_stats sample_db →
               is_Some (get_statistic (PerformanceStat.statistic r) sample_db))
    as Hfk.
  { intros r H. apply list_elem_of_In in H. simpl in H.
    destruct H as [<-|[]]. by exists goals. }
  split_and!; [reflexivity|reflexivity|reflexivity|reflexivity|reflexivity
              |exact Hname|exact Hfk|].
  pose proof (scorecard_form_fields sample_universal 2024 (get_form coach_user)
                7 coach_user athlete7 soccer 10 sample_db)
    as (_ & _ & _ & _ & Hget).
  exact (Hget eq_refl eq_refl eq_refl eq_refl eq_refl Hname Hfk).
Defined.

(** ** The further properties on the sample roster *)

Lemma sample_unique_universal : unique_universal sample_db.
Proof.
  intros label. simpl. rewrite !filter_cons, filter_nil.
  destruct (decide (is_universal label goals)) as [[_ H]|_]; [discriminate H|].
  destruct (decide (is_universal label aces)) as [[_ H]|_]; [discriminate H|].
  destruct (decide (is_universal label points)); simpl; lia.
Defined.

Lemma sample_NoDup : NoDup (Statistic.pk <$> statistics sample_db).
Proof.
  apply NoDup_ListNoDup. simpl.
  repeat constructor; simpl; intros H; decompose [or] H; try lia.
Defined.

Lemma sample_statistics_exist : statistics_exist sample_db.
Proof.
  intros r H. apply list_elem_of_In in H. simpl in H.
  destruct H as [<-|[]]. by exists goals.
Defined.

Lemma upsert_finds_no_duplicates_witness :
  unique_records sample_db ∧ unique_universal sample_db
  ∧ (∀ db', upsert sample_universal athlete7 10 2024 sample_cleaned sample_db
            ≠ (db', inl MultipleObjectsReturned))
  ∧ unique_records
      (upsert sample_universal athlete7 10 2024 sample_cleaned sample_db).1
  ∧ unique_universal
      (upsert sample_universal athlete7 10 2024 sample_cleaned sample_db).1.
Proof.
  split_and!; [exact sample_unique_records|exact sample_unique_universal|..];
    apply (upsert_finds_no_duplicates sample_universal athlete7 10 2024
             sample_cleaned sample_db sample_unique_records
             sample_unique_universal).
Defined.

Lemma specific_value_stored_witness :
  NoDup (Statistic.pk <$> statistics sample_db)
  ∧ goals ∈ statistics sample_db ∧ Statistic.sport goals = Some 10
  ∧ sample_cleaned !! Statistic.short_name goals = Some (Str "5")
  ∧ truthy (Str "5") = true
  ∧ ∃ db', upsert sample_universal athlete7 10 2024 sample_cleaned sample_db
           = (db', inr tt)
      ∧ ∃ r, filter (is_record (Athlete.pk athlete7) (Statistic.pk goals) 2024)
               (performance_stats db') = [r]
             ∧ PerformanceStat.value r = to_text (Str "5").
Proof.
  assert (goals ∈ statistics sample_db) as Hin by apply list_elem_of_here.
  split_and!; [exact sample_NoDup|exact Hin|reflexivity|reflexivity|reflexivity|].
  eexists. split; [by vm_compute|].
  apply (specific_value_stored sample_universal athlete7 10 2024 sample_cleaned
           goals (Str "5") sample_db _ sample_NoDup Hin eq_refl eq_refl eq_refl).
  by vm_compute.
Defined.

Lemma universal_value_stored_witness :
  NoDup (Statistic.pk <$> statistics sample_db)
  ∧ ("pts", "Points") ∈ sample_universal
  ∧ (∀ key', (key', "Points") ∈ sample_universal → key' = "pts")
  ∧ sample_cleaned !! "pts" = Some (Str "12") ∧ truthy (Str "12") = true
  ∧ ∃ db', upsert sample_universal athlete7 10 2024 sample_cleaned sample_db
           = (db', inr tt)
      ∧ ∃ s r, filter (is_universal "Points") (statistics db') = [s]
          ∧ filter (is_record (Athlete.pk athlete7) (Statistic.pk s) 2024)
              (performance_stats db') = [r]
          ∧ PerformanceStat.value r = to_text (Str "12").
Proof.
  assert (("pts", "Points") ∈ sample_universal) as Hin by apply list_elem_of_here.
  assert (∀ key', (key', "Points") ∈ sample_universal → key' = "pts") as Hkey.
  { intros key' H. apply list_elem_of_In in H. simpl in H.
    destruct H as [H|[]]. by injection H. }
  split_and!; [exact sample_NoDup|exact Hin|exact Hkey|reflexivity|reflexivity|].
  eexists. split; [by vm_compute|].
  destruct (universal_value_stored sample_universal athlete7 10 2024
              sample_cleaned "pts" "Points" (Str "12") sample_db _
              sample_NoDup Hin Hkey eq_refl eq_refl ltac:(by vm_compute))
    as (s & r & Hs & Hr & Hv & _).
  by exists s, r.
Defined.

Lemma other_records_untouched_witness :
  8 ≠ 7
  ∧ ∀ s y',
      filter (is_record 8 s y')
        (performance_stats
           (db_after (manage_athlete_stats sample_universal 2026
                        (post coach_user sample_post) 7 sample_db)))
      = filter (is_record 8 s y') (performance_stats sample_db).
Proof.
  assert (8 ≠ 7) as Hne by lia. split; [exact Hne|]. intros s y'.
  exact (proj2 (other_records_untouched sample_universal 2026
                  (post coach_user sample_post) 7 athlete7 10 2024 sample_cleaned
                  sample_db) 8 s y' Hne).
Defined.

Lemma prefill_from_current_year_witness :
  user (get_form coach_user) = Some coach_user
  ∧ get_athlete 7 sample_db = Some athlete7
  ∧ Athlete.team athlete7 = Some soccer
  ∧ is_their_coach coach_user athlete7 sample_db || is_admin coach_user = true
  ∧ method (get_form coach_user) ≠ POST
  ∧ statistics_exist sample_db
  ∧ ∃ init,
      manage_athlete_stats sample_universal 2024 (get_form coach_user) 7 sample_db
      = mkOutcome sample_db []
          (render_form template
             (ScorecardForm sample_universal None init (Team.sport soccer)
                sample_db) athlete7)
      ∧ init !! "goals" = Some (Str "3").
Proof.
  assert (method (get_form coach_user) ≠ POST) as Hm by discriminate.
  split_and!; [reflexivity|reflexivity|reflexivity|reflexivity|exact Hm
              |exact sample_statistics_exist|].
  destruct (prefill_from_current_year sample_universal 2024 (get_form coach_user)
              7 coach_user athlete7 soccer sample_db eq_refl eq_refl eq_refl
              eq_refl Hm sample_statistics_exist) as (init & Hout & Hinit).
  exists init. split; [exact Hout|]. by rewrite Hinit.
Defined.

Lemma submitted_value_prefilled_witness :
  NoDup (Statistic.pk <$> statistics sample_db) ∧ statistics_exist sample_db
  ∧ goals ∈ statistics sample_db ∧ Statistic.sport goals = Some 10
  ∧ (∀ st', st' ∈ statistics sample_db →
            Statistic.short_name st' = Statistic.short_name goals → st' = goals)
  ∧ (∀ key label, (key, label) ∈ sample_universal →
                  key ≠ Statistic.short_name goals)
  ∧ sample_cleaned !! Statistic.short_name goals = Some (Str "5")
  ∧ truthy (Str "5") = true
  ∧ ∃ db', upsert sample_universal athlete7 10 2024 sample_cleaned sample_db
           = (db', inr tt)
      ∧ ∃ init, initial_data 2024 athlete7 db' = inr init
                ∧ init !! Statistic.short_name goals = Some (Str (to_text (Str "5"))).
Proof.
  assert (goals ∈ statistics sample_db) as Hin by apply list_elem_of_here.
  assert (∀ st', st' ∈ statistics sample_db →
            Statistic.short_name st' = Statistic.short_name goals → st' = goals)
    as Huniq.
  { intros st' [->|[->| ->]]%sample_statistics H; [done|discriminate H..]. }
  assert (∀ key label, (key, label) ∈ sample_universal →
                       key ≠ Statistic.short_name goals) as Hnokey.
  { intros key label H. apply list_elem_of_In in H. simpl in H.
    destruct H as [H|[]]. injection H as <- <-. discriminate. }
  split_and!; [exact sample_NoDup|exact sample_statistics_exist|exact Hin
              |reflexivity|exact Huniq|exact Hnokey|reflexivity|reflexivity|].
  eexists. split; [by vm_compute|].
  apply (submitted_value_prefilled sample_universal athlete7 10 2024
           sample_cleaned goals (Str "5") sample_db _ sample_NoDup
           sample_statistics_exist Hin eq_refl Huniq Hnokey eq_refl eq_refl).
  by vm_compute.
Defined.

Lemma upsert_raises_keeps_earlier_writes_witness :
  ∃ db', upsert sample_universal athlete7 10 2024 sample_cleaned doubled_db
         = (db', inl MultipleObjectsReturned)
    ∧ ∃ pre act post db0,
        actions sample_universal sample_cleaned
          (sport_specific_stats 10 doubled_db) = pre ++ act :: post
        ∧ for_each (run_action (Athlete.pk athlete7) 2024) pre doubled_db
          = (db0, inr tt)
        ∧ run_action (Athlete.pk athlete7) 2024 act db0
          = (db', inl MultipleObjectsReturned)
        ∧ performance_stats db' = performance_stats db0.
Proof.
  eexists. split; [by vm_compute|].
  apply (upsert_raises_keeps_earlier_writes sample_universal athlete7 10 2024
           sample_cleaned doubled_db). by vm_compute.
Defined.

Lemma bulk_delete_exact_witness :
  user (post coach_user spaced_post) = Some coach_user
  ∧ method (post coach_user spaced_post) = POST
  ∧ mapM int_of_string
      (getlist "athlete_ids" (POST_data (post coach_user spaced_post)))
    = Some [70; 71]
  ∧ forallb int64 [70; 71] = true
  ∧ (tennis_user
       ∈ users (db_after (athlete_list int_of_string int64 String.leb
                            (post coach_user spaced_post) sample_db))
     ↔ tennis_user ∈ users sample_db
       ∧ ¬ ∃ a text,
             a ∈ base_queryset coach_user sample_db
             ∧ Athlete.user_id a = CustomUser.pk tennis_user
             ∧ text ∈ getlist "athlete_ids"
                        (POST_data (post coach_user spaced_post))
             ∧ int_of_string text = Some (CustomUser.pk tennis_user)).
Proof.
  assert (mapM int_of_string
            (getlist "athlete_ids" (POST_data (post coach_user spaced_post)))
          = Some [70; 71]) as Hids by (by vm_compute).
  assert (forallb int64 [70; 71] = true) as Hr by (by vm_compute).
  split_and!; [reflexivity|reflexivity|exact Hids|exact Hr|].
  destruct (bulk_delete_exact int_of_string int64 String.leb
              (post coach_user spaced_post) coach_user sample_db tennis_user
              eq_refl eq_refl) as (Hexact & _ & _).
  exact (Hexact [70; 71] Hids Hr).
Defined.

Lemma bulk_delete_nothing_witness :
  user (post coach_user other_team_post) = Some coach_user
  ∧ method (post coach_user other_team_post) = POST
  ∧ (∀ a text,
       a ∈ base_queryset coach_user sample_db →
       text ∈ getlist "athlete_ids" (POST_data (post coach_user other_team_post)) →
       int_of_string text ≠ Some (Athlete.user_id a))
  ∧ mapM int_of_string
      (getlist "athlete_ids" (POST_data (post coach_user other_team_post)))
    = Some [71]
  ∧ forallb int64 [71] = true
  ∧ athlete_list int_of_string int64 String.leb
      (post coach_user other_team_post) sample_db
    = mkOutcome sample_db [] (redirect "athlete-list" None).
Proof.
  assert (∀ a text,
            a ∈ base_queryset coach_user sample_db →
            text ∈ getlist "athlete_ids"
                     (POST_data (post coach_user other_team_post)) →
            int_of_string text ≠ Some (Athlete.user_id a)) as Hno.
  { intros a text Ha Ht. apply list_elem_of_In in Ha. vm_compute in Ha.
    destruct Ha as [<-|[]]. apply list_elem_of_In in Ht. vm_compute in Ht.
    destruct Ht as [<-|[]]. vm_compute. intros H. discriminate H. }
  assert (mapM int_of_string
            (getlist "athlete_ids" (POST_data (post coach_user other_team_post)))
          = Some [71]) as Hids by (by vm_compute).
  assert (forallb int64 [71] = true) as Hr by (by vm_compute).
  split_and!; [reflexivity|reflexivity|exact Hno|exact Hids|exact Hr|].
  destruct (bulk_delete_nothing int_of_string int64 String.leb
              (post coach_user other_team_post) coach_user sample_db
              eq_refl eq_refl Hno) as (Hdb & Hmsg & Hresp).
  specialize (Hresp [71] Hids Hr).
  destruct (athlete_list int_of_string int64 String.leb
              (post coach_user other_team_post) sample_db) as [d m r].
  simpl in *. by subst.
Defined.

Lemma athlete_list_get_witness :
  user soccer_list = Some coach_user ∧ method soccer_list ≠ POST
  ∧ numeric_or_blank int_of_string int64 (get "sport" (GET_data soccer_list))
  ∧ numeric_or_blank int_of_string int64 (get "campus" (GET_data soccer_list))
  ∧ numeric_or_blank int_of_string int64 (get "coach" (GET_data soccer_list))
  ∧ (∀ x y, String.leb x y = true ∨ String.leb y x = true)
  ∧ db_after (athlete_list int_of_string int64 String.leb soccer_list sample_db)
    = sample_db
  ∧ messages (athlete_list int_of_string int64 String.leb soccer_list sample_db)
    = []
  ∧ ∃ l, response (athlete_list int_of_string int64 String.leb soccer_list
                     sample_db)
         = render_list "athletes/athlete_list.html" l
         ∧ Sorted (by_first_name String.leb sample_db) l.
Proof.
  assert (method soccer_list ≠ POST) as Hm by discriminate.
  assert (numeric_or_blank int_of_string int64
            (get "sport" (GET_data soccer_list))) as N1.
  { right. by exists 10. }
  assert (numeric_or_blank int_of_string int64
            (get "campus" (GET_data soccer_list))) as N2 by exact I.
  assert (numeric_or_blank int_of_string int64
            (get "coach" (GET_data soccer_list))) as N3 by exact I.
  destruct (athlete_list_get int_of_string int64 String.leb soccer_list
              coach_user sample_db eq_refl Hm)
    as (Hdb & Hmsg & Hrender & Hlist).
  destruct (Hrender N1 N2 N3) as [l Hl].
  destruct (Hlist l Hl) as (_ & _ & Hsorted).
  split_and!; [reflexivity|exact Hm|exact N1|exact N2|exact N3
              |exact String.leb_total|exact Hdb|exact Hmsg|].
  exists l. split; [exact Hl|exact (Hsorted String.leb_total)].
Defined.

(** The administrator's list of the whole roster: Ann (athlete 8), Bea
    (athlete 9), Zoe (athlete 7). *)
Example roster_in_name_order :
  response (athlete_list int_of_string int64 String.leb (get_form admin_user)
              sample_db)
  = render_list "athletes/athlete_list.html" [athlete8; athlete9; athlete7].
Proof. by vm_compute. Qed.

(** The coach's submission of ["+70"] and [" 7_1 "] deletes user 70, the
    user of the athlete of the coach's team, and leaves user 71. *)
Example spaced_ids_delete :
  users (db_after (athlete_list int_of_string int64 String.leb
                     (post coach_user spaced_post) sample_db))
  = [admin_user; coach_user; tennis_user; lone_user].
Proof. by vm_compute. Qed.

(** A number that the driver refuses stops the delete, unless the
    requester sees nobody and no query is sent. *)
Example refused_id :
  athlete_list int_of_string int64 String.leb
    (post coach_user {[ "athlete_ids" := ["70"; "99999999999999999999"] ]})
    sample_db
  = mkOutcome sample_db [] (ServerError OverflowError)
  ∧ athlete_list int_of_string int64 String.leb
      (post lone_user {[ "athlete_ids" := ["70"; "99999999999999999999"] ]})
      sample_db
    = mkOutcome sample_db [] (redirect "athlete-list" None).
Proof. by vm_compute. Qed.

(** The texts that [int] reads as 70. *)
Example int_of_string_examples :
  int_of_string "+70" = Some 70 ∧ int_of_string " 70" = Some 70
  ∧ int_of_string "70 " = Some 70 ∧ int_of_string "7_0" = Some 70
  ∧ int_of_string "-70" = Some (-70) ∧ int_of_string "070" = Some 70
  ∧ int_of_string "7__0" = None ∧ int_of_string "70_" = None
  ∧ int_of_string "+ 70" = None ∧ int_of_string "7 0" = None
  ∧ int_of_string "" = None ∧ int_of_string "7.0" = None.
Proof. by vm_compute. Qed.

Lemma game_report_form_field_witness :
  goals ∈ statistics sample_db ∧ Statistic.sport goals = Some 10
  ∧ is_Some (GameReportForm (Some 10) sample_db !! Statistic.short_name goals).
Proof.
  assert (goals ∈ statistics sample_db) as Hin by apply list_elem_of_here.
  split_and!; [exact Hin|reflexivity|].
  destruct (game_report_form_field 10 sample_db (Statistic.short_name goals))
    as (_ & _ & Hiff & _).
  apply Hiff. by exists goals.
Defined.

Lemma game_report_form_size_witness :
  NoDup (Statistic.short_name <$> sport_specific_stats 10 sample_db)
  ∧ size (GameReportForm (Some 10) sample_db)
    = length (sport_specific_stats 10 sample_db).
Proof.
  assert (NoDup (Statistic.short_name <$> sport_specific_stats 10 sample_db))
    as Hnd.
  { apply NoDup_ListNoDup. vm_compute. repeat constructor. by intros []. }
  split; [exact Hnd|].
  exact (proj2 (game_report_form_size 10 sample_db) Hnd).
Defined.

Lemma validation_keeps_distinct_free_emails_witness :
  ann_again ∈ sample_formset ∧ Entry.has_changed ann_again = true
  ∧ Entry.email ann_again = Some "ann@X.org" ∧ "ann@X.org" ≠ ""
  ∧ sample_taken "ann@X.org" = false
  ∧ ∃ d', d' ∈ new_athletes_info
                 (validation ascii_lower sample_taken sample_formset)
          ∧ lowered ascii_lower d' = Some (ascii_lower "ann@X.org").
Proof.
  assert (ann_again ∈ sample_formset) as Hin.
  { apply list_elem_of_In. simpl. auto. }
  assert ("ann@X.org" ≠ "") as Hne by discriminate.
  split_and!; [exact Hin|reflexivity|reflexivity|exact Hne|reflexivity|].
  destruct (validation_keeps_distinct_free_emails ascii_lower sample_taken
              sample_formset) as (_ & _ & _ & _ & Hcov).
  exact (Hcov ann_again "ann@X.org" Hin eq_refl eq_refl Hne eq_refl).
Defined.

Lemma unique_username_free_witness :
  ("bo.diaz" ∉ ["ann.lee"; "ann.lee1"])
  ∧ unique_username ["ann.lee"; "ann.lee1"] "bo.diaz" = Some "bo.diaz".
Proof.
  assert ("bo.diaz" ∉ ["ann.lee"; "ann.lee1"]) as Hfree.
  { intros H. apply list_elem_of_In in H. simpl in H.
    destruct H as [H|[H|[]]]; discriminate H. }
  split; [exact Hfree|].
  destruct (unique_username_free ["ann.lee"; "ann.lee1"] "bo.diaz")
    as (n & Hn & _ & _ & H0).
  rewrite Hn. by rewrite (H0 Hfree).
Defined.

Lemma created_usernames_distinct_witness :
  ∃ names, created_usernames ascii_lower ["ann.lee"] [ann; ann_again; bo]
           = Some names
    ∧ "ann.lee1" ∈ names ∧ "ann.lee1" ∉ ["ann.lee"].
Proof.
  destruct (created_usernames_distinct ascii_lower ["ann.lee"]
              [ann; ann_again; bo]) as (names & Hn & _ & _ & Hnot).
  exists names. split; [exact Hn|].
  assert ("ann.lee1" ∈ names) as Hin.
  { assert (Some names = Some ["ann.lee1"; "ann.lee2"; "bo.diaz"]) as [= ->]
      by (rewrite <- Hn; by vm_compute).
    apply list_elem_of_here. }
  split; [exact Hin|exact (Hnot _ Hin)].
Defined.

Lemma universal_value_prefilled_witness :
  NoDup (Statistic.pk <$> statistics sample_db) ∧ statistics_exist sample_db
  ∧ ("pts", "Points") ∈ sample_universal
  ∧ (∀ key', (key', "Points") ∈ sample_universal → key' = "pts")
  ∧ sample_cleaned !! "pts" = Some (Str "12") ∧ truthy (Str "12") = true
  ∧ ∃ db', upsert sample_universal athlete7 10 2024 sample_cleaned sample_db
           = (db', inr tt)
      ∧ ∃ s, filter (is_universal "Points") (statistics db') = [s]
          ∧ ((∀ st', st' ∈ statistics db' →
                Statistic.short_name st' = Statistic.short_name s → st' = s) →
             ∃ init, initial_data 2024 athlete7 db' = inr init
                     ∧ init !! Statistic.short_name s
                       = Some (Str (to_text (Str "12")))).
Proof.
  assert (("pts", "Points") ∈ sample_universal) as Hin by apply list_elem_of_here.
  assert (∀ key', (key', "Points") ∈ sample_universal → key' = "pts") as Hkey.
  { intros key' H. apply list_elem_of_In in H. simpl in H.
    destruct H as [H|[]]. by injection H. }
  split_and!; [exact sample_NoDup|exact sample_statistics_exist|exact Hin
              |exact Hkey|reflexivity|reflexivity|].
  eexists. split; [by vm_compute|].
  destruct (universal_value_prefilled sample_universal athlete7 10 2024
              sample_cleaned "pts" "Points" (Str "12") sample_db _
              sample_NoDup sample_statistics_exist Hin Hkey eq_refl eq_refl
              ltac:(by vm_compute))
    as (s & Hs & _ & _ & Hinit).
  by exists s.
Defined.
